(** * NutriSnap: derived health metrics and mission bookkeeping

    A shallow embedding of the three computations of the application that the
    specification singles out:

    - the Mission Engine of [MissionsScreen] (loading, generation from the
      fixed templates, progress reports and point awards);
    - the Trend Classifier, as written in [WeightTrackingScreen.loadData] and
      in [HomeScreen.loadDashboardData];
    - the Metrics Aggregator of [HomeScreen.loadDashboardData].

    Beside them it embeds what the same components do around these
    computations: the mascot and the start button of [MissionsScreen]
    ([updateKoalaState], [handleMissionAction]); the weekly prompt,
    [addWeightRecord] and [prepareChartData] of [WeightTrackingScreen]; the
    net calorie card of [HomeScreen].

    Conventions of the embedding.

    - Mission quantities ([points], [target], [progress]) are integers ([Z]);
      nutrition values and body weights are exact rationals ([Qc]), so that
      fractional grams and kilograms are expressible.  IEEE rounding of the
      JavaScript [number] type is not modelled.
    - An instant is its number of milliseconds since the epoch ([Z]); an ISO
      timestamp string stands for the instant it denotes, and a calendar date
      string [YYYY-MM-DD] for its day number (days since the epoch, UTC).
    - The local time zone has a fixed offset from UTC (no daylight saving),
      which holds for the Indonesian zones the application targets.
    - One operation reads the clock once: all [new Date()] calls of an
      operation return the same instant.
    - The remote tables are finite maps from the row id (the primary key) to
      the remaining columns; the store picks the id of an inserted row. *)

From Stdlib Require Import ZArith QArith Qcanon Qround.
From stdpp Require Import gmap strings list fin_maps numbers sorting.

Local Open Scope string_scope.
Local Open Scope Z_scope.

(** ** JavaScript helpers *)

(** [Array.prototype.sort(cmp)]: a stable sort; [cmp a b <= 0] keeps [a]
    before [b].  For the comparators used here (lexicographic on totally
    ordered keys) the stable result is unique; it is computed by insertion
    from the right. *)
Fixpoint sort_insert {A : Type} (cmp : A → A → Z) (x : A) (l : list A) : list A :=
  match l with
  | [] => [x]
  | y :: l' => if decide (cmp x y ≤ 0) then x :: l else y :: sort_insert cmp x l'
  end.

Definition js_sort {A : Type} (cmp : A → A → Z) (l : list A) : list A :=
  foldr (sort_insert cmp) [] l.

(** [Math.round]: the nearest integer, ties towards plus infinity. *)
Definition Math_round (x : Qc) : Z := Qfloor (x + Q2Qc (1 # 2))%Qc.

(** [Math.ceil(a / b)] for integers [a] and [b > 0]. *)
Definition Math_ceil_div (a b : Z) : Z := - ((- a) / b).

(** One day, in milliseconds. *)
Definition msPerDay : Z := 86400000.

(** Truthiness of a string ([if (userId)]): the empty string is falsy. *)
Definition truthy (s : string) : bool := negb (String.eqb s "").

(** ** Records (the screens' own type declarations) *)

Module Mission.

Inductive kind := daily | weekly | special.

#[global] Instance kind_eq_dec : EqDecision kind.
Proof. solve_decision. Defined.

(** The columns a screen writes with [insertData('missions', ...)]; the row id
    is added by the store. *)
Record row := mkRow {
  userId : string;
  title : string;
  description : string;
  type : kind;
  points : Z;
  target : Z;
  progress : Z;
  completed : bool;
  expiresAt : Z;
  createdAt : Z
}.

(** [type Mission] of the missions screen: the id together with the columns. *)
Record t := mk { id : string; cols : row }.

Definition set_progress (p : Z) (c : bool) (r : row) : row :=
  mkRow (userId r) (title r) (description r) (type r) (points r) (target r)
        p c (expiresAt r) (createdAt r).

End Mission.

Coercion Mission.cols : Mission.t >-> Mission.row.

Module User.

(** The [users] columns the missions screen reads and writes.  [points] may be
    null in the table ([userData[0].points || 0]). *)
Record row := mkRow { points : option Z }.

Definition set_points (p : Z) (r : row) : row := mkRow (Some p).

End User.

Module WeightRecord.
Record t := mk { weight : Qc; date : Z }.
End WeightRecord.

Module Food.
Record t := mk { calories : Qc; protein : Qc; fat : Qc; carbs : Qc; date : Z }.
End Food.

Module Exercise.
Record t := mk { caloriesBurned : Qc; date : Z }.
End Exercise.

(** ** The record store and the screen state *)

Inductive Table := t_missions | t_users | t_badges.

Inductive Request :=
| ReqGetUser
| ReqSelect (tbl : Table)
| ReqInsert (tbl : Table)
| ReqUpdate (tbl : Table) (id : string).

#[global] Instance Table_eq_dec : EqDecision Table.
Proof. solve_decision. Defined.

#[global] Instance Request_eq_dec : EqDecision Request.
Proof. solve_decision. Defined.

(** The remote service.  [faults] scripts the coming requests: [true] makes
    the next request fail with an error object; once the script is exhausted
    every request succeeds.  [requests] logs every request issued, newest
    first. *)
Record Store := mkStore {
  tbl_missions : gmap string Mission.row;
  tbl_users : gmap string User.row;
  auth_user : option string;
  faults : list bool;
  requests : list Request
}.

(** The React state of the missions screen, with what it showed
    ([Alert.alert]) and logged ([console.error]).  An operation reads the
    state of the render it was started from; operations run one after the
    other, each on the state the previous one left. *)
Record Screen := mkScreen {
  userId : option string;
  missions : list Mission.t;
  userPoints : Z;
  alerts : list (string * string);
  errors : list string
}.

Record World := mkWorld { store : Store; screen : Screen }.

(** The result of an async function: it returns, it throws, or it is still
    running when the fuel of the model is used up. *)
Inductive Outcome (A : Type) :=
| Done (a : A) (w : World)
| Thrown (w : World)
| Diverged.
Arguments Done {A} a w.
Arguments Thrown {A} w.
Arguments Diverged {A}.

Definition M (A : Type) : Type := World → Outcome A.

Definition ret {A} (a : A) : M A := λ w, Done a w.

Definition bind {A B} (c : M A) (k : A → M B) : M B :=
  λ w, match c w with
       | Done a w' => k a w'
       | Thrown w' => Thrown w'
       | Diverged => Diverged
       end.

Definition throw {A} : M A := λ w, Thrown w.

(** [try { c } catch (error) { h }] *)
Definition try_catch {A} (c h : M A) : M A :=
  λ w, match c w with
       | Thrown w' => h w'
       | o => o
       end.

Declare Scope async_scope.
Delimit Scope async_scope with async.
Notation "x <- c ;; k" := (bind c (λ x, k))
  (at level 100, c at next level, right associativity) : async_scope.
Notation "c ;; k" := (bind c (λ _, k))
  (at level 100, right associativity) : async_scope.
Local Open Scope async_scope.

(** The [{ data, error }] object of the client library. *)
Inductive Result (A : Type) := Ok (data : A) | Err.
Arguments Ok {A} data.
Arguments Err {A}.

(** ** api/supabase.ts *)

Module Supabase.

(** One round trip: logs the request and reads the next scripted fault. *)
Definition request (r : Request) : M bool :=
  λ w, let s := store w in
       match faults s with
       | [] => Done false
                 (mkWorld (mkStore (tbl_missions s) (tbl_users s) (auth_user s) [] (r :: requests s))
                          (screen w))
       | b :: fs => Done b
                 (mkWorld (mkStore (tbl_missions s) (tbl_users s) (auth_user s) fs (r :: requests s))
                          (screen w))
       end.

Definition with_missions (f : gmap string Mission.row → gmap string Mission.row) : M unit :=
  λ w, let s := store w in
       Done tt (mkWorld (mkStore (f (tbl_missions s)) (tbl_users s) (auth_user s) (faults s) (requests s))
                        (screen w)).

Definition with_users (f : gmap string User.row → gmap string User.row) : M unit :=
  λ w, let s := store w in
       Done tt (mkWorld (mkStore (tbl_missions s) (f (tbl_users s)) (auth_user s) (faults s) (requests s))
                        (screen w)).

Definition read {A} (f : Store → A) : M A := λ w, Done (f (store w)) w.

(** [getCurrentUser]: [data.user] is the signed-in user, if any. *)
Definition getCurrentUser : M (Result (option string)) :=
  failed <- request ReqGetUser ;;
  if (failed : bool) then ret Err else u <- read auth_user ;; ret (Ok u).

(** The rows of the missions table as the client receives them. *)
Definition mission_rows (tbl : gmap string Mission.row) : list Mission.t :=
  (λ kr, Mission.mk kr.1 kr.2) <$> map_to_list tbl.

(** [from('missions').select('*').eq('userId', value)] *)
Definition select_missions (value : string) (tbl : gmap string Mission.row) : list Mission.t :=
  filter (λ m : Mission.t, Mission.userId m = value) (mission_rows tbl).

(** [from('missions').insert(data)]: the store keys the new row with an id
    that no row of the table has. *)
Definition insert_mission (data : Mission.row) (tbl : gmap string Mission.row)
  : gmap string Mission.row :=
  <[fresh (dom tbl) := data]> tbl.

(** [from('missions').update({ progress, completed }).eq('id', id)] *)
Definition update_mission (id : string) (progress : Z) (completed : bool)
    (tbl : gmap string Mission.row) : gmap string Mission.row :=
  alter (Mission.set_progress progress completed) id tbl.

(** [from('users').update({ points }).eq('id', id)] *)
Definition update_user (id : string) (points : Z) (tbl : gmap string User.row)
  : gmap string User.row :=
  alter (User.set_points points) id tbl.

(** [getData('missions', 'userId', value)] *)
Definition getData_missions (value : string) : M (Result (list Mission.t)) :=
  failed <- request (ReqSelect t_missions) ;;
  if (failed : bool) then ret Err
  else tbl <- read tbl_missions ;; ret (Ok (select_missions value tbl)).

(** [getData('users', 'id', value)]: at most one row, [id] being the key. *)
Definition getData_users (value : string) : M (Result (list User.row)) :=
  failed <- request (ReqSelect t_users) ;;
  if (failed : bool) then ret Err
  else tbl <- read tbl_users ;;
       ret (Ok (option_list (tbl !! value))).

(** [getData('badges', 'userId', value)]: the badges themselves play no part
    in the mission engine; only the request and its possible failure do. *)
Definition getData_badges (value : string) : M (Result unit) :=
  failed <- request (ReqSelect t_badges) ;;
  if (failed : bool) then ret Err else ret (Ok tt).

(** [insertData('missions', data)]; a failed request changes nothing. *)
Definition insertData_missions (data : Mission.row) : M (Result unit) :=
  failed <- request (ReqInsert t_missions) ;;
  if (failed : bool) then ret Err
  else with_missions (insert_mission data) ;; ret (Ok tt).

(** [updateData('missions', id, { progress, completed })] *)
Definition updateData_missions (id : string) (progress : Z) (completed : bool) : M (Result unit) :=
  failed <- request (ReqUpdate t_missions id) ;;
  if (failed : bool) then ret Err
  else with_missions (update_mission id progress completed) ;; ret (Ok tt).

(** [updateData('users', id, { points })] *)
Definition updateData_users (id : string) (points : Z) : M (Result unit) :=
  failed <- request (ReqUpdate t_users id) ;;
  if (failed : bool) then ret Err
  else with_users (update_user id points) ;; ret (Ok tt).

End Supabase.

(** ** The runtime environment of one operation *)

(** The clock reading [new Date()], the offset of the local zone from UTC (in
    milliseconds), and the translation function of the [i18n] instance (the
    translation tables themselves are not part of the sources at hand). *)
Record Env := mkEnv {
  now : Z;
  tzOffset : Z;
  i18n_t : string → string;
  i18n_t_points : string → Z → string
}.

(** [new Date(now.getFullYear(), now.getMonth(), now.getDate() + k)]: local
    midnight of the day [k] days after the current one. *)
Definition localMidnight (e : Env) (k : Z) : Z :=
  ((now e + tzOffset e) / msPerDay + k) * msPerDay - tzOffset e.

(** ** screens/MissionsScreen *)

Module MissionsScreen.

(** *** State setters and effects of the component *)

Definition get : M Screen := λ w, Done (screen w) w.

Definition setUserId (u : string) : M unit :=
  λ w, let s := screen w in
       Done tt (mkWorld (store w) (mkScreen (Some u) (missions s) (userPoints s) (alerts s) (errors s))).

Definition setMissions (ms : list Mission.t) : M unit :=
  λ w, let s := screen w in
       Done tt (mkWorld (store w) (mkScreen (userId s) ms (userPoints s) (alerts s) (errors s))).

Definition setUserPoints (p : Z) : M unit :=
  λ w, let s := screen w in
       Done tt (mkWorld (store w) (mkScreen (userId s) (missions s) p (alerts s) (errors s))).

Definition Alert_alert (title message : string) : M unit :=
  λ w, let s := screen w in
       Done tt (mkWorld (store w)
                  (mkScreen (userId s) (missions s) (userPoints s) ((title, message) :: alerts s) (errors s))).

Definition console_error (message : string) : M unit :=
  λ w, let s := screen w in
       Done tt (mkWorld (store w)
                  (mkScreen (userId s) (missions s) (userPoints s) (alerts s) (message :: errors s))).

(** [for (const x of l) { await body(x) }] *)
Fixpoint for_of {A} (l : list A) (body : A → M unit) : M unit :=
  match l with
  | [] => ret tt
  | x :: l' => body x ;; for_of l' body
  end.

(** *** Sorting of the loaded missions *)

Definition typeOrder (k : Mission.kind) : Z :=
  match k with
  | Mission.daily => 0
  | Mission.weekly => 1
  | Mission.special => 2
  end.

(** The comparator of [loadData]: by type, then incomplete first, then by
    expiration date (soonest first). *)
Definition compareMissions (a b : Mission.t) : Z :=
  let typeComparison := typeOrder (Mission.type a) - typeOrder (Mission.type b) in
  if decide (typeComparison ≠ 0) then typeComparison
  else if negb (eqb (Mission.completed a) (Mission.completed b))
       then (if Mission.completed a then 1 else -1)
       else Mission.expiresAt a - Mission.expiresAt b.

(** *** Mission templates *)

Record Template := mkTemplate {
  tpl_title : string;
  tpl_description : string;
  tpl_type : Mission.kind;
  tpl_points : Z;
  tpl_target : Z;
  tpl_progress : Z;
  tpl_completed : bool
}.

Definition dailyMissionTemplates (e : Env) : list Template :=
  [ mkTemplate (i18n_t e "logFoodTwice") (i18n_t e "logFoodTwiceDesc") Mission.daily 10 2 0 false;
    mkTemplate (i18n_t e "logExerciseOnce") (i18n_t e "logExerciseOnceDesc") Mission.daily 15 1 0 false;
    mkTemplate (i18n_t e "consumeFiber") (i18n_t e "consumeFiberDesc") Mission.daily 20 25 0 false ].

Definition weeklyMissionTemplates (e : Env) : list Template :=
  [ mkTemplate (i18n_t e "burnCalories") (i18n_t e "burnCaloriesDesc") Mission.weekly 50 1000 0 false;
    mkTemplate (i18n_t e "noFriedFood") (i18n_t e "noFriedFoodDesc") Mission.weekly 40 3 0 false;
    mkTemplate (i18n_t e "proteinIntake") (i18n_t e "proteinIntakeDesc") Mission.weekly 45 50 0 false ].

(** The object literal [mission] built in the loops of the two generators. *)
Definition instantiate (userId : string) (expiresAt createdAt : Z) (template : Template) : Mission.row :=
  Mission.mkRow userId (tpl_title template) (tpl_description template) (tpl_type template)
                (tpl_points template) (tpl_target template) (tpl_progress template)
                (tpl_completed template) expiresAt createdAt.

(** *** The mission engine

    [loadData], [checkAndGenerateMissions] and the two generators call one
    another; the generators take the reload they end with as the argument
    [loadData], and the recursion is tied in [loadData] below. *)

Definition generateDailyMissions (e : Env) (loadData : M unit) (userId : string) : M unit :=
  try_catch
    (let tomorrow := localMidnight e 1 in
     for_of (dailyMissionTemplates e)
       (λ template,
          Supabase.insertData_missions (instantiate userId tomorrow (now e) template) ;; ret tt) ;;
     loadData)
    (console_error "Error generating daily missions:").

Definition generateWeeklyMissions (e : Env) (loadData : M unit) (userId : string) : M unit :=
  try_catch
    (let nextWeek := localMidnight e 7 in
     for_of (weeklyMissionTemplates e)
       (λ template,
          Supabase.insertData_missions (instantiate userId nextWeek (now e) template) ;; ret tt) ;;
     loadData)
    (console_error "Error generating weekly missions:").

(** The filter of [checkAndGenerateMissions]:
    [mission.type === k && new Date(mission.expiresAt) >= today]. *)
Definition activeMissions (today : Z) (k : Mission.kind) (currentMissions : list Mission.t)
  : list Mission.t :=
  filter (λ mission : Mission.t, Mission.type mission = k ∧ today ≤ Mission.expiresAt mission)
         currentMissions.

Definition checkAndGenerateMissions (e : Env) (loadData : M unit)
    (userId : string) (currentMissions : list Mission.t) : M unit :=
  let today := localMidnight e 0 in
  let dailyMissions := activeMissions today Mission.daily currentMissions in
  (if decide (length dailyMissions = 0%nat)
   then generateDailyMissions e loadData userId else ret tt) ;;
  let weeklyMissions := activeMissions today Mission.weekly currentMissions in
  (if decide (length weeklyMissions = 0%nat)
   then generateWeeklyMissions e loadData userId else ret tt).

(** The body of [loadData]; the badge list and the mascot are presentation
    and only the badge request is kept. *)
Definition loadData_body (e : Env) (loadData : M unit) : M unit :=
  try_catch
    (r <- Supabase.getCurrentUser ;;
     match r with
     | Err => throw
     | Ok None => ret tt
     | Ok (Some uid) =>
         setUserId uid ;;
         ru <- Supabase.getData_users uid ;;
         match ru with
         | Err => throw
         | Ok userData =>
             match userData with
             | u :: _ => setUserPoints (default 0 (User.points u))
             | [] => ret tt
             end ;;
             rm <- Supabase.getData_missions uid ;;
             match rm with
             | Err => throw
             | Ok missionsData =>
                 let sortedMissions := js_sort compareMissions missionsData in
                 setMissions sortedMissions ;;
                 checkAndGenerateMissions e loadData uid sortedMissions ;;
                 rb <- Supabase.getData_badges uid ;;
                 match rb with
                 | Err => throw
                 | Ok _ => ret tt
                 end
             end
         end
     end)
    (console_error "Error loading data:" ;;
     Alert_alert (i18n_t e "error") (i18n_t e "loadDataError")).

(** [loadData]: [fuel] bounds the depth of nested reloads. *)
Fixpoint loadData (e : Env) (fuel : nat) : M unit :=
  match fuel with
  | O => λ _, Diverged
  | S n => loadData_body e (loadData e n)
  end.

(** [missions.find(m => m.id === missionId)] *)
Definition findMission (missionId : string) (l : list Mission.t) : option Mission.t :=
  find (λ m : Mission.t, bool_decide (Mission.id m = missionId)) l.

Definition updateMissionProgress (e : Env) (fuel : nat)
    (missionId : string) (newProgress : Z) : M unit :=
  try_catch
    (s <- get ;;
     match findMission missionId (missions s) with
     | None => ret tt
     | Some mission =>
         let completed := bool_decide (Mission.target mission ≤ newProgress) in
         r <- Supabase.updateData_missions missionId newProgress completed ;;
         match r with
         | Err => throw
         | Ok _ =>
             (if completed && negb (Mission.completed mission)
              then
                let newPoints := userPoints s + Mission.points mission in
                match userId s with
                | Some uid =>
                    if truthy uid
                    then Supabase.updateData_users uid newPoints ;;
                         setUserPoints newPoints ;;
                         Alert_alert (i18n_t e "missionCompleted")
                                     (i18n_t_points e "earnedPoints" (Mission.points mission))
                    else ret tt
                | None => ret tt
                end
              else ret tt) ;;
             loadData e fuel
         end
     end)
    (console_error "Error updating mission progress:" ;;
     Alert_alert (i18n_t e "error") (i18n_t e "updateProgressError")).

(** [renderMissionItem]: the two numbers of the progress text,
    [{progress} / {item.target}] (the width of the bar is left out). *)
Definition renderMissionItem (item : Mission.t) : Z * Z :=
  let progress := Z.min (Mission.progress item) (Mission.target item) in
  (progress, Mission.target item).

(** [updateKoalaState]: the expression and the message of the mascot, from
    the share of completed missions. *)
Definition updateKoalaState (e : Env) (missionsData : list Mission.t) : string * string :=
  if decide (length missionsData = 0%nat)
  then ("neutral", i18n_t e "noMissionsYet")
  else
    let completedMissions :=
      filter (λ mission : Mission.t, Mission.completed mission = true) missionsData in
    let completionRate :=
      (Qc_of_Z (Z.of_nat (length completedMissions))
       / Qc_of_Z (Z.of_nat (length missionsData)))%Qc in
    if decide (completionRate = 1%Qc) then ("excited", i18n_t e "allMissionsCompleted")
    else if decide (Q2Qc (1 # 2) ≤ completionRate)%Qc then ("happy", i18n_t e "halfwayThere")
    else if decide (0 < completionRate)%Qc then ("motivated", i18n_t e "keepGoing")
    else ("thinking", i18n_t e "startMissions").

(** What the start button of a mission does. *)
Inductive Action :=
| Navigate (route : string)
| ShowAlert (title message : string).

(** [handleMissionAction]: the [switch] on the title compares it with the
    translated template titles, in the order of its [case] labels. *)
Definition handleMissionAction (e : Env) (mission : Mission.t) : Action :=
  let title := Mission.title mission in
  if decide (title = i18n_t e "logFoodTwice") then Navigate "AddFood"
  else if decide (title = i18n_t e "consumeFiber") then Navigate "AddFood"
  else if decide (title = i18n_t e "logExerciseOnce") then Navigate "AddExercise"
  else if decide (title = i18n_t e "burnCalories") then Navigate "AddExercise"
  else ShowAlert title (Mission.description mission).

End MissionsScreen.

(** ** screens/WeightTrackingScreen and screens/HomeScreen *)

(** The values of the [weightTrend] state of both screens. *)
Inductive Trend := increasing | decreasing | stagnant.

#[global] Instance Trend_eq_dec : EqDecision Trend.
Proof. solve_decision. Defined.

(** The comparator of both screens, newest first:
    [new Date(b.date).getTime() - new Date(a.date).getTime()]. *)
Definition compareByDateDesc (a b : WeightRecord.t) : Z :=
  WeightRecord.date b - WeightRecord.date a.

(** The three-way comparison both screens apply to the two newest weights. *)
Definition compareWeights (latestWeight previousWeight : Qc) : Trend :=
  if decide (latestWeight < previousWeight)%Qc then decreasing
  else if decide (previousWeight < latestWeight)%Qc then increasing
  else stagnant.

Module WeightTrackingScreen.

(** [useState<'increasing' | 'decreasing' | 'stagnant' | null>(null)] *)
Definition weightTrend_initial : option Trend := None.

(** The trend part of [loadData]: the records are sorted, and the state
    [weightTrend] is set only when there are at least two of them. *)
Definition loadData (weightData : list WeightRecord.t) (weightTrend : option Trend)
  : option Trend :=
  let sortedRecords := js_sort compareByDateDesc weightData in
  match sortedRecords with
  | r0 :: r1 :: _ =>
      Some (compareWeights (WeightRecord.weight r0) (WeightRecord.weight r1))
  | _ => weightTrend
  end.

(** The weekly prompt of [loadData]: the modal to add a weight is opened when
    [Math.ceil] of the days between now and the newest record is at least 7;
    otherwise the state [showAddWeightModal] is left as it is. *)
Definition loadData_showAddWeightModal (now : Z) (weightData : list WeightRecord.t)
    (showAddWeightModal : bool) : bool :=
  let sortedRecords := js_sort compareByDateDesc weightData in
  match sortedRecords with
  | lastRecord :: _ =>
      let diffTime := Z.abs (now - WeightRecord.date lastRecord) in
      let diffDays := Math_ceil_div diffTime msPerDay in
      if decide (7 ≤ diffDays) then true else showAddWeightModal
  | [] => showAddWeightModal
  end.

(** The state of the screen that [addWeightRecord] reads and sets;
    [currentWeight] is [userData.currentWeight], absent while [userData] is
    null; [alerts] holds the message keys of the alerts shown, newest first
    (the text field and the progress indicator are left out). *)
Record State := mkState {
  userId : option string;
  currentWeight : option Qc;
  weightRecords : list WeightRecord.t;
  showAddWeightModal : bool;
  weightTrend : option Trend;
  alerts : list string
}.

(** The writes [addWeightRecord] sends to the store. *)
Inductive Write :=
| InsertWeightRecord (userId : string) (weight : Qc) (date : Z)
| UpdateCurrentWeight (userId : string) (weight : Qc).

(** [addWeightRecord].  [parsed] is [parseFloat(newWeight)], [None] when the
    text is blank or not a number; [insertFails] and [updateFails] say whether
    the store answers the two writes with an error.  The result is the new
    state with the writes that the store accepted, oldest first. *)
Definition addWeightRecord (now : Z) (parsed : option Qc) (insertFails updateFails : bool)
    (st : State) : State * list Write :=
  match parsed with
  | None =>
      (mkState (userId st) (currentWeight st) (weightRecords st) (showAddWeightModal st)
               (weightTrend st) ("invalidWeightError" :: alerts st), [])
  | Some weight =>
      let currentDate := now in
      match userId st with
      | Some uid =>
          if truthy uid
          then
            if insertFails
            then (mkState (userId st) (currentWeight st) (weightRecords st)
                          (showAddWeightModal st) (weightTrend st)
                          ("addWeightError" :: alerts st), [])
            else
              let newRecord := WeightRecord.mk weight currentDate in
              let trend :=
                match weightRecords st with
                | previous :: _ => Some (compareWeights weight (WeightRecord.weight previous))
                | [] => weightTrend st
                end in
              (mkState (userId st)
                       (match currentWeight st with Some _ => Some weight | None => None end)
                       (newRecord :: weightRecords st) false trend (alerts st),
               InsertWeightRecord uid weight currentDate
                 :: (if updateFails then [] else [UpdateCurrentWeight uid weight]))
          else (st, [])
      | None => (st, [])
      end
  end.

(** [prepareChartData]: the labels and the two datasets of the chart;
    [formatLabel] stands for the day/month text of a date, [targetWeight] for
    [userData?.targetWeight]. *)
Definition prepareChartData (formatLabel : Z → string) (targetWeight : option Qc)
    (weightRecords : list WeightRecord.t) : list string * list Qc * list Qc :=
  let last12Weeks := reverse (take 12 weightRecords) in
  let labels := (λ record, formatLabel (WeightRecord.date record)) <$> last12Weeks in
  let weightData := WeightRecord.weight <$> last12Weeks in
  let targetData := replicate (length labels) (default 0%Qc targetWeight) in
  (labels, weightData, targetData).

End WeightTrackingScreen.

Module HomeScreen.

Inductive CalorieStatus := surplus | deficit.

Record MacroData := mkMacroData { protein : Z; fat : Z; carbs : Z }.

(** The data state of the component that [loadDashboardData] sets. *)
Record State := mkState {
  caloriesIn : Qc;
  caloriesOut : Qc;
  netCalories : Qc;
  calorieStatus : CalorieStatus;
  weeklyCaloriesData_in : list Qc;
  weeklyCaloriesData_out : list Qc;
  macroData : MacroData;
  weightTrend : Trend
}.

(** The [useState] initial values. *)
Definition initial : State :=
  mkState 0%Qc 0%Qc 0%Qc deficit (replicate 7 0%Qc) (replicate 7 0%Qc)
          (mkMacroData 0 0 0) stagnant.

(** [l.reduce((sum, x) => sum + f(x), 0)] *)
Definition reduce_sum {A} (f : A → Qc) (l : list A) : Qc :=
  fold_left (λ sum x, (sum + f x)%Qc) l 0%Qc.

(** [d.toISOString().split('T')[0]] as a day number. *)
Definition isoDate (instant : Z) : Z := instant / msPerDay.

(** The seven dates of the weekly chart: [Array.from({ length: 7 }, (_, i) =>
    ...)] shifts the clock reading back by [i] days; then [.reverse()]. *)
Definition last7Days (now : Z) : list Z :=
  reverse ((λ i : nat, isoDate (now - Z.of_nat i * msPerDay)) <$> seq 0 7).

Definition foodsOn (foodData : list Food.t) (date : Z) : list Food.t :=
  filter (λ food, Food.date food = date) foodData.

Definition exercisesOn (exerciseData : list Exercise.t) (date : Z) : list Exercise.t :=
  filter (λ exercise, Exercise.date exercise = date) exerciseData.

(** The filter of the macro averages: [new Date(food.date) >= sevenDaysAgo],
    where [new Date('YYYY-MM-DD')] is midnight UTC of that date. *)
Definition last7DaysFoods (now : Z) (foodData : list Food.t) : list Food.t :=
  filter (λ food,
            let foodDate := Food.date food * msPerDay in
            let sevenDaysAgo := now - 7 * msPerDay in
            sevenDaysAgo ≤ foodDate) foodData.

(** The weight trend part: set only when at least two records were fetched. *)
Definition loadDashboardData_weightTrend (weightData : list WeightRecord.t) (weightTrend : Trend)
  : Trend :=
  if decide (2 ≤ length weightData)%nat
  then match js_sort compareByDateDesc weightData with
       | r0 :: r1 :: _ => compareWeights (WeightRecord.weight r0) (WeightRecord.weight r1)
       | _ => weightTrend
       end
  else weightTrend.

(** [loadDashboardData], from the fetched collections to the state it sets
    (the requests themselves and the recommendations are left out). *)
Definition loadDashboardData (now : Z) (foodData : list Food.t)
    (exerciseData : list Exercise.t) (weightData : list WeightRecord.t) (st : State) : State :=
  let today := isoDate now in
  let todayFoods := foodsOn foodData today in
  let todayExercises := exercisesOn exerciseData today in
  let totalCaloriesIn := reduce_sum Food.calories todayFoods in
  let totalCaloriesOut := reduce_sum Exercise.caloriesBurned todayExercises in
  let weeklyIn := (λ date, reduce_sum Food.calories (foodsOn foodData date)) <$> last7Days now in
  let weeklyOut :=
    (λ date, reduce_sum Exercise.caloriesBurned (exercisesOn exerciseData date)) <$> last7Days now in
  let foods := last7DaysFoods now foodData in
  let totalProtein := reduce_sum Food.protein foods in
  let totalFat := reduce_sum Food.fat foods in
  let totalCarbs := reduce_sum Food.carbs foods in
  let daysCount := Z.max 1 (if decide (0 < length foods)%nat then 7 else 0) in
  mkState totalCaloriesIn totalCaloriesOut
          (totalCaloriesIn - totalCaloriesOut)%Qc
          (if decide (totalCaloriesOut < totalCaloriesIn)%Qc then surplus else deficit)
          weeklyIn weeklyOut
          (mkMacroData (Math_round (totalProtein / Qc_of_Z daysCount)%Qc)
                       (Math_round (totalFat / Qc_of_Z daysCount)%Qc)
                       (Math_round (totalCarbs / Qc_of_Z daysCount)%Qc))
          (loadDashboardData_weightTrend weightData (weightTrend st)).


End HomeScreen.

(** ** Sample data *)

(** 1 January 2024, 23:00 UTC, in a zone seven hours ahead of UTC; the
    translation of a key is the key. *)
Definition sample_env : Env := mkEnv 1704150000000 25200000 (λ k, k) (λ k _, k).

(** A mission of 10 points with target 2 that expires at the coming local
    midnight. *)
Definition sample_row (uid : string) (k : Mission.kind) (completed : bool) : Mission.row :=
  Mission.mkRow uid "logFoodTwice" "logFoodTwiceDesc" k 10 2 0 completed 1704214800000 1704100000000.

(** The user [u1] has 5 points and one daily mission. *)
Definition sample_store : Store :=
  mkStore {[ "m1" := sample_row "u1" Mission.daily false ]}
          {[ "u1" := User.mkRow (Some 5) ]} (Some "u1") [] [].

(** A signed-in user without missions, before the first load. *)
Definition fresh_world : World :=
  mkWorld (mkStore ∅ {[ "u1" := User.mkRow None ]} (Some "u1") [] [])
          (mkScreen None [] 0 [] []).

(** The screen has loaded the mission of [sample_store]. *)
Definition sample_world : World :=
  mkWorld sample_store
          (mkScreen (Some "u1") [Mission.mk "m1" (sample_row "u1" Mission.daily false)] 5 [] []).

(** [w] with the fault script [fs]. *)
Definition with_faults (fs : list bool) (w : World) : World :=
  mkWorld (mkStore (tbl_missions (store w)) (tbl_users (store w)) (auth_user (store w))
                   fs (requests (store w)))
          (screen w).

(** An entry of 300 kcal. *)
Definition sample_food (protein : Z) (date : Z) : Food.t :=
  Food.mk (Qc_of_Z 300) (Qc_of_Z protein) (Qc_of_Z 7) (Qc_of_Z 14) date.

(** 70 kg on 8 January 2024 after 71 kg on 1 January 2024. *)
Definition sample_weights : list WeightRecord.t :=
  [ WeightRecord.mk (Qc_of_Z 70) 1704672000000; WeightRecord.mk (Qc_of_Z 71) 1704067200000 ].

(** * Vocabulary of the statements *)

Section Vocabulary.
Import Supabase MissionsScreen.

(** The rows the two generators build from their templates. *)
Definition dailyRows (e : Env) (uid : string) : list Mission.row :=
  instantiate uid (localMidnight e 1) (now e) <$> dailyMissionTemplates e.

(** The same for the weekly templates. *)
Definition weeklyRows (e : Env) (uid : string) : list Mission.row :=
  instantiate uid (localMidnight e 7) (now e) <$> weeklyMissionTemplates e.

(** The table after the insertion of [rows], one after the other. *)
Definition insert_all (rows : list Mission.row) (tbl : gmap string Mission.row)
  : gmap string Mission.row :=
  foldl (λ t r, insert_mission r t) tbl rows.

(** The missions a reload shows for the user [uid]. *)
Definition loaded (uid : string) (tbl : gmap string Mission.row) : list Mission.t :=
  js_sort compareMissions (select_missions uid tbl).

(** The user has a mission of kind [k] that has not expired before today. *)
Definition hasActive (e : Env) (uid : string) (k : Mission.kind)
    (tbl : gmap string Mission.row) : Prop :=
  ∃ i r, tbl !! i = Some r ∧ Mission.userId r = uid
         ∧ Mission.type r = k ∧ localMidnight e 0 ≤ Mission.expiresAt r.

(** The check of [checkAndGenerateMissions] on a freshly loaded list. *)
Definition lacks (e : Env) (uid : string) (k : Mission.kind)
    (tbl : gmap string Mission.row) : bool :=
  bool_decide (length (activeMissions (localMidnight e 0) k (loaded uid tbl)) = 0%nat).

(** The world once [rows] were inserted. *)
Definition inserted (rows : list Mission.row) (w : World) : World :=
  mkWorld (mkStore (insert_all rows (tbl_missions (store w))) (tbl_users (store w))
                   (auth_user (store w)) (faults (store w))
                   (replicate (length rows) (ReqInsert t_missions) ++ requests (store w)))
          (screen w).

(** The points the screen shows after the user row was fetched. *)
Definition fetchedPoints (uid : string) (w : World) : Z :=
  match tbl_users (store w) !! uid with
  | Some u => default 0 (User.points u)
  | None => userPoints (screen w)
  end.

(** Both kinds that the check looks at are active. *)
Definition ensured (e : Env) (uid : string) (tbl : gmap string Mission.row) : Prop :=
  hasActive e uid Mission.daily tbl ∧ hasActive e uid Mission.weekly tbl.

(** [w'] is [w] after a reload that went through. *)
Record Reloaded (uid : string) (w w' : World) : Prop := mkReloaded {
  rl_faults : faults (store w') = [];
  rl_auth : auth_user (store w') = Some uid;
  rl_users : tbl_users (store w') = tbl_users (store w);
  rl_rows : tbl_missions (store w) ⊆ tbl_missions (store w');
  rl_missions : missions (screen w') = loaded uid (tbl_missions (store w'));
  rl_userId : userId (screen w') = Some uid;
  rl_points : userPoints (screen w') = fetchedPoints uid w;
  rl_alerts : alerts (screen w') = alerts (screen w);
  rl_errors : errors (screen w') = errors (screen w)
}.

(** How many of the two kinds a reload will have to generate. *)
Definition missing (e : Env) (uid : string) (tbl : gmap string Mission.row) : nat :=
  Nat.b2n (lacks e uid Mission.daily tbl) + Nat.b2n (lacks e uid Mission.weekly tbl).

(** [triple D P c Q E]: from a world in [P], if [c] returns [a] the world is
    in [Q a], and if it throws the world is in [E].  [D] is what a run cut
    short by the fuel has to satisfy: [True] makes the statement partial,
    [False] makes it total. *)
Definition triple (D : Prop) {A} (P : World → Prop) (c : M A)
    (Q : A → World → Prop) (E : World → Prop) : Prop :=
  ∀ w, P w → match c w with
              | Done a w' => Q a w'
              | Thrown w' => E w'
              | Diverged => D
              end.

(** The fault script has at most [K] entries left. *)
Definition within (K : nat) (w : World) : Prop := (length (faults (store w)) ≤ K)%nat.

(** A predicate on the missions table and the session, as a predicate on
    worlds. *)
Definition inv (J : gmap string Mission.row → option string → Prop) (w : World) : Prop :=
  J (tbl_missions (store w)) (auth_user (store w)).

(** The rows of kind [k] of two tables are the same. *)
Definition sameRows (k : Mission.kind) (tbl0 tbl : gmap string Mission.row) : Prop :=
  ∀ i r, Mission.type r = k → tbl !! i = Some r ↔ tbl0 !! i = Some r.

(** The invariant of a reload for a kind that is active: the session stays,
    the kind stays active, and its rows are those of [tbl0]. *)
Definition keeps (e : Env) (uid : string) (k : Mission.kind) (tbl0 : gmap string Mission.row)
    (tbl : gmap string Mission.row) (au : option string) : Prop :=
  au = Some uid ∧ hasActive e uid k tbl ∧ sameRows k tbl0 tbl.

(** The world once the mission row was written. *)
Definition progressWritten (missionId : string) (newProgress : Z) (completed : bool)
    (w : World) : World :=
  mkWorld (mkStore (update_mission missionId newProgress completed (tbl_missions (store w)))
                   (tbl_users (store w)) (auth_user (store w)) (faults (store w))
                   (ReqUpdate t_missions missionId :: requests (store w)))
          (screen w).

(** The world once the points were written, set and announced. *)
Definition pointsAwarded (e : Env) (uid : string) (newPoints points : Z) (w : World) : World :=
  mkWorld (mkStore (tbl_missions (store w)) (update_user uid newPoints (tbl_users (store w)))
                   (auth_user (store w)) (faults (store w))
                   (ReqUpdate t_users uid :: requests (store w)))
          (mkScreen (userId (screen w)) (missions (screen w)) newPoints
                    ((i18n_t e "missionCompleted", i18n_t_points e "earnedPoints" points)
                       :: alerts (screen w))
                    (errors (screen w))).

(** Whether a report on [mission] awards its points. *)
Definition awards (mission : Mission.t) (newProgress : Z) (w : World) : bool :=
  bool_decide (Mission.target mission ≤ newProgress)
  && negb (Mission.completed mission)
  && match userId (screen w) with Some uid => truthy uid | None => false end.

(** The world a report hands over to the reload. *)
Definition afterReport (e : Env) (missionId : string) (newProgress : Z)
    (mission : Mission.t) (w : World) : World :=
  let w1 := progressWritten missionId newProgress
              (bool_decide (Mission.target mission ≤ newProgress)) w in
  if awards mission newProgress w
  then pointsAwarded e (default "" (userId (screen w)))
                     (userPoints (screen w) + Mission.points mission)
                     (Mission.points mission) w1
  else w1.

(** The observations are sorted by date, newest first. *)
Definition newestFirst (l : list WeightRecord.t) : Prop :=
  Sorted (λ a b, WeightRecord.date b ≤ WeightRecord.date a) l.

(** The order the comparator of [loadData] stands for. *)
Definition missionsOrder (a b : Mission.t) : Prop :=
  typeOrder (Mission.type a) < typeOrder (Mission.type b)
  ∨ (Mission.type a = Mission.type b
     ∧ ((Mission.completed a = false ∧ Mission.completed b = true)
        ∨ (Mission.completed a = Mission.completed b
           ∧ Mission.expiresAt a ≤ Mission.expiresAt b))).

(** The store serves every request, the user [uid] is signed in, and the
    missions table is [tbl]. *)
Definition served (uid : string) (tbl : gmap string Mission.row) (w : World) : Prop :=
  faults (store w) = [] ∧ auth_user (store w) = Some uid ∧ tbl_missions (store w) = tbl.

(** What a reload may do to the store of [w0]: the users table and the
    session are as they were, every row of the missions table is kept as it
    is, and a row that was added is built from a template for the user who is
    signed in. *)
Definition onlyGenerated (e : Env) (w0 w : World) : Prop :=
  tbl_users (store w) = tbl_users (store w0)
  ∧ auth_user (store w) = auth_user (store w0)
  ∧ tbl_missions (store w0) ⊆ tbl_missions (store w)
  ∧ ∀ i r, tbl_missions (store w) !! i = Some r →
           tbl_missions (store w0) !! i = Some r
           ∨ ∃ uid, auth_user (store w0) = Some uid
                    ∧ r ∈ (dailyRows e uid ++ weeklyRows e uid)%list.

(** The screen of the user [uid] shows what the store holds, and the store
    serves every request. *)
Definition inSync (uid : string) (w : World) : Prop :=
  faults (store w) = [] ∧ auth_user (store w) = Some uid
  ∧ userId (screen w) = Some uid
  ∧ missions (screen w) = loaded uid (tbl_missions (store w))
  ∧ userPoints (screen w) = fetchedPoints uid w.

(** What a report may do to the store of [w]. *)
Definition onlyReported (missionId : string) (w w' : World) : Prop :=
  auth_user (store w') = auth_user (store w)
  ∧ (∀ i r, i ≠ missionId →
            tbl_missions (store w) !! i = Some r → tbl_missions (store w') !! i = Some r)
  ∧ (∀ r, tbl_missions (store w) !! missionId = Some r →
          ∃ progress completed,
            tbl_missions (store w') !! missionId
            = Some (Mission.set_progress progress completed r))
  ∧ (∀ u, userId (screen w) ≠ Some u →
          tbl_users (store w') !! u = tbl_users (store w) !! u).

(** The total of a day as the specification words it: the sum of [value]
    over the entries whose date is [day], and 0 when there is none. *)
Fixpoint spec_dayTotal {A} (date : A → Z) (value : A → Qc) (day : Z) (entries : list A) : Qc :=
  match entries with
  | [] => 0%Qc
  | entry :: rest =>
      if decide (date entry = day)
      then (value entry + spec_dayTotal date value day rest)%Qc
      else spec_dayTotal date value day rest
  end.

End Vocabulary.

(** Symbolic execution of the monadic code. *)
Ltac run :=
  repeat (progress (
    cbv beta iota zeta delta
      [try_catch bind ret throw
       Supabase.request Supabase.with_missions Supabase.with_users Supabase.read
       Supabase.getCurrentUser Supabase.getData_missions Supabase.getData_users
       Supabase.getData_badges Supabase.insertData_missions
       Supabase.updateData_missions Supabase.updateData_users
       MissionsScreen.get MissionsScreen.setUserId MissionsScreen.setMissions
       MissionsScreen.setUserPoints MissionsScreen.Alert_alert
       MissionsScreen.console_error MissionsScreen.for_of
       MissionsScreen.dailyMissionTemplates MissionsScreen.weeklyMissionTemplates
       MissionsScreen.generateDailyMissions MissionsScreen.generateWeeklyMissions
       MissionsScreen.checkAndGenerateMissions MissionsScreen.loadData_body];
    cbn [store screen tbl_missions tbl_users auth_user faults requests
         userId missions userPoints alerts errors])).

(** * Properties *)

(** ** Sorting *)

Section Sorting.
Context {A : Type} (cmp : A → A → Z).

Lemma sort_insert_Permutation x l : sort_insert cmp x l ≡ₚ x :: l.
Proof.
  induction l as [|y l IH]; simpl; [done|].
  case_decide; [done|]. rewrite IH. apply Permutation_swap.
Qed.

Lemma js_sort_Permutation l : js_sort cmp l ≡ₚ l.
Proof.
  induction l as [|x l IH]; simpl; [done|].
  rewrite sort_insert_Permutation. by f_equiv.
Qed.

Lemma js_sort_length l : length (js_sort cmp l) = length l.
Proof. by rewrite js_sort_Permutation. Qed.

Lemma js_sort_elem_of x l : x ∈ js_sort cmp l ↔ x ∈ l.
Proof. by rewrite js_sort_Permutation. Qed.

(** A list the comparator already accepts pair by pair is left as it is. *)
Lemma js_sort_sorted l : Sorted (λ a b, cmp a b ≤ 0) l → js_sort cmp l = l.
Proof.
  induction 1 as [|x l _ IH Hhd]; simpl; [done|].
  rewrite IH. destruct Hhd as [|y l' Hxy]; simpl; [done|].
  by rewrite decide_True.
Qed.

End Sorting.

(** ** Metrics aggregator *)

Section Metrics.
Import HomeScreen.

Lemma fold_sum_shift {A} (f : A → Qc) (l : list A) (a : Qc) :
  fold_left (λ sum x, (sum + f x)%Qc) l a = (a + reduce_sum f l)%Qc.
Proof.
  unfold reduce_sum. revert a.
  induction l as [|x l IH]; intros a; simpl.
  - by rewrite Qcplus_0_r.
  - rewrite IH, (IH (0 + f x)%Qc), Qcplus_0_l. by rewrite Qcplus_assoc.
Qed.

(** [reduce_sum] is the sum of the list. *)
Lemma reduce_sum_cons {A} (f : A → Qc) (x : A) (l : list A) :
  reduce_sum f (x :: l) = (f x + reduce_sum f l)%Qc.
Proof. unfold reduce_sum at 1. simpl. by rewrite fold_sum_shift, Qcplus_0_l. Qed.

Lemma isoDate_shift (instant k : Z) :
  isoDate (instant - k * msPerDay) = isoDate instant - k.
Proof.
  unfold isoDate.
  replace (instant - k * msPerDay) with (instant + (- k) * msPerDay) by lia.
  rewrite Z.div_add by done. lia.
Qed.

(** The chart covers the seven dates that end today, oldest first. *)
Lemma last7Days_dates (now : Z) :
  last7Days now = (λ k, isoDate now - 6 + k) <$> [0; 1; 2; 3; 4; 5; 6].
Proof.
  unfold last7Days. change (seq 0 7) with [0; 1; 2; 3; 4; 5; 6]%nat.
  cbn [fmap list_fmap reverse rev_append].
  rewrite !isoDate_shift. repeat (f_equal; try lia).
Qed.

(** The code's sum over the filtered list is the specification's total of
    the day. *)
Lemma reduce_sum_filter_date {A} (date : A → Z) (value : A → Qc) (day : Z) (l : list A) :
  reduce_sum value (filter (λ x, date x = day) l) = spec_dayTotal date value day l.
Proof.
  induction l as [|x l IH]; [done|].
  rewrite filter_cons. simpl. case_decide; [|done].
  by rewrite reduce_sum_cons, IH.
Qed.

Lemma spec_dayTotal_none {A} (date : A → Z) (value : A → Qc) (day : Z) (l : list A) :
  (∀ x, x ∈ l → date x ≠ day) → spec_dayTotal date value day l = 0%Qc.
Proof.
  induction l as [|x l IH]; intros Hl; simpl; [done|].
  rewrite decide_False by (apply Hl; left).
  apply IH. intros y Hy. apply Hl. by right.
Qed.

(** Today's date is the UTC day the clock reading lies in. *)
Lemma isoDate_today (now : Z) :
  isoDate now * msPerDay ≤ now < (isoDate now + 1) * msPerDay.
Proof. unfold isoDate, msPerDay. Z.div_mod_to_equations. lia. Qed.

(** C4. The daily aggregate.  Today is the UTC day of the clock reading.
    Calories in is the sum of the calories of the food entries dated today
    and of no others, calories out the sum of the calories burnt of the
    exercise entries dated today; the net is their difference, and the status
    is [surplus] exactly when more came in than went out (so equality is a
    [deficit]). *)
Theorem daily_aggregate_net_and_status
    (now : Z) (foodData : list Food.t) (exerciseData : list Exercise.t)
    (weightData : list WeightRecord.t) (st : State) :
  let s := loadDashboardData now foodData exerciseData weightData st in
  let today := isoDate now in
  today * msPerDay ≤ now < (today + 1) * msPerDay
  ∧ caloriesIn s = spec_dayTotal Food.date Food.calories today foodData
  ∧ caloriesOut s = spec_dayTotal Exercise.date Exercise.caloriesBurned today exerciseData
  ∧ netCalories s = (caloriesIn s - caloriesOut s)%Qc
  ∧ (calorieStatus s = surplus ↔ (caloriesOut s < caloriesIn s)%Qc)
  ∧ ((caloriesIn s ≤ caloriesOut s)%Qc ↔ calorieStatus s = deficit).
Proof.
  cbn zeta. split; [apply isoDate_today|].
  unfold loadDashboardData, foodsOn, exercisesOn.
  cbn [caloriesIn caloriesOut netCalories calorieStatus].
  rewrite !reduce_sum_filter_date.
  repeat split; try done.
  - case_decide; [done|discriminate].
  - intros. by rewrite decide_True.
  - intros Hle. rewrite decide_False; [done|]. by apply Qcle_not_lt.
  - case_decide; [discriminate|]. intros _. by apply Qcnot_lt_le.
Qed.

(** C5. The weekly series: seven elements per dataset, the [k]-th being the
    sum over the entries dated [today - 6 + k] and of no others; the element
    of a date on which no entry is dated is 0. *)
Theorem weekly_series_seven_days
    (now : Z) (foodData : list Food.t) (exerciseData : list Exercise.t)
    (weightData : list WeightRecord.t) (st : State) :
  let s := loadDashboardData now foodData exerciseData weightData st in
  let today := isoDate now in
  length (weeklyCaloriesData_in s) = 7%nat
  ∧ length (weeklyCaloriesData_out s) = 7%nat
  ∧ weeklyCaloriesData_in s =
      (λ k, spec_dayTotal Food.date Food.calories (today - 6 + k) foodData)
        <$> [0; 1; 2; 3; 4; 5; 6]
  ∧ weeklyCaloriesData_out s =
      (λ k, spec_dayTotal Exercise.date Exercise.caloriesBurned (today - 6 + k) exerciseData)
        <$> [0; 1; 2; 3; 4; 5; 6]
  ∧ (∀ k, (k < 7)%nat →
       (∀ food, food ∈ foodData → Food.date food ≠ today - 6 + Z.of_nat k) →
       weeklyCaloriesData_in s !! k = Some 0%Qc)
  ∧ (∀ k, (k < 7)%nat →
       (∀ exercise, exercise ∈ exerciseData →
                    Exercise.date exercise ≠ today - 6 + Z.of_nat k) →
       weeklyCaloriesData_out s !! k = Some 0%Qc).
Proof.
  cbn zeta.
  assert (Hin : weeklyCaloriesData_in (loadDashboardData now foodData exerciseData weightData st)
                = (λ k, spec_dayTotal Food.date Food.calories (isoDate now - 6 + k) foodData)
                    <$> [0; 1; 2; 3; 4; 5; 6]).
  { unfold loadDashboardData, foodsOn. cbn [weeklyCaloriesData_in].
    rewrite last7Days_dates, <- list_fmap_compose. apply list_fmap_ext.
    intros _ k _. apply reduce_sum_filter_date. }
  assert (Hout : weeklyCaloriesData_out (loadDashboardData now foodData exerciseData weightData st)
                 = (λ k, spec_dayTotal Exercise.date Exercise.caloriesBurned
                           (isoDate now - 6 + k) exerciseData)
                     <$> [0; 1; 2; 3; 4; 5; 6]).
  { unfold loadDashboardData, exercisesOn. cbn [weeklyCaloriesData_out].
    rewrite last7Days_dates, <- list_fmap_compose. apply list_fmap_ext.
    intros _ k _. apply reduce_sum_filter_date. }
  rewrite Hin, Hout. repeat split; try done.
  - intros k Hk Hnone.
    do 7 (destruct k as [|k]; [simpl; f_equal; by apply spec_dayTotal_none|]). lia.
  - intros k Hk Hnone.
    do 7 (destruct k as [|k]; [simpl; f_equal; by apply spec_dayTotal_none|]). lia.
Qed.

(** The scenario of the specification: 300 and 500 kcal eaten and 200 kcal
    burnt today give 800 in, 200 out, 600 net, a surplus. *)
Example dashboard_scenario :
  let s := loadDashboardData 1704150000000
             [sample_food 10 19723; Food.mk (Qc_of_Z 500) 0%Qc 0%Qc 0%Qc 19723]
             [Exercise.mk (Qc_of_Z 200) 19723] [] initial in
  caloriesIn s = Qc_of_Z 800 ∧ caloriesOut s = Qc_of_Z 200
  ∧ netCalories s = Qc_of_Z 600 ∧ calorieStatus s = surplus.
Proof. cbn zeta. repeat split; first [by vm_compute | apply Qc_is_canon; by vm_compute]. Qed.

End Metrics.

(** ** Macro averages *)

Section Macros.
Import HomeScreen.

Lemma Qc_of_Z_succ (n : Z) : Qc_of_Z (n + 1) = (Qc_of_Z n + 1)%Qc.
Proof.
  apply Qc_is_canon. simpl. rewrite Qred_correct, inject_Z_plus. reflexivity.
Qed.

(** [Math_round x] is the integer nearest to [x], the upper one on a tie. *)
Lemma Math_round_nearest (x : Qc) :
  (Qc_of_Z (Math_round x) - Q2Qc (1 # 2) ≤ x)%Qc
  ∧ (x < Qc_of_Z (Math_round x) + Q2Qc (1 # 2))%Qc.
Proof.
  unfold Math_round. set (h := Q2Qc (1 # 2)). set (y := (x + h)%Qc).
  assert (Hlo : (Qc_of_Z (Qfloor y) ≤ y)%Qc) by apply Qfloor_le.
  assert (Hhi : (y < Qc_of_Z (Qfloor y + 1))%Qc) by apply Qlt_floor.
  rewrite Qc_of_Z_succ in Hhi. split.
  - apply (Qcplus_le_mono_r _ _ h).
    replace (Qc_of_Z (Qfloor y) - h + h)%Qc with (Qc_of_Z (Qfloor y)) by ring. done.
  - apply (Qcplus_lt_mono_r _ _ h).
    replace (Qc_of_Z (Qfloor y) + h + h)%Qc with (Qc_of_Z (Qfloor y) + 1)%Qc; [done|].
    unfold h. rewrite <- Qcplus_assoc. f_equal.
Qed.

Lemma elem_of_last7DaysFoods (now : Z) (foodData : list Food.t) (food : Food.t) :
  food ∈ last7DaysFoods now foodData
  ↔ food ∈ foodData ∧ now - 7 * msPerDay ≤ Food.date food * msPerDay.
Proof. unfold last7DaysFoods. rewrite list_elem_of_filter. tauto. Qed.



End Macros.

(** ** Trend classifier *)

Section TrendClassifier.

Lemma newestFirst_sorted l : newestFirst l → js_sort compareByDateDesc l = l.
Proof.
  intros H. apply js_sort_sorted.
  induction H as [|x l _ IH Hhd]; constructor; [done|].
  destruct Hhd; constructor. unfold compareByDateDesc. lia.
Qed.

Lemma compareWeights_decreasing a b : (a < b)%Qc → compareWeights a b = decreasing.
Proof. intros. unfold compareWeights. by rewrite decide_True. Qed.

Lemma compareWeights_increasing a b : (b < a)%Qc → compareWeights a b = increasing.
Proof.
  intros Hba. unfold compareWeights.
  rewrite decide_False, decide_True; [done..|].
  intros Hab. by apply (irreflexivity Qclt a); trans b.
Qed.

Lemma compareWeights_stagnant a b : a = b → compareWeights a b = stagnant.
Proof.
  intros ->. unfold compareWeights.
  rewrite !decide_False; [done|apply (irreflexivity Qclt)..].
Qed.

(** C3, as the code has it.  With fewer than two observations neither screen
    sets the trend, which keeps its previous value: initially [null] on the
    weight tracking screen (insufficient data) and ['stagnant'] on the home
    dashboard.  Otherwise the trend compares the two newest observations:
    decreasing if the newer is smaller, increasing if it is larger, stagnant
    if they are equal. *)
Theorem trend_compares_two_newest
    (weightData : list WeightRecord.t) (shown : option Trend) (shownHome : Trend) :
  newestFirst weightData →
  ((length weightData < 2)%nat →
     WeightTrackingScreen.loadData weightData shown = shown
     ∧ HomeScreen.loadDashboardData_weightTrend weightData shownHome = shownHome)
  ∧ (∀ r0 r1 rest, weightData = r0 :: r1 :: rest →
       let latest := WeightRecord.weight r0 in
       let previous := WeightRecord.weight r1 in
       WeightTrackingScreen.loadData weightData shown = Some (compareWeights latest previous)
       ∧ HomeScreen.loadDashboardData_weightTrend weightData shownHome
         = compareWeights latest previous
       ∧ ((latest < previous)%Qc → compareWeights latest previous = decreasing)
       ∧ ((previous < latest)%Qc → compareWeights latest previous = increasing)
       ∧ (latest = previous → compareWeights latest previous = stagnant))
  ∧ WeightTrackingScreen.weightTrend_initial = None
  ∧ HomeScreen.weightTrend HomeScreen.initial = stagnant.
Proof.
  intros Hsorted.
  unfold WeightTrackingScreen.loadData, HomeScreen.loadDashboardData_weightTrend.
  rewrite (newestFirst_sorted _ Hsorted). split; [|split; [|done]].
  - intros Hlen. destruct weightData as [|r0 [|r1 rest]]; simpl in *; try lia; done.
  - intros r0 r1 rest ->. cbn zeta. split; [done|]. split.
    + by rewrite decide_True by (simpl; lia).
    + auto using compareWeights_decreasing, compareWeights_increasing, compareWeights_stagnant.
Qed.

Lemma trend_compares_two_newest_witness :
  WeightTrackingScreen.loadData sample_weights None = Some decreasing
  ∧ HomeScreen.loadDashboardData_weightTrend sample_weights stagnant = decreasing.
Proof.
  assert (Hsorted : newestFirst sample_weights).
  { repeat constructor. simpl. lia. }
  destruct (trend_compares_two_newest sample_weights None stagnant Hsorted) as (_ & H & _).
  destruct (H _ _ _ eq_refl) as (H1 & H2 & H3 & _).
  rewrite H1, H2, H3; [done|]. by vm_compute.
Defined.

(** C3, as stated, fails on the home dashboard: with a single observation its
    trend is ['stagnant'], the initial value of the state. *)
Lemma home_trend_of_single_observation_is_stagnant :
  let weightData := [WeightRecord.mk (Qc_of_Z 70) 1704672000000] in
  (length weightData < 2)%nat
  ∧ HomeScreen.weightTrend
      (HomeScreen.loadDashboardData 1704700000000 [] [] weightData HomeScreen.initial)
    = stagnant.
Proof. cbn zeta. split; [simpl; lia|reflexivity]. Qed.

End TrendClassifier.

(** ** The record store *)

Section StoreFacts.
Import Supabase.

Lemma elem_of_mission_rows (tbl : gmap string Mission.row) (m : Mission.t) :
  m ∈ mission_rows tbl ↔ tbl !! Mission.id m = Some (Mission.cols m).
Proof.
  unfold mission_rows. rewrite list_elem_of_fmap. split.
  - intros ([i r] & -> & Hin). by apply elem_of_map_to_list.
  - intros Hm. exists (Mission.id m, Mission.cols m). split; [by destruct m|].
    by apply elem_of_map_to_list.
Qed.

Lemma elem_of_select_missions (value : string) (tbl : gmap string Mission.row) (m : Mission.t) :
  m ∈ select_missions value tbl
  ↔ tbl !! Mission.id m = Some (Mission.cols m) ∧ Mission.userId m = value.
Proof.
  unfold select_missions. rewrite list_elem_of_filter, elem_of_mission_rows. tauto.
Qed.

Lemma insert_mission_fresh (data : Mission.row) (tbl : gmap string Mission.row) :
  tbl !! fresh (dom tbl) = None.
Proof. apply not_elem_of_dom, is_fresh. Qed.

Lemma insert_mission_subseteq (data : Mission.row) (tbl : gmap string Mission.row) :
  tbl ⊆ insert_mission data tbl.
Proof. apply insert_subseteq, (insert_mission_fresh data). Qed.

Lemma insert_mission_lookup_new (data : Mission.row) (tbl : gmap string Mission.row) :
  insert_mission data tbl !! fresh (dom tbl) = Some data.
Proof. apply lookup_insert_eq. Qed.

Lemma insert_mission_size (data : Mission.row) (tbl : gmap string Mission.row) :
  size (insert_mission data tbl) = S (size tbl).
Proof. apply map_size_insert_None, (insert_mission_fresh data). Qed.

(** A row found after an insertion is the new row or an old one. *)
Lemma insert_mission_lookup_inv (data : Mission.row) (tbl : gmap string Mission.row) i r :
  insert_mission data tbl !! i = Some r → r = data ∨ tbl !! i = Some r.
Proof.
  unfold insert_mission. rewrite lookup_insert. case_decide; [|by right].
  intros [= ->]. by left.
Qed.

End StoreFacts.

(** ** The mission engine *)

Section MissionEngine.
Import Supabase MissionsScreen.

Lemma elem_of_loaded uid tbl (m : Mission.t) :
  m ∈ loaded uid tbl ↔ tbl !! Mission.id m = Some (Mission.cols m) ∧ Mission.userId m = uid.
Proof. unfold loaded. by rewrite js_sort_elem_of, elem_of_select_missions. Qed.

Lemma activeMissions_elem_of today k l (m : Mission.t) :
  m ∈ activeMissions today k l
  ↔ m ∈ l ∧ Mission.type m = k ∧ today ≤ Mission.expiresAt m.
Proof. unfold activeMissions. rewrite list_elem_of_filter. tauto. Qed.

Lemma lacks_false e uid k tbl : lacks e uid k tbl = false ↔ hasActive e uid k tbl.
Proof.
  unfold lacks. rewrite bool_decide_eq_false, length_zero_iff_nil. split.
  - intros Hne.
    destruct (activeMissions _ _ _) as [|m l] eqn:Hl; [done|].
    assert (Hm : m ∈ activeMissions (localMidnight e 0) k (loaded uid tbl))
      by (rewrite Hl; left).
    apply activeMissions_elem_of in Hm as ([Hm Hu]%elem_of_loaded & Hk & Hexp).
    by exists (Mission.id m), (Mission.cols m).
  - intros (i & r & Hi & Hu & Hk & Hexp).
    apply (elem_of_not_nil (Mission.mk i r)), activeMissions_elem_of.
    by rewrite elem_of_loaded.
Qed.

(** What a reload amounts to once the user, the points and the missions were
    fetched. *)
Lemma loadData_body_run e (rec : M unit) uid tm tu rq sc :
  loadData_body e rec (mkWorld (mkStore tm tu (Some uid) [] rq) sc)
  = try_catch
      (checkAndGenerateMissions e rec uid (loaded uid tm) ;;
       rb <- getData_badges uid ;;
       match rb with Err => throw | Ok _ => ret tt end)
      (console_error "Error loading data:" ;;
       Alert_alert (i18n_t e "error") (i18n_t e "loadDataError"))
      (mkWorld
         (mkStore tm tu (Some uid) []
                  (ReqSelect t_missions :: ReqSelect t_users :: ReqGetUser :: rq))
         (mkScreen (Some uid) (loaded uid tm)
            (match tu !! uid with
             | Some u => default 0 (User.points u)
             | None => userPoints sc
             end)
            (alerts sc) (errors sc))).
Proof.
  unfold loaded. destruct sc as [su sm sp sa se]. unfold loadData_body.
  run. destruct (tu !! uid); reflexivity.
Qed.

(** *** Inserted rows *)

Lemma insert_all_subseteq rows tbl : tbl ⊆ insert_all rows tbl.
Proof.
  revert tbl. induction rows as [|r rows IH]; intros tbl; simpl; [done|].
  etrans; [apply (insert_mission_subseteq r)|apply IH].
Qed.

Lemma insert_all_elem_of rows tbl r :
  r ∈ rows → ∃ i, insert_all rows tbl !! i = Some r.
Proof.
  revert tbl. induction rows as [|r' rows IH]; intros tbl; [by intros ?%elem_of_nil|].
  intros [->|Hin]%elem_of_cons; simpl; [|by apply IH].
  exists (fresh (dom tbl)).
  eapply lookup_weaken; [apply insert_mission_lookup_new|apply insert_all_subseteq].
Qed.

Lemma insert_all_lookup_inv rows tbl i r :
  insert_all rows tbl !! i = Some r → r ∈ rows ∨ tbl !! i = Some r.
Proof.
  revert tbl. induction rows as [|r' rows IH]; intros tbl; simpl; [by right|].
  intros [?|[->|?]%insert_mission_lookup_inv]%IH; [left; by right|left; by left|by right].
Qed.

Lemma hasActive_mono e uid k tbl tbl' :
  tbl ⊆ tbl' → hasActive e uid k tbl → hasActive e uid k tbl'.
Proof.
  intros Hsub (i & r & Hi & H). exists i, r. split; [|done].
  by eapply lookup_weaken.
Qed.

Lemma localMidnight_mono e k : 0 ≤ k → localMidnight e 0 ≤ localMidnight e k.
Proof. unfold localMidnight, msPerDay. lia. Qed.

Lemma hasActive_dailyRows e uid tbl :
  hasActive e uid Mission.daily (insert_all (dailyRows e uid) tbl).
Proof.
  destruct (insert_all_elem_of (dailyRows e uid) tbl
              (instantiate uid (localMidnight e 1) (now e)
                 (mkTemplate (i18n_t e "logFoodTwice") (i18n_t e "logFoodTwiceDesc")
                             Mission.daily 10 2 0 false))) as [i Hi]; [left|].
  eexists i, _. split; [exact Hi|]. simpl. auto using localMidnight_mono with lia.
Qed.

Lemma hasActive_weeklyRows e uid tbl :
  hasActive e uid Mission.weekly (insert_all (weeklyRows e uid) tbl).
Proof.
  destruct (insert_all_elem_of (weeklyRows e uid) tbl
              (instantiate uid (localMidnight e 7) (now e)
                 (mkTemplate (i18n_t e "burnCalories") (i18n_t e "burnCaloriesDesc")
                             Mission.weekly 50 1000 0 false))) as [i Hi]; [left|].
  eexists i, _. split; [exact Hi|]. simpl. auto using localMidnight_mono with lia.
Qed.

(** *** Steps of the monad *)

Lemma bind_done {A B} (c : M A) (k : A → M B) w a w1 :
  c w = Done a w1 → bind c k w = k a w1.
Proof. unfold bind. by intros ->. Qed.

Lemma try_catch_done {A} (c h : M A) w a w1 :
  c w = Done a w1 → try_catch c h w = Done a w1.
Proof. unfold try_catch. by intros ->. Qed.

(** *** A reload with a store that serves every request *)

Lemma generateDailyMissions_inserted e (rec : M unit) uid w :
  faults (store w) = [] →
  generateDailyMissions e rec uid w
  = try_catch rec (console_error "Error generating daily missions:")
              (inserted (dailyRows e uid) w).
Proof. destruct w as [[tm tu au fs rq] sc]. simpl. by intros ->. Qed.

Lemma generateWeeklyMissions_inserted e (rec : M unit) uid w :
  faults (store w) = [] →
  generateWeeklyMissions e rec uid w
  = try_catch rec (console_error "Error generating weekly missions:")
              (inserted (weeklyRows e uid) w).
Proof. destruct w as [[tm tu au fs rq] sc]. simpl. by intros ->. Qed.

Lemma Reloaded_inserted uid rows w w' :
  Reloaded uid (inserted rows w) w' → Reloaded uid w w'.
Proof.
  intros []. split; try done.
  etrans; [|done]. apply insert_all_subseteq.
Qed.

Lemma Reloaded_trans uid w w1 w2 :
  Reloaded uid w w1 → Reloaded uid w1 w2 → Reloaded uid w w2.
Proof.
  intros [] []. split; try done; try congruence.
  - by etrans.
  - unfold fetchedPoints in *. destruct (tbl_users (store w1) !! uid) eqn:Hu;
      rewrite rl_users0 in Hu; rewrite Hu in *; congruence.
Qed.

Lemma lacks_mono e uid k tbl tbl' :
  tbl ⊆ tbl' → (Nat.b2n (lacks e uid k tbl') ≤ Nat.b2n (lacks e uid k tbl))%nat.
Proof.
  intros Hsub. destruct (lacks e uid k tbl) eqn:H; [destruct (lacks _ _ _ tbl'); simpl; lia|].
  apply lacks_false in H. apply (hasActive_mono _ _ _ _ _ Hsub), lacks_false in H.
  by rewrite H.
Qed.

Lemma missing_le e uid tbl : (missing e uid tbl < 3)%nat.
Proof.
  unfold missing. destruct (lacks e uid Mission.daily tbl), (lacks e uid Mission.weekly tbl);
    simpl; lia.
Qed.

(** The reload when both kinds are active: nothing is generated. *)
Lemma loadData_body_ensured e (rec : M unit) uid tm tu rq sc :
  ensured e uid tm →
  loadData_body e rec (mkWorld (mkStore tm tu (Some uid) [] rq) sc)
  = Done tt
      (mkWorld
         (mkStore tm tu (Some uid) []
            (ReqSelect t_badges :: ReqSelect t_missions :: ReqSelect t_users :: ReqGetUser :: rq))
         (mkScreen (Some uid) (loaded uid tm)
                   (fetchedPoints uid (mkWorld (mkStore tm tu (Some uid) [] rq) sc))
                   (alerts sc) (errors sc))).
Proof.
  intros [Hd%lacks_false Hw%lacks_false]. rewrite loadData_body_run.
  unfold checkAndGenerateMissions.
  unfold lacks in Hd, Hw. apply bool_decide_eq_false in Hd, Hw.
  rewrite !decide_False by done. reflexivity.
Qed.

(** The badge request that ends a reload. *)
Lemma getData_badges_served uid w :
  faults (store w) = [] →
  ∃ w', (rb <- getData_badges uid ;; match rb with Err => throw | Ok _ => ret tt end) w
        = Done tt w'
        ∧ store w' = mkStore (tbl_missions (store w)) (tbl_users (store w))
                             (auth_user (store w)) []
                             (ReqSelect t_badges :: requests (store w))
        ∧ screen w' = screen w.
Proof.
  destruct w as [[tm tu au fs rq] sc]. simpl. intros ->. eexists. split; [reflexivity|done].
Qed.

Lemma Reloaded_self uid w w1 : Reloaded uid w w1 → Reloaded uid w1 w1.
Proof.
  intros []. split; try done.
  unfold fetchedPoints in *. rewrite rl_points0, rl_users0.
  by destruct (tbl_users (store w) !! uid).
Qed.

Lemma Reloaded_logged uid w w1 w2 r :
  Reloaded uid w w1 →
  store w2 = mkStore (tbl_missions (store w1)) (tbl_users (store w1))
                     (auth_user (store w1)) [] (r :: requests (store w1)) →
  screen w2 = screen w1 →
  Reloaded uid w w2.
Proof. intros [] Hs Hc. split; rewrite ?Hs, ?Hc; done. Qed.

Lemma decide_lacks {A} e uid k tbl (a b : A) :
  (if decide (length (activeMissions (localMidnight e 0) k (loaded uid tbl)) = 0%nat)
   then a else b)
  = if lacks e uid k tbl then a else b.
Proof. unfold lacks. by case_decide; [rewrite bool_decide_eq_true_2|rewrite bool_decide_eq_false_2]. Qed.

(** With a store that serves every request a reload terminates: one level of
    fuel per kind of mission that is missing, and one more. *)
Lemma loadData_reloads e uid n w :
  faults (store w) = [] → auth_user (store w) = Some uid →
  (missing e uid (tbl_missions (store w)) < n)%nat →
  ∃ w', loadData e n w = Done tt w'
        ∧ Reloaded uid w w' ∧ ensured e uid (tbl_missions (store w')).
Proof.
  revert w. induction n as [|n IH]; intros w Hf Ha Hm; [lia|].
  destruct w as [[tm tu au fs rq] sc]. simpl in Hf, Ha, Hm. subst fs au.
  cbn [loadData]. rewrite loadData_body_run.
  set (wo := mkWorld (mkStore tm tu (Some uid) [] rq) sc).
  set (w0 := mkWorld _ _).
  assert (H0 : Reloaded uid wo w0) by by split.
  unfold checkAndGenerateMissions. rewrite !decide_lacks.
  unfold missing in Hm.
  (* the daily missions *)
  assert (∃ w2, (if lacks e uid Mission.daily tm
                 then generateDailyMissions e (loadData e n) uid else ret tt) w0 = Done tt w2
                ∧ Reloaded uid w0 w2
                ∧ hasActive e uid Mission.daily (tbl_missions (store w2)))
    as (w2 & HA & Hr2 & Hd2).
  { destruct (lacks e uid Mission.daily tm) eqn:Hd.
    - rewrite generateDailyMissions_inserted by done.
      destruct (IH (inserted (dailyRows e uid) w0)) as (w2 & Hl & Hr & He); [done..| |].
      { unfold missing, w0. cbn [inserted store tbl_missions].
        rewrite (proj2 (lacks_false _ _ _ _) (hasActive_dailyRows e uid tm)).
        pose proof (lacks_mono e uid Mission.weekly tm _
                      (insert_all_subseteq (dailyRows e uid) tm)) as Hle.
        destruct (lacks e uid Mission.weekly tm),
                 (lacks e uid Mission.weekly (insert_all _ _)); simpl in *; lia. }
      exists w2. split; [by apply try_catch_done|]. split; [by eapply Reloaded_inserted|].
      apply He.
    - exists w0. split; [done|]. split; [by eapply Reloaded_self|]. by apply lacks_false. }
  (* the weekly missions, decided on the list loaded before *)
  assert (∃ w4, (if lacks e uid Mission.weekly tm
                 then generateWeeklyMissions e (loadData e n) uid else ret tt) w2 = Done tt w4
                ∧ Reloaded uid w2 w4
                ∧ ensured e uid (tbl_missions (store w4)))
    as (w4 & HB & Hr4 & He4).
  { destruct (lacks e uid Mission.weekly tm) eqn:Hw.
    - rewrite generateWeeklyMissions_inserted by apply Hr2.
      destruct (IH (inserted (weeklyRows e uid) w2)) as (w4 & Hl & Hr & He);
        [apply Hr2..| |].
      { unfold missing. cbn [inserted store tbl_missions].
        rewrite (proj2 (lacks_false _ _ _ _) (hasActive_weeklyRows e uid _)).
        rewrite (proj2 (lacks_false _ _ _ _)
                   (hasActive_mono _ _ _ _ _ (insert_all_subseteq _ _) Hd2)).
        destruct (lacks e uid Mission.daily tm); simpl in *; lia. }
      exists w4. split; [by apply try_catch_done|]. split; [by eapply Reloaded_inserted|done].
    - exists w2. split; [done|]. split; [by eapply Reloaded_self|]. split; [done|].
      eapply hasActive_mono; [apply Hr2|]. by apply lacks_false. }
  destruct (getData_badges_served uid w4) as (w5 & HC & Hs5 & Hc5); [apply Hr4|].
  exists w5. split.
  { apply try_catch_done.
    rewrite (bind_done _ _ w0 tt w4); [exact HC|].
    rewrite (bind_done _ _ w0 tt w2); [exact HB|exact HA]. }
  split.
  - eapply Reloaded_logged; [|done..].
    eapply Reloaded_trans; [|exact Hr4]. eapply Reloaded_trans; [|exact Hr2]. done.
  - by rewrite Hs5.
Qed.

End MissionEngine.

(** ** A program logic for the async code *)

Section Triples.
Import Supabase MissionsScreen.
Context (D : Prop).
Local Abbreviation triple := (triple D).

Lemma triple_ret {A} (a : A) (Q : A → World → Prop) E : triple (Q a) (ret a) Q E.
Proof. by intros w. Qed.

Lemma triple_throw {A} (Q : A → World → Prop) E : triple E (@throw A) Q E.
Proof. by intros w. Qed.

Lemma triple_bind {A B} (c : M A) (k : A → M B) P R Q E :
  triple P c R E → (∀ a, triple (R a) (k a) Q E) → triple P (bind c k) Q E.
Proof.
  intros Hc Hk w Hw. unfold bind. specialize (Hc w Hw).
  destruct (c w) as [a w'| |]; [by apply Hk|done..].
Qed.

Lemma triple_try_catch {A} (c h : M A) P Q E' E :
  triple P c Q E' → triple E' h Q E → triple P (try_catch c h) Q E.
Proof.
  intros Hc Hh w Hw. unfold try_catch. specialize (Hc w Hw).
  destruct (c w) as [a w'|w'|]; [done|by apply Hh|done].
Qed.

(** A fact that holds in every world of the precondition may be assumed. *)
Lemma triple_assume {A} (c : M A) (P : World → Prop) (φ : Prop) Q E :
  (∀ w, P w → φ) → (φ → triple P c Q E) → triple P c Q E.
Proof. intros Hφ Hc w Hw. by apply Hc; [eapply Hφ|]. Qed.

Lemma triple_weaken {A} (c : M A) (P P' : World → Prop) (Q Q' : A → World → Prop) E :
  triple P' c Q' E → (∀ w, P w → P' w) → (∀ a w, Q' a w → Q a w) → triple P c Q E.
Proof.
  intros Hc HP HQ w Hw. specialize (Hc w (HP w Hw)).
  destruct (c w); [by apply HQ|done..].
Qed.

(** Invariants of the missions table and of the session. *)
Section StoreInvariant.
Context (J : gmap string Mission.row → option string → Prop).
Local Abbreviation inv := (inv J).

Lemma triple_request r E : triple inv (request r) (λ _, inv) E.
Proof. intros [[tm tu au [|b fs] rq] sc] Hw; exact Hw. Qed.

Lemma triple_with_users f E : triple inv (with_users f) (λ _, inv) E.
Proof. by intros w. Qed.

Lemma triple_with_missions f E :
  (∀ tbl au, J tbl au → J (f tbl) au) → triple inv (with_missions f) (λ _, inv) E.
Proof. intros Hf w Hw. by apply Hf. Qed.

Lemma triple_read {A} (f : Store → A) E :
  triple inv (read f) (λ a w, inv w ∧ a = f (store w)) E.
Proof. by intros w. Qed.

Lemma triple_setUserId u E : triple inv (setUserId u) (λ _, inv) E.
Proof. by intros w. Qed.

Lemma triple_setMissions ms E : triple inv (setMissions ms) (λ _, inv) E.
Proof. by intros w. Qed.

Lemma triple_setUserPoints p E : triple inv (setUserPoints p) (λ _, inv) E.
Proof. by intros w. Qed.

Lemma triple_Alert_alert t m E : triple inv (Alert_alert t m) (λ _, inv) E.
Proof. by intros w. Qed.

Lemma triple_console_error m E : triple inv (console_error m) (λ _, inv) E.
Proof. by intros w. Qed.

Lemma triple_getCurrentUser E :
  triple inv getCurrentUser
    (λ r w, inv w ∧ (r = Err ∨ r = Ok (auth_user (store w)))) E.
Proof.
  eapply triple_bind; [apply triple_request|]. intros [|].
  - intros w Hw. split; [done|by left].
  - eapply triple_bind; [apply triple_read|]. intros a w [Hw Ha]. unfold ret.
    split; [done|right; by rewrite Ha].
Qed.

Lemma triple_getData_missions value E :
  triple inv (getData_missions value)
    (λ r w, inv w ∧ (r = Err ∨ r = Ok (select_missions value (tbl_missions (store w))))) E.
Proof.
  eapply triple_bind; [apply triple_request|]. intros [|].
  - intros w Hw. split; [done|by left].
  - eapply triple_bind; [apply triple_read|]. intros a w [Hw Ha]. unfold ret.
    split; [done|right; by rewrite Ha].
Qed.

Lemma triple_getData_users value E : triple inv (getData_users value) (λ _, inv) E.
Proof.
  eapply triple_bind; [apply triple_request|]. intros [|]; [by intros w|].
  eapply triple_bind; [apply triple_read|]. by intros a w [Hw _].
Qed.

Lemma triple_getData_badges value E : triple inv (getData_badges value) (λ _, inv) E.
Proof. eapply triple_bind; [apply triple_request|]. by intros [|] w. Qed.

Lemma triple_insertData_missions data E :
  (∀ tbl au, J tbl au → J (insert_mission data tbl) au) →
  triple inv (insertData_missions data) (λ _, inv) E.
Proof.
  intros Hd. eapply triple_bind; [apply triple_request|]. intros [|]; [by intros w|].
  eapply triple_bind; [by apply triple_with_missions|]. by intros _ w.
Qed.

Lemma triple_for_of_insert {B} (l : list B) (row : B → Mission.row) E :
  (∀ x tbl au, x ∈ l → J tbl au → J (insert_mission (row x) tbl) au) →
  triple inv (for_of l (λ x, insertData_missions (row x) ;; ret tt)) (λ _, inv) E.
Proof.
  induction l as [|x l IH]; intros Hl; simpl; [by intros w|].
  eapply triple_bind; [|intros ?; apply IH; intros; apply Hl; [by right|done]].
  eapply triple_bind; [apply triple_insertData_missions|by intros ? w].
  intros. apply Hl; [by left|done].
Qed.

End StoreInvariant.

(** *** Generation leaves the kinds that are active alone *)

Lemma keeps_insert_mission e uid k tbl0 data tbl au :
  Mission.type data ≠ k →
  keeps e uid k tbl0 tbl au → keeps e uid k tbl0 (insert_mission data tbl) au.
Proof.
  intros Hk (Hau & Hact & Hsame). split; [done|]. split.
  - eapply hasActive_mono; [apply insert_mission_subseteq|done].
  - intros i r Hr. rewrite <- (Hsame i r Hr). split.
    + intros [->|?]%insert_mission_lookup_inv; [done|done].
    + intros Hi. eapply lookup_weaken; [exact Hi|apply insert_mission_subseteq].
Qed.

Section Keeps.
Context (e : Env) (uid : string) (k : Mission.kind) (tbl0 : gmap string Mission.row).
Context (rec : M unit).
Let I := inv (keeps e uid k tbl0).
Hypothesis Hrec : triple I rec (λ _, I) I.

Lemma triple_generateDailyMissions u E :
  k ≠ Mission.daily → triple I (generateDailyMissions e rec u) (λ _, I) E.
Proof.
  intros Hk. eapply triple_try_catch; [|apply triple_console_error].
  eapply triple_bind; [|intros ?; exact Hrec].
  apply triple_for_of_insert. intros x tbl au Hx. apply keeps_insert_mission.
  unfold dailyMissionTemplates in Hx. rewrite !elem_of_cons, elem_of_nil in Hx.
  destruct Hx as [->|[->|[->|[]]]]; simpl; congruence.
Qed.

Lemma triple_generateWeeklyMissions u E :
  k ≠ Mission.weekly → triple I (generateWeeklyMissions e rec u) (λ _, I) E.
Proof.
  intros Hk. eapply triple_try_catch; [|apply triple_console_error].
  eapply triple_bind; [|intros ?; exact Hrec].
  apply triple_for_of_insert. intros x tbl au Hx. apply keeps_insert_mission.
  unfold weeklyMissionTemplates in Hx. rewrite !elem_of_cons, elem_of_nil in Hx.
  destruct Hx as [->|[->|[->|[]]]]; simpl; congruence.
Qed.

Lemma triple_checkAndGenerateMissions u currentMissions E :
  k = Mission.daily ∨ k = Mission.weekly →
  length (activeMissions (localMidnight e 0) k currentMissions) ≠ 0%nat →
  triple I (checkAndGenerateMissions e rec u currentMissions) (λ _, I) E.
Proof.
  intros [Hk | Hk] Hactive; rewrite Hk in Hactive; unfold checkAndGenerateMissions.
  - rewrite (decide_False (P := length (activeMissions _ Mission.daily _) = 0%nat)) by done.
    eapply triple_bind; [apply (triple_ret tt (λ _, I))|]. intros ?.
    case_decide; [|apply (triple_ret tt (λ _, I))].
    apply triple_generateWeeklyMissions. by rewrite Hk.
  - rewrite (decide_False (P := length (activeMissions _ Mission.weekly _) = 0%nat)) by done.
    eapply triple_bind; [|intros ?; apply (triple_ret tt (λ _, I))].
    case_decide; [|apply (triple_ret tt (λ _, I))].
    apply triple_generateDailyMissions. by rewrite Hk.
Qed.

Lemma triple_loadData_body :
  k = Mission.daily ∨ k = Mission.weekly →
  triple I (loadData_body e rec) (λ _, I) I.
Proof.
  intros Hk. eapply triple_try_catch with (E' := I).
  2:{ eapply triple_bind; [apply triple_console_error|intros ?; apply triple_Alert_alert]. }
  eapply triple_bind; [apply triple_getCurrentUser|].
  intros [[u|]|]; [|by intros w [Hw _]..].
  eapply (triple_assume _ _ (u = uid)).
  { intros w [(Hau & _) [?|[= Hu]]]; [done|congruence]. }
  intros ->. eapply triple_weaken with (P' := I) (Q' := λ _, I); [|by intros w [Hw _]|done].
  eapply triple_bind; [apply triple_setUserId|]. intros ?.
  eapply triple_bind; [apply triple_getData_users|]. intros [userData|]; [|apply triple_throw].
  eapply triple_bind.
  { destruct userData; [apply (triple_ret tt (λ _, I))|apply triple_setUserPoints]. }
  intros ?. eapply triple_bind; [apply triple_getData_missions|].
  intros [missionsData|]; [|by intros w [Hw _]].
  eapply (triple_assume _ _
            (length (activeMissions (localMidnight e 0) k
                       (js_sort compareMissions missionsData)) ≠ 0%nat)).
  { intros w [(_ & Hact & _) [?|[= ->]]]; [done|].
    apply lacks_false in Hact. unfold lacks in Hact. by apply bool_decide_eq_false in Hact. }
  intros Hactive.
  eapply triple_weaken with (P' := I) (Q' := λ _, I); [|by intros w [Hw _]|done].
  eapply triple_bind; [apply triple_setMissions|]. intros ?.
  eapply triple_bind; [by apply triple_checkAndGenerateMissions|]. intros ?.
  eapply triple_bind; [apply triple_getData_badges|].
  intros [|]; [apply (triple_ret tt (λ _, I))|apply triple_throw].
Qed.

End Keeps.
End Triples.

(** A reload never touches the rows of a kind that is active, whatever
    requests fail. *)
Lemma loadData_keeps e uid k tbl0 n :
  k = Mission.daily ∨ k = Mission.weekly →
  triple True (inv (keeps e uid k tbl0)) (MissionsScreen.loadData e n)
         (λ _, inv (keeps e uid k tbl0)) (inv (keeps e uid k tbl0)).
Proof.
  intros Hk. induction n as [|n IH]; [by intros w|].
  by apply triple_loadData_body.
Qed.

(** ** Termination of a reload *)

Section Termination.
Import Supabase MissionsScreen.
Context (D : Prop).
Local Abbreviation triple := (triple D).

Lemma within_mono K K' w : (K ≤ K')%nat → within K w → within K' w.
Proof. unfold within. lia. Qed.

(** A request uses up an entry of the script. *)
Lemma within_request r K E : triple (within K) (request r) (λ _, within (K - 1)) E.
Proof. intros [[tm tu au [|b fs] rq] sc] Hw; unfold within in *; simpl in *; lia. Qed.

Lemma within_relax {A} (c : M A) K K' E :
  (K' ≤ K)%nat →
  triple (within K) c (λ _, within K') E → triple (within K) c (λ _, within K) E.
Proof.
  intros HK Hc. eapply triple_weaken; [exact Hc|done|].
  intros ? w. by apply within_mono.
Qed.

Lemma within_getCurrentUser K E : triple (within K) getCurrentUser (λ _, within (K - 1)) E.
Proof.
  eapply triple_bind; [apply within_request|]. intros [|]; [by intros w|].
  eapply triple_bind with (R := λ _, within (K - 1)); by intros ? w.
Qed.

Lemma within_getData_users value K E :
  triple (within K) (getData_users value) (λ _, within (K - 1)) E.
Proof.
  eapply triple_bind; [apply within_request|]. intros [|]; [by intros w|].
  eapply triple_bind with (R := λ _, within (K - 1)); by intros ? w.
Qed.

Lemma within_getData_missions value K E :
  triple (within K) (getData_missions value) (λ _, within (K - 1)) E.
Proof.
  eapply triple_bind; [apply within_request|]. intros [|]; [by intros w|].
  eapply triple_bind with (R := λ _, within (K - 1)); by intros ? w.
Qed.

Lemma within_getData_badges value K E :
  triple (within K) (getData_badges value) (λ _, within (K - 1)) E.
Proof. eapply triple_bind; [apply within_request|]. by intros [|] w. Qed.

Lemma within_insertData_missions data K E :
  triple (within K) (insertData_missions data) (λ _, within (K - 1)) E.
Proof.
  eapply triple_bind; [apply within_request|]. intros [|]; [by intros w|].
  eapply triple_bind with (R := λ _, within (K - 1)); by intros ? w.
Qed.

Lemma within_for_of_insert {B} (l : list B) (row : B → Mission.row) K E :
  triple (within K) (for_of l (λ x, insertData_missions (row x) ;; ret tt))
         (λ _, within K) E.
Proof.
  induction l as [|x l IH]; simpl; [by intros w|].
  eapply triple_bind; [|intros ?; apply IH].
  eapply triple_bind with (R := λ _, within K); [|by intros ? w].
  eapply within_relax; [|apply within_insertData_missions]. lia.
Qed.

Section Reload.
Context (e : Env) (rec : M unit) (K : nat).
Hypothesis Hrec : triple (within (K - 3)) rec (λ _, within (K - 3)) (λ _, False).

Lemma within_generateDailyMissions u E :
  triple (within (K - 3)) (generateDailyMissions e rec u) (λ _, within (K - 3)) E.
Proof.
  eapply triple_try_catch with (E' := λ _, False); [|by intros w].
  eapply triple_bind; [apply within_for_of_insert|intros ?; exact Hrec].
Qed.

Lemma within_generateWeeklyMissions u E :
  triple (within (K - 3)) (generateWeeklyMissions e rec u) (λ _, within (K - 3)) E.
Proof.
  eapply triple_try_catch with (E' := λ _, False); [|by intros w].
  eapply triple_bind; [apply within_for_of_insert|intros ?; exact Hrec].
Qed.

Lemma within_checkAndGenerateMissions u currentMissions E :
  triple (within (K - 3)) (checkAndGenerateMissions e rec u currentMissions)
         (λ _, within (K - 3)) E.
Proof.
  unfold checkAndGenerateMissions.
  eapply triple_bind with (R := λ _, within (K - 3)).
  - case_decide; [apply within_generateDailyMissions|by intros w].
  - intros ?. case_decide; [apply within_generateWeeklyMissions|by intros w].
Qed.

(** A reload returns, and never throws, when the nested reloads do. *)
Lemma within_loadData_body :
  triple (within K) (loadData_body e rec) (λ _, within K) (λ _, False).
Proof.
  eapply triple_try_catch with (E' := within K).
  2:{ eapply triple_bind with (R := λ _, within K); by intros ? w. }
  eapply triple_bind; [apply within_getCurrentUser|].
  intros [[u|]|]; [|intros w; apply within_mono; lia..].
  eapply triple_bind with (R := λ _, within (K - 1)); [by intros w|]. intros ?.
  eapply triple_bind; [apply within_getData_users|].
  intros [userData|]; [|intros w; apply within_mono; lia].
  eapply triple_bind with (R := λ _, within (K - 1 - 1)).
  { by destruct userData; intros w. }
  intros ?. eapply triple_bind; [apply within_getData_missions|].
  intros [missionsData|]; [|intros w; apply within_mono; lia].
  replace (K - 1 - 1 - 1)%nat with (K - 3)%nat by lia.
  eapply triple_bind with (R := λ _, within (K - 3)); [by intros w|]. intros ?.
  eapply triple_bind; [apply within_checkAndGenerateMissions|]. intros ?.
  eapply triple_bind; [apply within_getData_badges|].
  intros [|] w; apply within_mono; lia.
Qed.

End Reload.
End Termination.

Section Returns.
Import Supabase MissionsScreen.

Lemma loadData_signed_out e n w :
  auth_user (store w) = None → faults (store w) = [] →
  ∃ w', loadData e (S n) w = Done tt w' ∧ faults (store w') = [].
Proof.
  destruct w as [[tm tu au fs rq] sc]. simpl. intros -> ->. by eexists.
Qed.

(** A reload returns whatever requests fail: three levels of fuel and one for
    each scripted fault are enough.  It never throws. *)
Lemma loadData_returns e n K :
  (K + 3 ≤ n)%nat →
  triple False (within K) (loadData e n) (λ _, within K) (λ _, False).
Proof.
  revert K. induction n as [|n IH]; intros K Hn; [lia|].
  destruct K as [|K].
  - intros w Hw. apply Nat.le_0_r, length_zero_iff_nil in Hw.
    destruct (auth_user (store w)) as [uid|] eqn:Ha.
    + destruct (loadData_reloads e uid (S n) w) as (w' & -> & Hr & _);
        [done|done|eapply Nat.lt_le_trans; [apply missing_le|lia]|].
      unfold within. by rewrite (rl_faults _ _ _ Hr).
    + destruct (loadData_signed_out e n w) as (w' & -> & Hf); [done..|].
      unfold within. by rewrite Hf.
  - apply within_loadData_body. apply IH. lia.
Qed.

End Returns.


(** ** Progress reports *)

Section ProgressReports.
Import Supabase MissionsScreen.

Lemma findMission_None missionId l :
  (∀ m : Mission.t, m ∈ l → Mission.id m ≠ missionId) → findMission missionId l = None.
Proof.
  induction l as [|m l IH]; intros Hl; simpl; [done|].
  rewrite bool_decide_eq_false_2 by (apply Hl; left).
  apply IH. intros m' Hm'. apply Hl. by right.
Qed.

Lemma findMission_Some missionId l m :
  findMission missionId l = Some m → m ∈ l ∧ Mission.id m = missionId.
Proof.
  intros [Hin Hid]%find_some. split; [by apply list_elem_of_In|].
  by apply bool_decide_eq_true in Hid.
Qed.

Lemma updateMissionProgress_run e fuel missionId newProgress w mission :
  faults (store w) = [] →
  findMission missionId (missions (screen w)) = Some mission →
  updateMissionProgress e fuel missionId newProgress w
  = try_catch (loadData e fuel)
      (console_error "Error updating mission progress:" ;;
       Alert_alert (i18n_t e "error") (i18n_t e "updateProgressError"))
      (afterReport e missionId newProgress mission w).
Proof.
  destruct w as [[tm tu au fs rq] [su sm sp sa se]]. simpl. intros -> Hfind.
  unfold updateMissionProgress, findMission in *. run. rewrite Hfind.
  unfold afterReport, awards, progressWritten, pointsAwarded. simpl.
  destruct (bool_decide (Mission.target mission ≤ newProgress)),
           (Mission.completed mission), su as [u|]; simpl; try reflexivity.
  destruct (truthy u); reflexivity.
Qed.

Lemma updateMissionProgress_not_found e fuel missionId newProgress w :
  findMission missionId (missions (screen w)) = None →
  updateMissionProgress e fuel missionId newProgress w = Done tt w.
Proof.
  intros Hno. unfold updateMissionProgress, findMission in *. run. by rewrite Hno.
Qed.

(** C10. A report on a mission id that is not in the loaded list returns at
    once: the world is exactly as before (no request was issued, the tables
    and the points are unchanged). *)
Theorem report_on_unknown_mission_is_noop
    (e : Env) (fuel : nat) (missionId : string) (newProgress : Z) (w : World) :
  (∀ m : Mission.t, m ∈ missions (screen w) → Mission.id m ≠ missionId) →
  updateMissionProgress e fuel missionId newProgress w = Done tt w.
Proof. intros Hno. by apply updateMissionProgress_not_found, findMission_None. Qed.

Lemma report_on_unknown_mission_is_noop_witness :
  updateMissionProgress sample_env 3 "m9" 2 sample_world = Done tt sample_world.
Proof.
  apply (report_on_unknown_mission_is_noop sample_env 3 "m9" 2 sample_world).
  intros m Hm. apply list_elem_of_singleton in Hm. by rewrite Hm.
Defined.

Lemma afterReport_store e missionId newProgress mission w :
  let w' := afterReport e missionId newProgress mission w in
  faults (store w') = faults (store w)
  ∧ auth_user (store w') = auth_user (store w)
  ∧ tbl_missions (store w')
    = update_mission missionId newProgress
        (bool_decide (Mission.target mission ≤ newProgress)) (tbl_missions (store w)).
Proof. unfold afterReport. by destruct (awards mission newProgress w). Qed.

(** A report on a loaded mission, with a store that serves every request:
    the row is written, the points are awarded or not, and the reload goes
    through. *)
Lemma updateMissionProgress_served e fuel missionId newProgress w mission uid :
  (3 ≤ fuel)%nat →
  faults (store w) = [] → auth_user (store w) = Some uid →
  findMission missionId (missions (screen w)) = Some mission →
  ∃ w', updateMissionProgress e fuel missionId newProgress w = Done tt w'
        ∧ Reloaded uid (afterReport e missionId newProgress mission w) w'.
Proof.
  intros Hfuel Hf Ha Hfind. rewrite (updateMissionProgress_run _ _ _ _ _ mission) by done.
  destruct (afterReport_store e missionId newProgress mission w) as (Hf' & Ha' & _).
  destruct (loadData_reloads e uid fuel (afterReport e missionId newProgress mission w))
    as (w' & Hload & Hr & _);
    [congruence|congruence|eapply Nat.lt_le_trans; [apply missing_le|done]|].
  exists w'. split; [by apply try_catch_done|done].
Qed.

(** C8. A report on a loaded mission persists the reported value as it is,
    with [completed = (newProgress >= target)]; the reloaded item shows
    [min(newProgress, target)]. *)
Theorem report_persists_raw_progress
    (e : Env) (fuel : nat) (missionId : string) (newProgress : Z) (w : World)
    (mission : Mission.t) (uid : string) :
  (3 ≤ fuel)%nat →
  faults (store w) = [] → auth_user (store w) = Some uid →
  findMission missionId (missions (screen w)) = Some mission →
  let completed := bool_decide (Mission.target mission ≤ newProgress) in
  ∃ w', updateMissionProgress e fuel missionId newProgress w = Done tt w'
        ∧ ∀ r, tbl_missions (store w) !! missionId = Some r →
            tbl_missions (store w') !! missionId
            = Some (Mission.set_progress newProgress completed r)
            ∧ ∀ item : Mission.t,
                item ∈ missions (screen w') → Mission.id item = missionId →
                Mission.progress item = newProgress
                ∧ Mission.completed item = completed
                ∧ renderMissionItem item
                  = (Z.min newProgress (Mission.target item), Mission.target item).
Proof.
  intros Hfuel Hf Ha Hfind completed.
  destruct (updateMissionProgress_served e fuel missionId newProgress w mission uid)
    as (w' & Hrun & Hr); [done..|].
  exists w'. split; [done|]. intros r Hrow.
  destruct (afterReport_store e missionId newProgress mission w) as (_ & _ & Htbl).
  assert (Hrow' : tbl_missions (store w') !! missionId
                  = Some (Mission.set_progress newProgress completed r)).
  { eapply lookup_weaken; [|apply Hr]. rewrite Htbl. unfold update_mission.
    by rewrite lookup_alter_eq, Hrow. }
  split; [done|]. intros item Hitem Hid.
  rewrite (rl_missions _ _ _ Hr) in Hitem. apply elem_of_loaded in Hitem as [Hitem _].
  rewrite Hid, Hrow' in Hitem. injection Hitem as Hitem.
  unfold renderMissionItem. by rewrite <- Hitem.
Qed.

Lemma report_persists_raw_progress_witness :
  ∃ w', updateMissionProgress sample_env 3 "m1" 7 sample_world = Done tt w'
        ∧ ∀ r, tbl_missions (store sample_world) !! "m1" = Some r →
            tbl_missions (store w') !! "m1" = Some (Mission.set_progress 7 true r)
            ∧ ∀ item : Mission.t,
                item ∈ missions (screen w') → Mission.id item = "m1" →
                Mission.progress item = 7
                ∧ Mission.completed item = true
                ∧ renderMissionItem item
                  = (Z.min 7 (Mission.target item), Mission.target item).
Proof.
  apply (report_persists_raw_progress sample_env 3 "m1" 7 sample_world
           (Mission.mk "m1" (sample_row "u1" Mission.daily false)) "u1");
    [lia|reflexivity..].
Defined.

Lemma fetchedPoints_update_user uid newPoints w tu :
  tbl_users (store w) = update_user uid newPoints tu →
  userPoints (screen w) = newPoints →
  fetchedPoints uid w = newPoints.
Proof.
  intros Htu Hp. unfold fetchedPoints. rewrite Htu. unfold update_user.
  rewrite lookup_alter_eq. by destruct (tu !! uid).
Qed.

(** A report on a mission that the loaded list holds as completed awards
    nothing: the users table is not written and no completion is announced. *)
Lemma report_on_completed_awards_nothing e fuel missionId newProgress w mission uid :
  (3 ≤ fuel)%nat →
  faults (store w) = [] → auth_user (store w) = Some uid →
  findMission missionId (missions (screen w)) = Some mission →
  Mission.completed mission = true →
  ∃ w', updateMissionProgress e fuel missionId newProgress w = Done tt w'
        ∧ tbl_users (store w') = tbl_users (store w)
        ∧ userPoints (screen w') = fetchedPoints uid w
        ∧ alerts (screen w') = alerts (screen w).
Proof.
  intros Hfuel Hf Ha Hfind Hc.
  destruct (updateMissionProgress_served e fuel missionId newProgress w mission uid)
    as (w' & Hrun & Hr); [done..|].
  exists w'. split; [done|]. destruct Hr.
  assert (Hw : afterReport e missionId newProgress mission w
               = progressWritten missionId newProgress
                   (bool_decide (Mission.target mission ≤ newProgress)) w).
  { unfold afterReport, awards. rewrite Hc. by rewrite andb_false_r. }
  rewrite Hw in *. done.
Qed.

(** With a store that serves every request, two reports in a row that reach
    the target of a mission that was not completed: the first writes
    [userPoints + mission.points] to the user and announces the completion;
    the second awards nothing. *)
Theorem mission_points_credited_once
    (e : Env) (fuel : nat) (missionId : string) (p1 p2 : Z) (w : World)
    (mission : Mission.t) (r : Mission.row) (uid : string) :
  (3 ≤ fuel)%nat →
  faults (store w) = [] → auth_user (store w) = Some uid →
  userId (screen w) = Some uid → truthy uid = true →
  findMission missionId (missions (screen w)) = Some mission →
  tbl_missions (store w) !! missionId = Some r →
  Mission.completed mission = false →
  Mission.target mission ≤ p1 →
  let newPoints := userPoints (screen w) + Mission.points mission in
  ∃ w1 w2,
    updateMissionProgress e fuel missionId p1 w = Done tt w1
    ∧ updateMissionProgress e fuel missionId p2 w1 = Done tt w2
    ∧ tbl_users (store w1) = update_user uid newPoints (tbl_users (store w))
    ∧ userPoints (screen w1) = newPoints
    ∧ alerts (screen w1)
      = (i18n_t e "missionCompleted", i18n_t_points e "earnedPoints" (Mission.points mission))
          :: alerts (screen w)
    ∧ tbl_users (store w2) = tbl_users (store w1)
    ∧ userPoints (screen w2) = userPoints (screen w1)
    ∧ alerts (screen w2) = alerts (screen w1).
Proof.
  intros Hfuel Hf Ha Hu Ht Hfind Hrow Hc Hp1 newPoints.
  destruct (updateMissionProgress_served e fuel missionId p1 w mission uid)
    as (w1 & Hrun1 & Hr1); [done..|].
  assert (Hw : afterReport e missionId p1 mission w
               = pointsAwarded e uid newPoints (Mission.points mission)
                   (progressWritten missionId p1 true w)).
  { unfold afterReport, awards. rewrite Hu, Ht, Hc. simpl.
    by rewrite bool_decide_eq_true_2. }
  rewrite Hw in Hr1. destruct Hr1 as [Hf1 Ha1 Hu1 Hrows1 Hm1 _ Hp Hal1 _].
  simpl in Hu1, Hrows1, Hal1.
  assert (Hpts1 : userPoints (screen w1) = newPoints).
  { rewrite Hp. by eapply fetchedPoints_update_user. }
  assert (Hsame : fetchedPoints uid w1 = userPoints (screen w1)).
  { rewrite Hpts1. by eapply fetchedPoints_update_user. }
  assert (∃ w2, updateMissionProgress e fuel missionId p2 w1 = Done tt w2
                ∧ tbl_users (store w2) = tbl_users (store w1)
                ∧ userPoints (screen w2) = userPoints (screen w1)
                ∧ alerts (screen w2) = alerts (screen w1)) as (w2 & Hrun2 & H2).
  { destruct (findMission missionId (missions (screen w1))) as [m'|] eqn:Hfind2.
    - destruct (findMission_Some _ _ _ Hfind2) as [Hin Hid].
      rewrite Hm1 in Hin. apply elem_of_loaded in Hin as [Hin _]. rewrite Hid in Hin.
      assert (Hdone : tbl_missions (store w1) !! missionId
                      = Some (Mission.set_progress p1 true r)).
      { eapply lookup_weaken; [|exact Hrows1]. unfold update_mission.
        by rewrite lookup_alter_eq, Hrow. }
      rewrite Hdone in Hin. injection Hin as Hin.
      destruct (report_on_completed_awards_nothing e fuel missionId p2 w1 m' uid)
        as (w2 & Hrun2 & Hu2 & Hp2 & Hal2); [done..|by rewrite <- Hin|].
      exists w2. by rewrite Hp2, Hsame.
    - exists w1. split; [by apply updateMissionProgress_not_found|done]. }
  by exists w1, w2.
Qed.

Lemma mission_points_credited_once_witness :
  ∃ w1 w2,
    updateMissionProgress sample_env 3 "m1" 2 sample_world = Done tt w1
    ∧ updateMissionProgress sample_env 3 "m1" 3 w1 = Done tt w2
    ∧ tbl_users (store w1) = update_user "u1" 15 (tbl_users (store sample_world))
    ∧ userPoints (screen w1) = 15
    ∧ alerts (screen w1) = [("missionCompleted", "earnedPoints")]
    ∧ tbl_users (store w2) = tbl_users (store w1)
    ∧ userPoints (screen w2) = userPoints (screen w1)
    ∧ alerts (screen w2) = alerts (screen w1).
Proof.
  apply (mission_points_credited_once sample_env 3 "m1" 2 3 sample_world
           (Mission.mk "m1" (sample_row "u1" Mission.daily false))
           (sample_row "u1" Mission.daily false) "u1");
    first [reflexivity | lia | by vm_compute].
Defined.

End ProgressReports.

(** ** Mission generation *)

Section Generation.
Import Supabase MissionsScreen.

Lemma insert_all_size rows tbl : size (insert_all rows tbl) = (size tbl + length rows)%nat.
Proof.
  revert tbl. induction rows as [|r rows IH]; intros tbl; simpl; [lia|].
  rewrite IH, insert_mission_size. lia.
Qed.

Lemma insert_all_elem_of_new rows tbl r :
  r ∈ rows → ∃ i, insert_all rows tbl !! i = Some r ∧ tbl !! i = None.
Proof.
  revert tbl. induction rows as [|r' rows IH]; intros tbl; [by intros ?%elem_of_nil|].
  intros [->|Hin]%elem_of_cons; simpl.
  - exists (fresh (dom tbl)). split; [|by apply (insert_mission_fresh r')].
    eapply lookup_weaken; [apply insert_mission_lookup_new|apply insert_all_subseteq].
  - destruct (IH (insert_mission r' tbl) Hin) as (i & Hi & Hnone). exists i. split; [done|].
    eapply lookup_weaken_None; [exact Hnone|apply insert_mission_subseteq].
Qed.

(** Local midnight of today is the last midnight not after the clock reading,
    and the midnight [k] days later is [k] days after it. *)
Lemma localMidnight_today e :
  localMidnight e 0 ≤ now e < localMidnight e 0 + msPerDay.
Proof. unfold localMidnight, msPerDay. Z.div_mod_to_equations. lia. Qed.

Lemma localMidnight_plus e k : localMidnight e k = localMidnight e 0 + k * msPerDay.
Proof. unfold localMidnight. lia. Qed.

(** C7, as the code has it.  When the check finds no active mission of a
    kind in the list at hand, it runs the generator of that kind.  With a
    store that serves the requests, a generator inserts exactly three rows
    built from its fixed templates and goes on to the reload; the rows have
    [progress = 0], [completed = false] and expire at local midnight of today
    plus one day (daily) or plus seven days (weekly), today's midnight being
    the last one not after [now]. *)
Theorem generators_insert_three_templates
    (e : Env) (rec : M unit) (uid : string) (w : World) :
  faults (store w) = [] →
  let today := localMidnight e 0 in
  let row expiresAt kind :=
    λ t : string * string * Z * Z,
      Mission.mkRow uid (i18n_t e t.1.1.1) (i18n_t e t.1.1.2) kind t.1.2 t.2 0 false
                    expiresAt (now e) in
  (today ≤ now e < today + msPerDay)
  ∧ dailyRows e uid
    = row (today + msPerDay) Mission.daily
        <$> [ ("logFoodTwice", "logFoodTwiceDesc", 10, 2);
              ("logExerciseOnce", "logExerciseOnceDesc", 15, 1);
              ("consumeFiber", "consumeFiberDesc", 20, 25) ]
  ∧ weeklyRows e uid
    = row (today + 7 * msPerDay) Mission.weekly
        <$> [ ("burnCalories", "burnCaloriesDesc", 50, 1000);
              ("noFriedFood", "noFriedFoodDesc", 40, 3);
              ("proteinIntake", "proteinIntakeDesc", 45, 50) ]
  ∧ (∀ currentMissions,
       activeMissions today Mission.daily currentMissions = [] →
       checkAndGenerateMissions e rec uid currentMissions
       = (generateDailyMissions e rec uid ;;
          if decide (length (activeMissions today Mission.weekly currentMissions) = 0%nat)
          then generateWeeklyMissions e rec uid else ret tt)%async)
  ∧ (∀ currentMissions,
       activeMissions today Mission.weekly currentMissions = [] →
       checkAndGenerateMissions e rec uid currentMissions
       = ((if decide (length (activeMissions today Mission.daily currentMissions) = 0%nat)
           then generateDailyMissions e rec uid else ret tt) ;;
          generateWeeklyMissions e rec uid)%async)
  ∧ generateDailyMissions e rec uid w
    = try_catch rec (console_error "Error generating daily missions:")
                (inserted (dailyRows e uid) w)
  ∧ generateWeeklyMissions e rec uid w
    = try_catch rec (console_error "Error generating weekly missions:")
                (inserted (weeklyRows e uid) w)
  ∧ ∀ rows, rows = dailyRows e uid ∨ rows = weeklyRows e uid →
      let tbl := tbl_missions (store w) in
      let tbl' := tbl_missions (store (inserted rows w)) in
      size tbl' = (size tbl + 3)%nat
      ∧ tbl ⊆ tbl'
      ∧ (∀ r, r ∈ rows → ∃ i, tbl' !! i = Some r ∧ tbl !! i = None)
      ∧ (∀ i r, tbl' !! i = Some r → r ∈ rows ∨ tbl !! i = Some r).
Proof.
  intros Hf today row.
  split; [apply localMidnight_today|].
  split; [unfold dailyRows; by rewrite localMidnight_plus|].
  split; [unfold weeklyRows; by rewrite localMidnight_plus|].
  split.
  { intros currentMissions Hnone. unfold checkAndGenerateMissions.
    fold today. by rewrite Hnone. }
  split.
  { intros currentMissions Hnone. unfold checkAndGenerateMissions.
    fold today. by rewrite Hnone. }
  split; [by apply generateDailyMissions_inserted|].
  split; [by apply generateWeeklyMissions_inserted|].
  intros rows Hrows tbl tbl'. subst tbl tbl'. cbn [inserted store tbl_missions].
  split; [|split; [apply insert_all_subseteq|split]].
  - rewrite insert_all_size. by destruct Hrows as [-> | ->].
  - intros r. apply insert_all_elem_of_new.
  - intros i r. apply insert_all_lookup_inv.
Qed.

Lemma generators_insert_three_templates_witness :
  generateDailyMissions sample_env (ret tt) "u1" fresh_world
  = Done tt (inserted (dailyRows sample_env "u1") fresh_world)
  ∧ size (tbl_missions (store (inserted (dailyRows sample_env "u1") fresh_world))) = 3%nat.
Proof.
  destruct (generators_insert_three_templates sample_env (ret tt) "u1" fresh_world eq_refl)
    as (_ & _ & _ & _ & _ & Hd & _ & Hrows).
  split; [by rewrite Hd|].
  by destruct (Hrows (dailyRows sample_env "u1") (or_introl eq_refl)) as (-> & _).
Defined.

(** C7, as stated, fails: at 23:00 UTC of 1 January 2024 in a zone seven hours
    ahead, the daily missions created expire at the coming local midnight,
    which is 18 hours away and not [now + 1 day]. *)
Lemma daily_missions_expire_at_midnight_not_a_day_later :
  generateDailyMissions sample_env (ret tt) "u1" fresh_world
  = Done tt (inserted (dailyRows sample_env "u1") fresh_world)
  ∧ Mission.expiresAt <$> dailyRows sample_env "u1"
    = [1704214800000; 1704214800000; 1704214800000]
  ∧ now sample_env + msPerDay = 1704236400000.
Proof. by vm_compute. Qed.

(** The check goes on with the list loaded before the nested reload: for a
    user without missions the weekly generator runs twice, once inside the
    reload that ends the daily generation and once in the check itself. *)
Lemma new_user_gets_weekly_templates_twice :
  ∃ w', loadData sample_env 3 fresh_world = Done tt w'
        ∧ length (activeMissions (localMidnight sample_env 0) Mission.daily
                                 (missions (screen w'))) = 3%nat
        ∧ length (activeMissions (localMidnight sample_env 0) Mission.weekly
                                 (missions (screen w'))) = 6%nat.
Proof. eexists. split; [by vm_compute|]. by vm_compute. Qed.

End Generation.

(** ** Idempotence of the generation check *)


Section Idempotence.
Import Supabase MissionsScreen.

(** Both kinds active in the list at hand: the check does nothing. *)
Lemma checkAndGenerateMissions_noop e (rec : M unit) u currentMissions w :
  length (activeMissions (localMidnight e 0) Mission.daily currentMissions) ≠ 0%nat →
  length (activeMissions (localMidnight e 0) Mission.weekly currentMissions) ≠ 0%nat →
  checkAndGenerateMissions e rec u currentMissions w = Done tt w.
Proof.
  intros Hd Hw. unfold checkAndGenerateMissions.
  by rewrite (decide_False (P := length (activeMissions _ Mission.daily _) = 0%nat)),
             (decide_False (P := length (activeMissions _ Mission.weekly _) = 0%nat)).
Qed.

(** A reload that finds both kinds active leaves the table alone. *)
Lemma loadData_ensured e uid n w :
  faults (store w) = [] → auth_user (store w) = Some uid →
  ensured e uid (tbl_missions (store w)) →
  ∃ w', loadData e (S n) w = Done tt w'
        ∧ tbl_missions (store w') = tbl_missions (store w)
        ∧ missions (screen w') = loaded uid (tbl_missions (store w)).
Proof.
  destruct w as [[tm tu au fs rq] sc]. simpl. intros -> -> He.
  cbn [loadData]. rewrite loadData_body_ensured by done. by eexists.
Qed.

(** C2. The generation check is idempotent.
    (1) Whatever requests fail, a reload with fuel for the fault script
        returns, and it has not added or changed a row of a kind (daily or
        weekly) of which the user has a mission that has not expired before
        today.
    (2) When the loaded list has such a mission of both kinds, the check
        returns at once and the world is as before.
    (3) With a store that serves every request and fuel for three nested
        reloads, a first reload goes through, and a second one leaves the missions table (hence the set of
        mission ids) and the loaded list as the first left them. *)
Theorem ensure_missions_idempotent (e : Env) (uid : string) :
  (∀ k fuel w,
     k = Mission.daily ∨ k = Mission.weekly →
     auth_user (store w) = Some uid →
     hasActive e uid k (tbl_missions (store w)) →
     (length (faults (store w)) + 3 ≤ fuel)%nat →
     ∃ w', loadData e fuel w = Done tt w'
           ∧ sameRows k (tbl_missions (store w)) (tbl_missions (store w')))
  ∧ (∀ (rec : M unit) u currentMissions w,
       activeMissions (localMidnight e 0) Mission.daily currentMissions ≠ [] →
       activeMissions (localMidnight e 0) Mission.weekly currentMissions ≠ [] →
       checkAndGenerateMissions e rec u currentMissions w = Done tt w)
  ∧ (∀ fuel w,
       (3 ≤ fuel)%nat →
       faults (store w) = [] → auth_user (store w) = Some uid →
       ∃ w1 w2,
         loadData e fuel w = Done tt w1
         ∧ loadData e fuel w1 = Done tt w2
         ∧ tbl_missions (store w2) = tbl_missions (store w1)
         ∧ dom (tbl_missions (store w2)) = dom (tbl_missions (store w1))
         ∧ missions (screen w2) = missions (screen w1)).
Proof.
  split; [|split].
  - intros k fuel w Hk Ha Hact Hfuel.
    pose proof (loadData_returns e fuel _ Hfuel w (Nat.le_refl _)) as Hret.
    pose proof (loadData_keeps e uid k (tbl_missions (store w)) fuel Hk w) as Hkeep.
    destruct (loadData e fuel w) as [[] w'| |]; [|done..].
    exists w'. split; [done|]. by apply Hkeep.
  - intros rec u currentMissions w Hd Hw.
    apply checkAndGenerateMissions_noop; by rewrite length_zero_iff_nil.
  - intros fuel w Hfuel Hf Ha.
    destruct (loadData_reloads e uid fuel w) as (w1 & Hl1 & Hr1 & He1);
      [done|done|eapply Nat.lt_le_trans; [apply missing_le|done]|].
    destruct fuel as [|n]; [lia|].
    destruct (loadData_ensured e uid n w1) as (w2 & Hl2 & Htbl & Hm);
      [apply Hr1|apply Hr1|done|].
    exists w1, w2. split; [done|]. split; [done|]. split; [done|].
    split; [by rewrite Htbl|]. rewrite Hm. symmetry. apply Hr1.
Qed.

Lemma ensure_missions_idempotent_witness :
  ∃ w1 w2,
    loadData sample_env 3 fresh_world = Done tt w1
    ∧ loadData sample_env 3 w1 = Done tt w2
    ∧ tbl_missions (store w2) = tbl_missions (store w1)
    ∧ dom (tbl_missions (store w2)) = dom (tbl_missions (store w1))
    ∧ missions (screen w2) = missions (screen w1).
Proof.
  apply (proj2 (proj2 (ensure_missions_idempotent sample_env "u1")) 3%nat fresh_world);
    [lia|reflexivity..].
Defined.

End Idempotence.

(** ** Failing requests *)

Section Failures.
Import Supabase MissionsScreen.

(** When the write of the mission row fails, the report stops there: the
    error is logged and shown, no other request is issued, and the tables and
    the points are untouched. *)
Lemma report_mission_write_failure e fuel missionId newProgress w mission fs :
  faults (store w) = true :: fs →
  findMission missionId (missions (screen w)) = Some mission →
  updateMissionProgress e fuel missionId newProgress w
  = Done tt
      (mkWorld
         (mkStore (tbl_missions (store w)) (tbl_users (store w)) (auth_user (store w)) fs
                  (ReqUpdate t_missions missionId :: requests (store w)))
         (mkScreen (userId (screen w)) (missions (screen w)) (userPoints (screen w))
                   ((i18n_t e "error", i18n_t e "updateProgressError") :: alerts (screen w))
                   ("Error updating mission progress:" :: errors (screen w)))).
Proof.
  destruct w as [[tm tu au fs' rq] [su sm sp sa se]]. simpl. intros -> Hfind.
  unfold updateMissionProgress, findMission in *. run. by rewrite Hfind.
Qed.

(** C9 fails on the code when the write of the points fails.  The mission
    row is written first and stays completed; the result of the users write
    is not looked at, so no error is logged or shown and the completion is
    announced; the reload then shows the old points.  The points of this
    mission can no longer be earned. *)
Theorem points_write_failure_goes_unreported :
  let w := with_faults [false; true] sample_world in
  ∃ w', updateMissionProgress sample_env 3 "m1" 2 w = Done tt w'
        ∧ Mission.completed <$> tbl_missions (store w') !! "m1" = Some true
        ∧ Mission.completed <$> tbl_missions (store w) !! "m1" = Some false
        ∧ tbl_users (store w') = tbl_users (store w)
        ∧ userPoints (screen w') = userPoints (screen w)
        ∧ alerts (screen w') = [("missionCompleted", "earnedPoints")]
        ∧ errors (screen w') = [].
Proof. cbn zeta. eexists. split; [by vm_compute|]. by vm_compute. Qed.

(** The same slip in the generators: the result of an insertion is not looked
    at.  When one insertion fails the other templates are still inserted and
    nothing is logged or shown; when all three fail, the reload that follows
    runs the generator again. *)
Lemma insert_failure_goes_unreported :
  let w := with_faults [false; false; false; true] fresh_world in
  ∃ w', loadData sample_env 4 w = Done tt w'
        ∧ length (filter (λ m : Mission.t, Mission.type m = Mission.daily)
                         (missions (screen w'))) = 2%nat
        ∧ alerts (screen w') = [] ∧ errors (screen w') = [].
Proof. cbn zeta. eexists. split; [by vm_compute|]. by vm_compute. Qed.

Lemma failed_generation_is_run_again :
  let w := with_faults [false; false; false; true; true; true] fresh_world in
  ∃ w', loadData sample_env 4 w = Done tt w'
        ∧ length (filter (λ r, r = ReqInsert t_missions) (requests (store w'))) = 15%nat
        ∧ length (filter (λ m : Mission.t, Mission.type m = Mission.daily)
                         (missions (screen w'))) = 3%nat
        ∧ alerts (screen w') = [] ∧ errors (screen w') = [].
Proof. cbn zeta. eexists. split; [by vm_compute|]. by vm_compute. Qed.

(** C1 fails on the code when the reload that ends the first report cannot
    read the missions.  The guard of the award looks at the [completed] flag
    of the mission in the list on the screen, not at the stored one.  Here
    the first report writes the row (completed) and the points (5 + 10); its
    reload reads the session and the user row and then fails on the missions,
    so the list on the screen keeps the mission as not completed.  The second
    report finds it there, and credits the 10 points again, although the
    stored flag was true already. *)
Theorem repeated_report_is_credited_again_after_failed_reload :
  let w := with_faults [false; false; false; false; true] sample_world in
  ∃ w1 w2,
    updateMissionProgress sample_env 3 "m1" 2 w = Done tt w1
    ∧ updateMissionProgress sample_env 3 "m1" 2 w1 = Done tt w2
    ∧ userPoints (screen w) = 5
    ∧ Mission.completed <$> tbl_missions (store w) !! "m1" = Some false
    ∧ Mission.completed <$> tbl_missions (store w1) !! "m1" = Some true
    ∧ (λ m : Mission.t, Mission.completed m) <$> missions (screen w1) = [false]
    ∧ userPoints (screen w1) = 15
    ∧ tbl_users (store w1) !! "u1" = Some (User.mkRow (Some 15))
    ∧ alerts (screen w1) = [("error", "loadDataError"); ("missionCompleted", "earnedPoints")]
    ∧ userPoints (screen w2) = 25
    ∧ tbl_users (store w2) !! "u1" = Some (User.mkRow (Some 25))
    ∧ alerts (screen w2)
      = [("missionCompleted", "earnedPoints"); ("error", "loadDataError");
         ("missionCompleted", "earnedPoints")].
Proof. cbn zeta. eexists _, _. split; [by vm_compute|]. split; by vm_compute. Qed.

End Failures.

(** * Further properties of the screens *)

(** ** Order of the sorted lists *)

Section SortOrder.
Context {A : Type} (cmp : A → A → Z).
Hypothesis cmp_total : ∀ a b, cmp a b ≤ 0 ∨ cmp b a ≤ 0.

Lemma sort_insert_Sorted x l :
  Sorted (λ a b, cmp a b ≤ 0) l → Sorted (λ a b, cmp a b ≤ 0) (sort_insert cmp x l).
Proof.
  induction 1 as [|y l Hl IH Hy]; simpl; [by repeat constructor|].
  case_decide as Hxy; [by repeat constructor|].
  constructor; [done|].
  destruct Hy as [|z l Hyz]; simpl.
  - constructor. destruct (cmp_total x y); [done|lia].
  - case_decide; constructor; [|done]. destruct (cmp_total x y); [done|lia].
Qed.

Lemma js_sort_Sorted l : Sorted (λ a b, cmp a b ≤ 0) (js_sort cmp l).
Proof.
  induction l as [|x l IH]; simpl; [constructor|]. by apply sort_insert_Sorted.
Qed.

End SortOrder.

Lemma StronglySorted_lookup {A} (R : A → A → Prop) l i j a b :
  StronglySorted R l → l !! i = Some a → l !! j = Some b → (i < j)%nat → R a b.
Proof.
  intros Hl. revert i j. induction Hl as [|x l Hl IH Hx]; intros i j Hi Hj Hij; [done|].
  destruct j as [|j]; [lia|]. simpl in Hj. destruct i as [|i]; simpl in Hi.
  - injection Hi as <-. rewrite Forall_forall in Hx. apply Hx.
    by eapply list_elem_of_lookup_2.
  - eapply IH; [done..|lia].
Qed.

Lemma Sorted_weaken {A} (R R' : A → A → Prop) l :
  (∀ x y, R x y → R' x y) → Sorted R l → Sorted R' l.
Proof.
  intros HR. induction 1 as [|x l Hl IH Hx]; constructor; [done|].
  destruct Hx; constructor. by apply HR.
Qed.

Section MissionOrder.
Import Supabase MissionsScreen.

Lemma typeOrder_inj k k' : typeOrder k = typeOrder k' → k = k'.
Proof. by destruct k, k'. Qed.

Lemma compareMissions_order a b : compareMissions a b ≤ 0 ↔ missionsOrder a b.
Proof.
  unfold compareMissions, missionsOrder.
  destruct a as [ia [? ? ? ka ? ? ? ca xa ?]], b as [ib [? ? ? kb ? ? ? cb xb ?]]; simpl.
  case_decide as Hk.
  - split; [intros ?; left; lia|]. intros [?|[-> _]]; [lia|]. lia.
  - assert (ka = kb) as -> by (apply typeOrder_inj; lia).
    destruct ca, cb; simpl; split; intros H;
      first [lia | right; split; [done|]; first [by left | right; split; [done|lia]]
            | destruct H as [?|[_ [[? ?]|[? ?]]]]; first [lia | done]].
Qed.

Lemma compareMissions_total a b : compareMissions a b ≤ 0 ∨ compareMissions b a ≤ 0.
Proof.
  rewrite !compareMissions_order. unfold missionsOrder.
  destruct (Mission.type a), (Mission.type b); simpl; try (left; left; lia);
    try (right; left; lia);
    destruct (Mission.completed a), (Mission.completed b);
    destruct (Z.le_gt_cases (Mission.expiresAt a) (Mission.expiresAt b));
    first [left; right; split; [done|]; first [by left | right; split; [done|lia]]
          | right; right; split; [done|]; first [by left | right; split; [done|lia]]].
Qed.

#[local] Instance missionsOrder_trans : Transitive missionsOrder.
Proof.
  intros a b c. unfold missionsOrder.
  intros [?|[Hab Hab']] [?|[Hbc Hbc']].
  - left; lia.
  - left. rewrite <- Hbc. done.
  - left. rewrite Hab. done.
  - right. split; [congruence|].
    destruct Hab' as [[? ?]|[? ?]], Hbc' as [[? ?]|[? ?]]; try congruence.
    + left. split; congruence.
    + left. split; congruence.
    + right. split; [congruence|lia].
Qed.

(** X1. The list a reload shows holds the fetched missions of the user, each
    once, in the order daily, weekly, special; within a type the missions
    that are not completed come first, and then the ones that expire sooner. *)
Theorem loaded_missions_order (uid : string) (tbl : gmap string Mission.row) :
  loaded uid tbl ≡ₚ select_missions uid tbl
  ∧ ∀ i j (a b : Mission.t),
      loaded uid tbl !! i = Some a → loaded uid tbl !! j = Some b → (i < j)%nat →
      typeOrder (Mission.type a) < typeOrder (Mission.type b)
      ∨ (Mission.type a = Mission.type b
         ∧ ((Mission.completed a = false ∧ Mission.completed b = true)
            ∨ (Mission.completed a = Mission.completed b
               ∧ Mission.expiresAt a ≤ Mission.expiresAt b))).
Proof.
  split; [apply js_sort_Permutation|].
  intros i j a b. apply (StronglySorted_lookup missionsOrder).
  apply Sorted_StronglySorted; [apply missionsOrder_trans|].
  unfold loaded.
  eapply Sorted_weaken; [|apply (js_sort_Sorted compareMissions compareMissions_total)].
  intros x y. apply compareMissions_order.
Qed.

End MissionOrder.

(** ** Generation, as one reload leaves it *)

Section GenerationOutcome.
Import Supabase MissionsScreen.

Lemma served_inserted uid tbl rows w :
  served uid tbl w → served uid (insert_all rows tbl) (inserted rows w).
Proof. intros (Hf & Ha & <-). by repeat split. Qed.

(** One level of a reload, given what the nested reloads do. *)
Lemma loadData_level e uid n tm t1 t2 w :
  served uid tm w →
  (if lacks e uid Mission.daily tm
   then ∀ w1, served uid (insert_all (dailyRows e uid) tm) w1 →
              ∃ w2, loadData e n w1 = Done tt w2 ∧ served uid t1 w2
   else t1 = tm) →
  (if lacks e uid Mission.weekly tm
   then ∀ w3, served uid (insert_all (weeklyRows e uid) t1) w3 →
              ∃ w4, loadData e n w3 = Done tt w4 ∧ served uid t2 w4
   else t2 = t1) →
  ∃ w', loadData e (S n) w = Done tt w' ∧ served uid t2 w'.
Proof.
  intros (Hf & Ha & Ht) Hdaily Hweekly.
  destruct w as [[tm' tu au fs rq] sc]. simpl in Hf, Ha, Ht. subst fs au tm'.
  cbn [loadData]. rewrite loadData_body_run.
  set (w0 := mkWorld _ _).
  assert (H0 : served uid tm w0) by done.
  unfold checkAndGenerateMissions. rewrite !decide_lacks.
  assert (∃ w2, (if lacks e uid Mission.daily tm
                 then generateDailyMissions e (loadData e n) uid else ret tt) w0 = Done tt w2
                ∧ served uid t1 w2) as (w2 & HA & H2).
  { destruct (lacks e uid Mission.daily tm).
    - rewrite generateDailyMissions_inserted by apply H0.
      destruct (Hdaily (inserted (dailyRows e uid) w0)) as (w2 & Hl & Hs);
        [by apply served_inserted|].
      exists w2. split; [by apply try_catch_done|done].
    - exists w0. by subst t1. }
  assert (∃ w4, (if lacks e uid Mission.weekly tm
                 then generateWeeklyMissions e (loadData e n) uid else ret tt) w2 = Done tt w4
                ∧ served uid t2 w4) as (w4 & HB & H4).
  { destruct (lacks e uid Mission.weekly tm).
    - rewrite generateWeeklyMissions_inserted by apply H2.
      destruct (Hweekly (inserted (weeklyRows e uid) w2)) as (w4 & Hl & Hs);
        [by apply served_inserted|].
      exists w4. split; [by apply try_catch_done|done].
    - exists w2. by subst t2. }
  destruct (getData_badges_served uid w4) as (w5 & HC & Hs5 & Hc5); [apply H4|].
  exists w5. split.
  { apply try_catch_done.
    rewrite (bind_done _ _ w0 tt w4); [exact HC|].
    rewrite (bind_done _ _ w0 tt w2); [exact HB|exact HA]. }
  destruct H4 as (? & ? & ?). unfold served. by rewrite Hs5.
Qed.

Lemma loadData_nothing_missing e uid n tm w :
  served uid tm w → ensured e uid tm →
  ∃ w', loadData e (S n) w = Done tt w' ∧ served uid tm w'.
Proof.
  intros Hs [Hd%lacks_false Hw%lacks_false].
  apply (loadData_level e uid n tm tm tm w Hs); [by rewrite Hd|by rewrite Hw].
Qed.

(** Rows of another kind do not change what the check finds. *)
Lemma lacks_insert_other e uid k rows tbl :
  (∀ r, r ∈ rows → Mission.type r ≠ k) →
  lacks e uid k (insert_all rows tbl) = lacks e uid k tbl.
Proof.
  intros Hrows.
  destruct (lacks e uid k tbl) eqn:Hl.
  - destruct (lacks e uid k (insert_all rows tbl)) eqn:Hl'; [done|].
    apply lacks_false in Hl' as (i & r & Hi & Hu & Hk & Hexp).
    apply insert_all_lookup_inv in Hi as [Hin|Hi]; [by apply Hrows in Hin|].
    assert (lacks e uid k tbl = false) by (apply lacks_false; by exists i, r).
    congruence.
  - apply lacks_false. apply lacks_false in Hl.
    eapply hasActive_mono; [apply insert_all_subseteq|done].
Qed.

Lemma dailyRows_type e uid r : r ∈ dailyRows e uid → Mission.type r = Mission.daily.
Proof.
  unfold dailyRows, dailyMissionTemplates. cbn. rewrite !elem_of_cons, elem_of_nil.
  by intros [->|[->|[->|[]]]].
Qed.

Lemma weeklyRows_type e uid r : r ∈ weeklyRows e uid → Mission.type r = Mission.weekly.
Proof.
  unfold weeklyRows, weeklyMissionTemplates. cbn. rewrite !elem_of_cons, elem_of_nil.
  by intros [->|[->|[->|[]]]].
Qed.

Lemma loadData_weekly_missing e uid n tm w :
  served uid tm w →
  lacks e uid Mission.daily tm = false → lacks e uid Mission.weekly tm = true →
  ∃ w', loadData e (S (S n)) w = Done tt w'
        ∧ served uid (insert_all (weeklyRows e uid) tm) w'.
Proof.
  intros Hs Hd Hw.
  apply (loadData_level e uid (S n) tm tm _ w Hs); [by rewrite Hd|rewrite Hw].
  intros w3 H3. apply loadData_nothing_missing; [done|]. split.
  - eapply hasActive_mono; [apply insert_all_subseteq|by apply lacks_false].
  - apply hasActive_weeklyRows.
Qed.

(** X5. What one reload generates, with a store that serves every request.
    Nothing when the user has an active mission of both kinds; the three
    daily or the three weekly templates when one kind is missing; and for a
    user with neither, the daily templates once and the weekly templates
    twice, nine rows in all: the check decides on the weekly missions with
    the list it was given, after the reload that ended the daily generation
    has created them already. *)
Theorem generation_outcome (e : Env) (uid : string) (fuel : nat) (w : World) :
  faults (store w) = [] → auth_user (store w) = Some uid → (3 ≤ fuel)%nat →
  let tbl := tbl_missions (store w) in
  ∃ w', loadData e fuel w = Done tt w'
    ∧ (hasActive e uid Mission.daily tbl → hasActive e uid Mission.weekly tbl →
       tbl_missions (store w') = tbl)
    ∧ (¬ hasActive e uid Mission.daily tbl → hasActive e uid Mission.weekly tbl →
       tbl_missions (store w') = insert_all (dailyRows e uid) tbl)
    ∧ (hasActive e uid Mission.daily tbl → ¬ hasActive e uid Mission.weekly tbl →
       tbl_missions (store w') = insert_all (weeklyRows e uid) tbl)
    ∧ (¬ hasActive e uid Mission.daily tbl → ¬ hasActive e uid Mission.weekly tbl →
       tbl_missions (store w')
       = insert_all (weeklyRows e uid)
           (insert_all (weeklyRows e uid) (insert_all (dailyRows e uid) tbl))
       ∧ size (tbl_missions (store w')) = (size tbl + 9)%nat).
Proof.
  intros Hf Ha Hfuel tbl.
  destruct fuel as [|[|[|n]]]; [lia..|].
  assert (Hs : served uid tbl w) by done.
  assert (∃ w', loadData e (S (S (S n))) w = Done tt w'
                ∧ served uid
                    (match lacks e uid Mission.daily tbl, lacks e uid Mission.weekly tbl with
                     | false, false => tbl
                     | true, false => insert_all (dailyRows e uid) tbl
                     | false, true => insert_all (weeklyRows e uid) tbl
                     | true, true =>
                         insert_all (weeklyRows e uid)
                           (insert_all (weeklyRows e uid) (insert_all (dailyRows e uid) tbl))
                     end) w') as (w' & Hrun & _ & _ & Htbl).
  { destruct (lacks e uid Mission.daily tbl) eqn:Hd, (lacks e uid Mission.weekly tbl) eqn:Hw.
    - apply (loadData_level e uid _ tbl
               (insert_all (weeklyRows e uid) (insert_all (dailyRows e uid) tbl)) _ w Hs);
        [rewrite Hd|rewrite Hw].
      + intros w1 H1. apply loadData_weekly_missing; [done| |].
        * apply lacks_false, hasActive_dailyRows.
        * rewrite lacks_insert_other; [done|].
          intros r Hr. by rewrite (dailyRows_type _ _ _ Hr).
      + intros w3 H3. apply loadData_nothing_missing; [done|]. split.
        * eapply hasActive_mono; [|apply (hasActive_dailyRows e uid tbl)].
          etrans; apply insert_all_subseteq.
        * apply hasActive_weeklyRows.
    - apply (loadData_level e uid _ tbl (insert_all (dailyRows e uid) tbl) _ w Hs);
        [rewrite Hd|by rewrite Hw].
      intros w1 H1. apply loadData_nothing_missing; [done|]. split.
      + apply hasActive_dailyRows.
      + eapply hasActive_mono; [apply insert_all_subseteq|by apply lacks_false].
    - by apply loadData_weekly_missing.
    - apply loadData_nothing_missing; [done|]. by split; apply lacks_false. }
  exists w'. split; [done|].
  repeat split.
  - intros Hd%lacks_false Hw%lacks_false. by rewrite Htbl, Hd, Hw.
  - intros Hd Hw%lacks_false. rewrite Htbl, Hw.
    destruct (lacks e uid Mission.daily tbl) eqn:Hl; [done|]. by apply lacks_false in Hl.
  - intros Hd%lacks_false Hw. rewrite Htbl, Hd.
    destruct (lacks e uid Mission.weekly tbl) eqn:Hl; [done|]. by apply lacks_false in Hl.
  - rewrite Htbl.
    destruct (lacks e uid Mission.daily tbl) eqn:Hl; [|by apply lacks_false in Hl].
    destruct (lacks e uid Mission.weekly tbl) eqn:Hl'; [done|by apply lacks_false in Hl'].
  - rewrite Htbl.
    destruct (lacks e uid Mission.daily tbl) eqn:Hl; [|by apply lacks_false in Hl].
    destruct (lacks e uid Mission.weekly tbl) eqn:Hl'; [|by apply lacks_false in Hl'].
    rewrite !insert_all_size. simpl. lia.
Qed.

Lemma generation_outcome_witness :
  ∃ w', loadData sample_env 3 fresh_world = Done tt w'
    ∧ (hasActive sample_env "u1" Mission.daily (tbl_missions (store fresh_world)) →
       hasActive sample_env "u1" Mission.weekly (tbl_missions (store fresh_world)) →
       tbl_missions (store w') = tbl_missions (store fresh_world))
    ∧ (¬ hasActive sample_env "u1" Mission.daily (tbl_missions (store fresh_world)) →
       hasActive sample_env "u1" Mission.weekly (tbl_missions (store fresh_world)) →
       tbl_missions (store w')
       = insert_all (dailyRows sample_env "u1") (tbl_missions (store fresh_world)))
    ∧ (hasActive sample_env "u1" Mission.daily (tbl_missions (store fresh_world)) →
       ¬ hasActive sample_env "u1" Mission.weekly (tbl_missions (store fresh_world)) →
       tbl_missions (store w')
       = insert_all (weeklyRows sample_env "u1") (tbl_missions (store fresh_world)))
    ∧ (¬ hasActive sample_env "u1" Mission.daily (tbl_missions (store fresh_world)) →
       ¬ hasActive sample_env "u1" Mission.weekly (tbl_missions (store fresh_world)) →
       tbl_missions (store w')
       = insert_all (weeklyRows sample_env "u1")
           (insert_all (weeklyRows sample_env "u1")
              (insert_all (dailyRows sample_env "u1") (tbl_missions (store fresh_world))))
       ∧ size (tbl_missions (store w')) = (size (tbl_missions (store fresh_world)) + 9)%nat).
Proof.
  apply (generation_outcome sample_env "u1" 3 fresh_world); [reflexivity|reflexivity|lia].
Defined.

End GenerationOutcome.

(** ** What a reload leaves alone *)

Section Frame.
Import Supabase MissionsScreen.
Context (D : Prop) (e : Env) (w0 : World).
Let P := onlyGenerated e w0.
Local Abbreviation triple := (triple D).

Lemma onlyGenerated_request r E : triple P (request r) (λ _, P) E.
Proof. intros [[tm tu au [|b fs] rq] sc] Hw; exact Hw. Qed.

Lemma onlyGenerated_getCurrentUser E :
  triple P getCurrentUser (λ r w, P w ∧ (r = Err ∨ r = Ok (auth_user (store w)))) E.
Proof.
  intros [[tm tu au [|[] fs] rq] sc] Hw; (split; [exact Hw|]); first [by left | by right].
Qed.

Lemma onlyGenerated_getData_users value E :
  triple P (getData_users value) (λ _, P) E.
Proof. intros [[tm tu au [|[] fs] rq] sc] Hw; exact Hw. Qed.

Lemma onlyGenerated_getData_missions value E :
  triple P (getData_missions value) (λ _, P) E.
Proof. intros [[tm tu au [|[] fs] rq] sc] Hw; exact Hw. Qed.

Lemma onlyGenerated_getData_badges value E :
  triple P (getData_badges value) (λ _, P) E.
Proof. intros [[tm tu au [|[] fs] rq] sc] Hw; exact Hw. Qed.

Lemma onlyGenerated_setUserId u E : triple P (setUserId u) (λ _, P) E.
Proof. by intros w. Qed.

Lemma onlyGenerated_setMissions ms E : triple P (setMissions ms) (λ _, P) E.
Proof. by intros w. Qed.

Lemma onlyGenerated_setUserPoints p E : triple P (setUserPoints p) (λ _, P) E.
Proof. by intros w. Qed.

Lemma onlyGenerated_Alert_alert t m E : triple P (Alert_alert t m) (λ _, P) E.
Proof. by intros w. Qed.

Lemma onlyGenerated_console_error m E : triple P (console_error m) (λ _, P) E.
Proof. by intros w. Qed.

Lemma onlyGenerated_insert data uid tbl au :
  auth_user (store w0) = Some uid →
  data ∈ (dailyRows e uid ++ weeklyRows e uid)%list →
  ∀ tu fs rq sc fs' rq',
    P (mkWorld (mkStore tbl tu au fs rq) sc) →
    P (mkWorld (mkStore (insert_mission data tbl) tu au fs' rq') sc).
Proof.
  intros Hau Hdata tu fs rq sc fs' rq' (Hu & Ha & Hsub & Hrows).
  split; [done|]. split; [done|]. split.
  - etrans; [exact Hsub|apply insert_mission_subseteq].
  - intros i r [->|Hi]%insert_mission_lookup_inv; [right; by exists uid|by apply Hrows].
Qed.

Lemma onlyGenerated_insertData_missions data uid E :
  auth_user (store w0) = Some uid →
  data ∈ (dailyRows e uid ++ weeklyRows e uid)%list →
  triple P (insertData_missions data) (λ _, P) E.
Proof.
  intros Hau Hdata [[tm tu au [|[] fs] rq] sc] Hw; try exact Hw;
    by eapply (onlyGenerated_insert data uid).
Qed.

Lemma onlyGenerated_for_of_insert {B} (l : list B) (row : B → Mission.row) uid E :
  auth_user (store w0) = Some uid →
  (∀ x, x ∈ l → row x ∈ (dailyRows e uid ++ weeklyRows e uid)%list) →
  triple P (for_of l (λ x, insertData_missions (row x) ;; ret tt)) (λ _, P) E.
Proof.
  intros Hau. induction l as [|x l IH]; intros Hl; simpl; [by intros w|].
  eapply triple_bind; [|intros ?; apply IH; intros; apply Hl; by right].
  eapply triple_bind; [eapply onlyGenerated_insertData_missions|by intros ? w]; [done|].
  apply Hl. left.
Qed.

Section Body.
Context (rec : M unit).
Hypothesis Hrec : triple P rec (λ _, P) P.

Lemma onlyGenerated_generateDailyMissions uid E :
  auth_user (store w0) = Some uid →
  triple P (generateDailyMissions e rec uid) (λ _, P) E.
Proof.
  intros Hau. eapply triple_try_catch; [|apply onlyGenerated_console_error].
  eapply triple_bind; [|intros ?; exact Hrec].
  apply (onlyGenerated_for_of_insert _ _ uid); [done|].
  intros x Hx. apply elem_of_app. left. unfold dailyRows.
  by apply (list_elem_of_fmap_2 (instantiate uid (localMidnight e 1) (now e))).
Qed.

Lemma onlyGenerated_generateWeeklyMissions uid E :
  auth_user (store w0) = Some uid →
  triple P (generateWeeklyMissions e rec uid) (λ _, P) E.
Proof.
  intros Hau. eapply triple_try_catch; [|apply onlyGenerated_console_error].
  eapply triple_bind; [|intros ?; exact Hrec].
  apply (onlyGenerated_for_of_insert _ _ uid); [done|].
  intros x Hx. apply elem_of_app. right. unfold weeklyRows.
  by apply (list_elem_of_fmap_2 (instantiate uid (localMidnight e 7) (now e))).
Qed.

Lemma onlyGenerated_checkAndGenerateMissions uid currentMissions E :
  auth_user (store w0) = Some uid →
  triple P (checkAndGenerateMissions e rec uid currentMissions) (λ _, P) E.
Proof.
  intros Hau. unfold checkAndGenerateMissions.
  eapply triple_bind.
  - case_decide; [by apply onlyGenerated_generateDailyMissions|apply (triple_ret D tt (λ _, P))].
  - intros ?. case_decide;
      [by apply onlyGenerated_generateWeeklyMissions|apply (triple_ret D tt (λ _, P))].
Qed.

Lemma onlyGenerated_loadData_body : triple P (loadData_body e rec) (λ _, P) P.
Proof.
  eapply triple_try_catch with (E' := P).
  2:{ eapply triple_bind; [apply onlyGenerated_console_error|].
      intros ?; apply onlyGenerated_Alert_alert. }
  eapply triple_bind; [apply onlyGenerated_getCurrentUser|].
  intros [[u|]|]; [|by intros w [Hw _]..].
  eapply (triple_assume _ _ _ (auth_user (store w0) = Some u)).
  { intros w [(_ & Hau & _) [?|[= Hu]]]; [done|congruence]. }
  intros Hau. eapply triple_weaken with (P' := P) (Q' := λ _, P); [|by intros w [Hw _]|done].
  eapply triple_bind; [apply onlyGenerated_setUserId|]. intros ?.
  eapply triple_bind; [apply onlyGenerated_getData_users|].
  intros [userData|]; [|apply triple_throw].
  eapply triple_bind.
  { destruct userData; [apply (triple_ret D tt (λ _, P))|apply onlyGenerated_setUserPoints]. }
  intros ?. eapply triple_bind; [apply onlyGenerated_getData_missions|].
  intros [missionsData|]; [|apply triple_throw].
  eapply triple_bind; [apply onlyGenerated_setMissions|]. intros ?.
  eapply triple_bind; [by apply onlyGenerated_checkAndGenerateMissions|]. intros ?.
  eapply triple_bind; [apply onlyGenerated_getData_badges|].
  intros [|]; [apply (triple_ret D tt (λ _, P))|apply triple_throw].
Qed.

End Body.
End Frame.

Section ReloadFrame.
Import Supabase MissionsScreen.

Lemma loadData_onlyGenerated e w0 n :
  triple True (onlyGenerated e w0) (loadData e n)
         (λ _, onlyGenerated e w0) (onlyGenerated e w0).
Proof. induction n as [|n IH]; [by intros w|]. by apply onlyGenerated_loadData_body. Qed.

Lemma onlyGenerated_refl e w : onlyGenerated e w w.
Proof. split; [done|]. split; [done|]. split; [done|]. intros i r Hr. by left. Qed.

(** The handler of [loadData] does not throw. *)
Lemma loadData_never_throws e fuel w w' : loadData e fuel w ≠ Thrown w'.
Proof.
  destruct fuel as [|n]; [done|]. cbn [loadData]. unfold loadData_body, try_catch.
  match goal with |- context [match ?c with _ => _ end] => destruct c end; done.
Qed.

(** The three outcomes of a reload: it returns with template rows added and
    nothing else changed, it does not throw, and it is cut short only when the
    fuel does not cover the fault script. *)
Lemma loadData_outcome e fuel w :
  match loadData e fuel w with
  | Done _ w' => onlyGenerated e w w'
  | Thrown _ => False
  | Diverged => (fuel < length (faults (store w)) + 3)%nat
  end.
Proof.
  pose proof (loadData_onlyGenerated e w fuel w (onlyGenerated_refl e w)) as Hframe.
  pose proof (loadData_never_throws e fuel w) as Hthrow.
  destruct (decide (length (faults (store w)) + 3 ≤ fuel)%nat) as [Hle|Hlt].
  - pose proof (loadData_returns e fuel _ Hle w (Nat.le_refl _)) as Hret.
    by destruct (loadData e fuel w).
  - destruct (loadData e fuel w) as [[] w'|w'|]; [done|by destruct (Hthrow w')|lia].
Qed.

(** X3. A reload never throws to its caller, and whenever it returns, all
    it has done to the store is to add mission rows built from the templates
    for the user who is signed in: no row of the missions table was changed
    or removed, the users table and the session are as before.  It does
    return when only finitely many requests fail: with a fault script after
    which the store serves every request, three nested reloads and one for
    each entry of the script are enough.  (No bound holds for a store that
    keeps rejecting the insertions: X20.) *)
Theorem reload_returns_and_only_generates (e : Env) (fuel : nat) (w : World) :
  (∀ w', loadData e fuel w ≠ Thrown w')
  ∧ (∀ w', loadData e fuel w = Done tt w' →
       tbl_users (store w') = tbl_users (store w)
       ∧ auth_user (store w') = auth_user (store w)
       ∧ tbl_missions (store w) ⊆ tbl_missions (store w')
       ∧ ∀ i r, tbl_missions (store w') !! i = Some r →
                tbl_missions (store w) !! i = Some r
                ∨ ∃ uid, auth_user (store w) = Some uid
                         ∧ r ∈ (dailyRows e uid ++ weeklyRows e uid)%list)
  ∧ ((length (faults (store w)) + 3 ≤ fuel)%nat →
     ∃ w', loadData e fuel w = Done tt w').
Proof.
  pose proof (loadData_outcome e fuel w) as Hout. split; [|split].
  - intros w' Hw'. by rewrite Hw' in Hout.
  - intros w' Hw'. by rewrite Hw' in Hout.
  - intros Hfuel. destruct (loadData e fuel w) as [[] w'| |]; [by exists w'|done|lia].
Qed.

Lemma reload_returns_and_only_generates_witness :
  ∃ w', loadData sample_env 6 (with_faults [false; true; false] fresh_world) = Done tt w'
        ∧ tbl_users (store w')
          = tbl_users (store (with_faults [false; true; false] fresh_world))
        ∧ auth_user (store w')
          = auth_user (store (with_faults [false; true; false] fresh_world))
        ∧ tbl_missions (store (with_faults [false; true; false] fresh_world))
          ⊆ tbl_missions (store w')
        ∧ ∀ i r, tbl_missions (store w') !! i = Some r →
                 tbl_missions (store (with_faults [false; true; false] fresh_world)) !! i
                 = Some r
                 ∨ ∃ uid, auth_user (store (with_faults [false; true; false] fresh_world))
                          = Some uid
                          ∧ r ∈ (dailyRows sample_env uid ++ weeklyRows sample_env uid)%list.
Proof.
  destruct (reload_returns_and_only_generates sample_env 6
              (with_faults [false; true; false] fresh_world)) as (_ & Hframe & Hreturns).
  destruct Hreturns as [w' Hw']; [vm_compute; lia|].
  exists w'. split; [exact Hw'|]. by apply Hframe.
Defined.

(** X20. A reload does not always return.  The generators do not look at the
    result of an insertion and end with a reload, so as long as the store
    serves the reads and rejects the three insertions of the daily templates,
    every reload of a user without an active daily mission starts another
    one: after [n] such rounds the reload is more than [n] levels deep and
    has not returned. *)
Theorem reload_recurses_while_inserts_fail
    (e : Env) (uid : string) (n : nat) (fs : list bool) (w : World) :
  auth_user (store w) = Some uid →
  ¬ hasActive e uid Mission.daily (tbl_missions (store w)) →
  faults (store w)
  = (concat (replicate n [false; false; false; true; true; true]) ++ fs)%list →
  loadData e n w = Diverged.
Proof.
  revert w. induction n as [|n IH]; intros w Ha Hno Hf; [done|].
  destruct w as [[tm tu au fs' rq] [su sm sp sa se]]. simpl in Ha, Hno, Hf. subst au fs'.
  assert (Hl : length (activeMissions (localMidnight e 0) Mission.daily
                         (js_sort compareMissions (select_missions uid tm))) = 0%nat).
  { destruct (lacks e uid Mission.daily tm) eqn:Hl; [|by apply lacks_false in Hl].
    by apply bool_decide_eq_true in Hl. }
  cbn [loadData replicate concat app]. unfold loadData_body. run.
  destruct (tu !! uid) as [u|]; cbv [option_list option_rect]; run; rewrite (decide_True _ _ Hl); run;
    by rewrite IH.
Qed.

Lemma reload_recurses_while_inserts_fail_witness :
  loadData sample_env 2
    (with_faults [false; false; false; true; true; true;
                  false; false; false; true; true; true] fresh_world)
  = Diverged.
Proof.
  apply (reload_recurses_while_inserts_fail sample_env "u1" 2 []
           (with_faults [false; false; false; true; true; true;
                         false; false; false; true; true; true] fresh_world));
    [reflexivity| |reflexivity].
  intros (i & r & Hi & _). by vm_compute in Hi.
Defined.

End ReloadFrame.

(** ** Reloads and reports on a screen in sync *)

Section Reports.
Import Supabase MissionsScreen.

Lemma Reloaded_inSync uid w w' : Reloaded uid w w' → inSync uid w'.
Proof. intros Hr. apply Reloaded_self in Hr as []. by repeat split. Qed.

(** X2. After a reload with a store that serves every request, the screen
    shows exactly the missions the store holds for the user, in the order of
    the list, with the points of the user row (0 when the row has none, the
    points shown before when there is no row); nothing is alerted or logged,
    and the user has a daily and a weekly mission that have not expired. *)
Theorem reload_shows_stored_missions (e : Env) (uid : string) (fuel : nat) (w : World) :
  faults (store w) = [] → auth_user (store w) = Some uid → (3 ≤ fuel)%nat →
  ∃ w', loadData e fuel w = Done tt w'
        ∧ missions (screen w') = js_sort compareMissions
                                   (select_missions uid (tbl_missions (store w')))
        ∧ (∀ m : Mission.t,
             m ∈ missions (screen w')
             ↔ tbl_missions (store w') !! Mission.id m = Some (Mission.cols m)
               ∧ Mission.userId m = uid)
        ∧ userId (screen w') = Some uid
        ∧ userPoints (screen w')
          = match tbl_users (store w) !! uid with
            | Some u => default 0 (User.points u)
            | None => userPoints (screen w)
            end
        ∧ alerts (screen w') = alerts (screen w)
        ∧ errors (screen w') = errors (screen w)
        ∧ hasActive e uid Mission.daily (tbl_missions (store w'))
        ∧ hasActive e uid Mission.weekly (tbl_missions (store w')).
Proof.
  intros Hf Ha Hfuel.
  destruct (loadData_reloads e uid fuel w) as (w' & Hrun & Hr & Hd & Hw);
    [done|done|eapply Nat.lt_le_trans; [apply missing_le|done]|].
  exists w'. destruct Hr as [_ _ _ _ Hmis Hid Hpts Hal Her].
  split; [done|]. split; [done|]. split.
  { intros m. rewrite Hmis. apply elem_of_loaded. }
  done.
Qed.

Lemma reload_shows_stored_missions_witness :
  ∃ w', loadData sample_env 3 sample_world = Done tt w'
        ∧ missions (screen w') = js_sort compareMissions
                                   (select_missions "u1" (tbl_missions (store w')))
        ∧ (∀ m : Mission.t,
             m ∈ missions (screen w')
             ↔ tbl_missions (store w') !! Mission.id m = Some (Mission.cols m)
               ∧ Mission.userId m = "u1")
        ∧ userId (screen w') = Some "u1"
        ∧ userPoints (screen w')
          = match tbl_users (store sample_world) !! "u1" with
            | Some u => default 0 (User.points u)
            | None => userPoints (screen sample_world)
            end
        ∧ alerts (screen w') = alerts (screen sample_world)
        ∧ errors (screen w') = errors (screen sample_world)
        ∧ hasActive sample_env "u1" Mission.daily (tbl_missions (store w'))
        ∧ hasActive sample_env "u1" Mission.weekly (tbl_missions (store w')).
Proof.
  apply (reload_shows_stored_missions sample_env "u1" 3 sample_world);
    [reflexivity|reflexivity|lia].
Defined.

(** X4. A failed read of the session, of the user row or of the missions ends
    the reload at once: the failure is logged and alerted once, no further
    request is issued, no table is changed, and the list of missions of the
    screen stays as it was. *)
Theorem failed_read_is_reported
    (e : Env) (fuel : nat) (w : World) (uid : string) (k : nat) (fs : list bool) :
  auth_user (store w) = Some uid →
  faults (store w) = (replicate k false ++ true :: fs)%list → (k ≤ 2)%nat →
  ∃ w', loadData e (S fuel) w = Done tt w'
        ∧ tbl_missions (store w') = tbl_missions (store w)
        ∧ tbl_users (store w') = tbl_users (store w)
        ∧ faults (store w') = fs
        ∧ length (requests (store w')) = (length (requests (store w)) + k + 1)%nat
        ∧ missions (screen w') = missions (screen w)
        ∧ alerts (screen w') = (i18n_t e "error", i18n_t e "loadDataError") :: alerts (screen w)
        ∧ errors (screen w') = "Error loading data:" :: errors (screen w).
Proof.
  destruct w as [[tm tu au fs' rq] [su sm sp sa se]]. simpl. intros -> -> Hk.
  destruct k as [|[|[|k]]]; [| | |lia]; cbn [loadData replicate app].
  - eexists. split; [reflexivity|]. simpl. repeat split; lia.
  - eexists. split; [reflexivity|]. simpl. repeat split; lia.
  - unfold loadData_body. run.
    destruct (tu !! uid); eexists; (split; [reflexivity|]); simpl; repeat split; lia.
Qed.

Lemma failed_read_is_reported_witness :
  ∃ w', loadData sample_env 1 (with_faults [false; false; true] sample_world) = Done tt w'
        ∧ tbl_missions (store w') = tbl_missions (store (with_faults [false; false; true] sample_world))
        ∧ tbl_users (store w') = tbl_users (store (with_faults [false; false; true] sample_world))
        ∧ faults (store w') = []
        ∧ length (requests (store w'))
          = (length (requests (store (with_faults [false; false; true] sample_world))) + 2 + 1)%nat
        ∧ missions (screen w') = missions (screen (with_faults [false; false; true] sample_world))
        ∧ alerts (screen w')
          = (i18n_t sample_env "error", i18n_t sample_env "loadDataError")
              :: alerts (screen (with_faults [false; false; true] sample_world))
        ∧ errors (screen w')
          = "Error loading data:" :: errors (screen (with_faults [false; false; true] sample_world)).
Proof.
  apply (failed_read_is_reported sample_env 0 (with_faults [false; false; true] sample_world)
           "u1" 2 []); [reflexivity|reflexivity|lia].
Defined.

Lemma findMission_loaded uid tbl missionId r :
  tbl !! missionId = Some r → Mission.userId r = uid →
  findMission missionId (loaded uid tbl) = Some (Mission.mk missionId r).
Proof.
  intros Hrow Hu.
  destruct (findMission missionId (loaded uid tbl)) as [m|] eqn:Hfind.
  - apply findMission_Some in Hfind as [[Hm _]%elem_of_loaded Hid].
    destruct m as [i c]. simpl in *. subst i. rewrite Hrow in Hm. by injection Hm as ->.
  - unfold findMission in Hfind.
    pose proof (find_none _ _ Hfind (Mission.mk missionId r)) as Hno.
    simpl in Hno. rewrite bool_decide_eq_true_2 in Hno by done.
    discriminate Hno. apply list_elem_of_In, elem_of_loaded. done.
Qed.

(** A report on a screen that is in sync. *)
Lemma updateMissionProgress_inSync
    (e : Env) (fuel : nat) (uid missionId : string) (newProgress : Z)
    (w : World) (r : Mission.row) :
  (3 ≤ fuel)%nat → truthy uid = true → inSync uid w →
  tbl_missions (store w) !! missionId = Some r → Mission.userId r = uid →
  let completed := bool_decide (Mission.target r ≤ newProgress) in
  let awarded := completed && negb (Mission.completed r) in
  let newPoints := userPoints (screen w) + (if awarded then Mission.points r else 0) in
  ∃ w', updateMissionProgress e fuel missionId newProgress w = Done tt w'
        ∧ inSync uid w'
        ∧ tbl_missions (store w') !! missionId
          = Some (Mission.set_progress newProgress completed r)
        ∧ userPoints (screen w') = newPoints
        ∧ tbl_users (store w')
          = (if awarded then update_user uid newPoints (tbl_users (store w))
             else tbl_users (store w))
        ∧ alerts (screen w')
          = ((if awarded
             then [(i18n_t e "missionCompleted",
                    i18n_t_points e "earnedPoints" (Mission.points r))]
             else [])%list ++ alerts (screen w))%list.
Proof.
  intros Hfuel Ht (Hf & Ha & Hu & Hm & Hp) Hrow Hr completed awarded newPoints.
  pose proof (findMission_loaded uid _ missionId r Hrow Hr) as Hfind.
  rewrite <- Hm in Hfind.
  destruct (updateMissionProgress_served e fuel missionId newProgress w _ uid
              Hfuel Hf Ha Hfind) as (w' & Hrun & Hrel).
  exists w'. split; [done|]. split; [by eapply Reloaded_inSync|].
  assert (Haw : awards (Mission.mk missionId r) newProgress w = awarded).
  { unfold awards. rewrite Hu, Ht. simpl. by rewrite andb_true_r. }
  unfold afterReport in Hrel. rewrite Haw, Hu in Hrel. simpl in Hrel. fold completed in Hrel.
  destruct Hrel as [_ _ Hus Hrows _ _ Hpts Hal _].
  split.
  { eapply lookup_weaken; [|exact Hrows].
    destruct awarded; simpl; unfold update_mission; by rewrite lookup_alter_eq, Hrow. }
  subst newPoints. destruct awarded; simpl in *.
  - split; [|done]. rewrite Hpts. by eapply fetchedPoints_update_user.
  - split; [|done]. rewrite Hpts, Z.add_0_r, Hp. done.
Qed.

(** X7. One report on a screen that is in sync with a store that serves every
    request.  The row gets the reported progress and
    [completed = (newProgress >= target)]; the points of the mission are
    added to the user's points exactly when this report reaches the target
    and the stored row was not completed; and the screen is in sync again, so
    that reports can follow one another. *)
Theorem report_on_synced_screen
    (e : Env) (fuel : nat) (uid missionId : string) (newProgress : Z)
    (w : World) (r : Mission.row) :
  (3 ≤ fuel)%nat → truthy uid = true → inSync uid w →
  tbl_missions (store w) !! missionId = Some r → Mission.userId r = uid →
  let completed := bool_decide (Mission.target r ≤ newProgress) in
  let awarded := completed && negb (Mission.completed r) in
  let newPoints := userPoints (screen w) + (if awarded then Mission.points r else 0) in
  ∃ w', updateMissionProgress e fuel missionId newProgress w = Done tt w'
        ∧ inSync uid w'
        ∧ tbl_missions (store w') !! missionId
          = Some (Mission.set_progress newProgress completed r)
        ∧ userPoints (screen w') = newPoints
        ∧ tbl_users (store w')
          = (if awarded then update_user uid newPoints (tbl_users (store w))
             else tbl_users (store w))
        ∧ alerts (screen w')
          = ((if awarded
             then [(i18n_t e "missionCompleted",
                    i18n_t_points e "earnedPoints" (Mission.points r))]
             else [])%list ++ alerts (screen w))%list.
Proof. apply updateMissionProgress_inSync. Qed.

Lemma report_on_synced_screen_witness :
  ∃ w', updateMissionProgress sample_env 3 "m1" 2 sample_world = Done tt w'
        ∧ inSync "u1" w'
        ∧ tbl_missions (store w') !! "m1"
          = Some (Mission.set_progress 2 true (sample_row "u1" Mission.daily false))
        ∧ userPoints (screen w') = 15
        ∧ tbl_users (store w') = update_user "u1" 15 (tbl_users (store sample_world))
        ∧ alerts (screen w') = [("missionCompleted", "earnedPoints")].
Proof.
  apply (report_on_synced_screen sample_env 3 "u1" "m1" 2 sample_world
           (sample_row "u1" Mission.daily false));
    [lia|reflexivity|repeat split; by vm_compute|reflexivity|reflexivity].
Defined.

(** X8. The completion of a mission is recomputed from every report.  A report
    below the target on a completed mission stores it as not completed again,
    and a later report that reaches the target adds the points of the mission
    a second time. *)
Theorem lowered_progress_earns_points_again
    (e : Env) (fuel : nat) (uid missionId : string) (p1 p2 p3 : Z)
    (w : World) (r : Mission.row) :
  (3 ≤ fuel)%nat → truthy uid = true → inSync uid w →
  tbl_missions (store w) !! missionId = Some r → Mission.userId r = uid →
  Mission.completed r = false →
  Mission.target r ≤ p1 → p2 < Mission.target r → Mission.target r ≤ p3 →
  ∃ w1 w2 w3,
    updateMissionProgress e fuel missionId p1 w = Done tt w1
    ∧ updateMissionProgress e fuel missionId p2 w1 = Done tt w2
    ∧ updateMissionProgress e fuel missionId p3 w2 = Done tt w3
    ∧ tbl_missions (store w1) !! missionId = Some (Mission.set_progress p1 true r)
    ∧ tbl_missions (store w2) !! missionId = Some (Mission.set_progress p2 false r)
    ∧ tbl_missions (store w3) !! missionId = Some (Mission.set_progress p3 true r)
    ∧ userPoints (screen w1) = userPoints (screen w) + Mission.points r
    ∧ userPoints (screen w2) = userPoints (screen w1)
    ∧ userPoints (screen w3) = userPoints (screen w) + 2 * Mission.points r.
Proof.
  intros Hfuel Ht Hs Hrow Hu Hc H1 H2 H3.
  destruct (updateMissionProgress_inSync e fuel uid missionId p1 w r)
    as (w1 & Hrun1 & Hs1 & Hrow1 & Hp1 & _); [done..|].
  destruct (updateMissionProgress_inSync e fuel uid missionId p2 w1 _ Hfuel Ht Hs1 Hrow1 Hu)
    as (w2 & Hrun2 & Hs2 & Hrow2 & Hp2 & _).
  destruct (updateMissionProgress_inSync e fuel uid missionId p3 w2 _ Hfuel Ht Hs2 Hrow2 Hu)
    as (w3 & Hrun3 & Hs3 & Hrow3 & Hp3 & _).
  cbn [Mission.set_progress Mission.target Mission.completed Mission.points] in *.
  rewrite Hc in Hp1.
  rewrite (bool_decide_eq_true_2 _ H1) in *.
  rewrite (bool_decide_eq_false_2 (Mission.target r ≤ p2)) in * by lia.
  rewrite (bool_decide_eq_true_2 _ H3) in *.
  simpl in *.
  exists w1, w2, w3. repeat split; try done; lia.
Qed.

Lemma lowered_progress_earns_points_again_witness :
  ∃ w1 w2 w3,
    updateMissionProgress sample_env 3 "m1" 2 sample_world = Done tt w1
    ∧ updateMissionProgress sample_env 3 "m1" 1 w1 = Done tt w2
    ∧ updateMissionProgress sample_env 3 "m1" 2 w2 = Done tt w3
    ∧ tbl_missions (store w1) !! "m1"
      = Some (Mission.set_progress 2 true (sample_row "u1" Mission.daily false))
    ∧ tbl_missions (store w2) !! "m1"
      = Some (Mission.set_progress 1 false (sample_row "u1" Mission.daily false))
    ∧ tbl_missions (store w3) !! "m1"
      = Some (Mission.set_progress 2 true (sample_row "u1" Mission.daily false))
    ∧ userPoints (screen w1) = 5 + 10
    ∧ userPoints (screen w2) = userPoints (screen w1)
    ∧ userPoints (screen w3) = 5 + 2 * 10.
Proof.
  apply (lowered_progress_earns_points_again sample_env 3 "u1" "m1" 2 1 2 sample_world
           (sample_row "u1" Mission.daily false));
    first [reflexivity | lia | by simpl | repeat split; by vm_compute].
Defined.

Lemma findMission_elem_of missionId l (m : Mission.t) :
  m ∈ l → Mission.id m = missionId → ∃ m', findMission missionId l = Some m'.
Proof.
  intros Hm Hid. destruct (findMission missionId l) as [m'|] eqn:Hfind; [by exists m'|].
  pose proof (find_none _ _ Hfind m) as Hno. simpl in Hno.
  rewrite bool_decide_eq_true_2 in Hno by done.
  discriminate Hno. by apply list_elem_of_In.
Qed.

(** X9. When the write of the mission row fails, the report ends there: the
    failure is logged and alerted, this one request is all that was sent, and
    the tables, the points and the list of the screen are as before. *)
Theorem failed_mission_write_is_reported
    (e : Env) (fuel : nat) (missionId : string) (newProgress : Z) (w : World)
    (m : Mission.t) (fs : list bool) :
  faults (store w) = true :: fs →
  m ∈ missions (screen w) → Mission.id m = missionId →
  ∃ w', updateMissionProgress e fuel missionId newProgress w = Done tt w'
        ∧ tbl_missions (store w') = tbl_missions (store w)
        ∧ tbl_users (store w') = tbl_users (store w)
        ∧ requests (store w') = ReqUpdate t_missions missionId :: requests (store w)
        ∧ faults (store w') = fs
        ∧ missions (screen w') = missions (screen w)
        ∧ userPoints (screen w') = userPoints (screen w)
        ∧ alerts (screen w')
          = (i18n_t e "error", i18n_t e "updateProgressError") :: alerts (screen w)
        ∧ errors (screen w') = "Error updating mission progress:" :: errors (screen w).
Proof.
  intros Hf Hm Hid.
  destruct (findMission_elem_of missionId _ m Hm Hid) as [m' Hfind].
  eexists. split; [by eapply report_mission_write_failure|]. done.
Qed.

Lemma failed_mission_write_is_reported_witness :
  ∃ w', updateMissionProgress sample_env 3 "m1" 2 (with_faults [true] sample_world) = Done tt w'
        ∧ tbl_missions (store w') = tbl_missions (store sample_world)
        ∧ tbl_users (store w') = tbl_users (store sample_world)
        ∧ requests (store w') = [ReqUpdate t_missions "m1"]
        ∧ faults (store w') = []
        ∧ missions (screen w') = missions (screen sample_world)
        ∧ userPoints (screen w') = 5
        ∧ alerts (screen w') = [("error", "updateProgressError")]
        ∧ errors (screen w') = ["Error updating mission progress:"].
Proof.
  apply (failed_mission_write_is_reported sample_env 3 "m1" 2 (with_faults [true] sample_world)
           (Mission.mk "m1" (sample_row "u1" Mission.daily false)) []);
    [reflexivity|left|reflexivity].
Defined.

End Reports.

(** ** How long generated missions count *)

Section Expiry.
Import Supabase MissionsScreen.

Lemma dailyRows_expiresAt e uid r :
  r ∈ dailyRows e uid → Mission.expiresAt r = localMidnight e 1.
Proof.
  unfold dailyRows, dailyMissionTemplates. cbn. rewrite !elem_of_cons, elem_of_nil.
  by intros [->|[->|[->|[]]]].
Qed.

Lemma weeklyRows_expiresAt e uid r :
  r ∈ weeklyRows e uid → Mission.expiresAt r = localMidnight e 7.
Proof.
  unfold weeklyRows, weeklyMissionTemplates. cbn. rewrite !elem_of_cons, elem_of_nil.
  by intros [->|[->|[->|[]]]].
Qed.

Lemma localMidnight_le e e' k :
  tzOffset e' = tzOffset e →
  localMidnight e' 0 ≤ localMidnight e k ↔ now e' < localMidnight e (k + 1).
Proof.
  intros Htz. unfold localMidnight, msPerDay. rewrite Htz.
  split; intros H; Z.div_mod_to_equations; lia.
Qed.

(** X6. How long generated missions keep the check from generating new ones.
    The check of a later reload (same time zone) counts a mission of the
    daily templates as active until the end of the day after the one it was
    created on, and a mission of the weekly templates until the end of the
    seventh day after: a mission that expires at a midnight still counts on
    the day that begins at that midnight. *)
Theorem generated_missions_stay_active
    (e e' : Env) (uid id : string) (r : Mission.row) (l : list Mission.t) :
  tzOffset e' = tzOffset e →
  r ∈ (dailyRows e uid ++ weeklyRows e uid)%list → Mission.mk id r ∈ l →
  Mission.mk id r ∈ activeMissions (localMidnight e' 0) (Mission.type r) l
  ↔ now e' < localMidnight e 0
             + (if decide (Mission.type r = Mission.daily) then 2 else 8) * msPerDay.
Proof.
  intros Htz Hr Hm. rewrite activeMissions_elem_of. cbn [Mission.cols].
  apply elem_of_app in Hr as [Hr|Hr].
  - rewrite (dailyRows_expiresAt _ _ _ Hr), (dailyRows_type _ _ _ Hr).
    rewrite decide_True by done.
    rewrite (localMidnight_le e e' 1 Htz), (localMidnight_plus e (1 + 1)). simpl. tauto.
  - rewrite (weeklyRows_expiresAt _ _ _ Hr), (weeklyRows_type _ _ _ Hr).
    rewrite decide_False by done.
    rewrite (localMidnight_le e e' 7 Htz), (localMidnight_plus e (7 + 1)). simpl. tauto.
Qed.

Lemma generated_missions_stay_active_witness :
  Mission.mk "m2" (Mission.mkRow "u1" "logFoodTwice" "logFoodTwiceDesc" Mission.daily
                                 10 2 0 false 1704214800000 1704150000000)
    ∈ activeMissions (localMidnight (mkEnv 1704250000000 25200000 (λ k, k) (λ k _, k)) 0)
        Mission.daily
        [Mission.mk "m2" (Mission.mkRow "u1" "logFoodTwice" "logFoodTwiceDesc" Mission.daily
                                        10 2 0 false 1704214800000 1704150000000)]
  ↔ 1704250000000 < localMidnight sample_env 0 + 2 * msPerDay.
Proof.
  apply (generated_missions_stay_active sample_env
           (mkEnv 1704250000000 25200000 (λ k, k) (λ k _, k)) "u1" "m2"
           (Mission.mkRow "u1" "logFoodTwice" "logFoodTwiceDesc" Mission.daily
                          10 2 0 false 1704214800000 1704150000000)
           [Mission.mk "m2" (Mission.mkRow "u1" "logFoodTwice" "logFoodTwiceDesc" Mission.daily
                                           10 2 0 false 1704214800000 1704150000000)]);
    [reflexivity|vm_compute; left|left].
Defined.

End Expiry.

(** ** What a report leaves alone *)

Section ReportFrame.
Import Supabase MissionsScreen.

Lemma set_progress_same r :
  r = Mission.set_progress (Mission.progress r) (Mission.completed r) r.
Proof. by destruct r. Qed.

Lemma onlyReported_tail e missionId w w1 w' :
  auth_user (store w1) = auth_user (store w) →
  (tbl_missions (store w1) = tbl_missions (store w)
   ∨ ∃ p c, tbl_missions (store w1) = update_mission missionId p c (tbl_missions (store w))) →
  (tbl_users (store w1) = tbl_users (store w)
   ∨ ∃ u p, userId (screen w) = Some u
            ∧ tbl_users (store w1) = update_user u p (tbl_users (store w))) →
  onlyGenerated e w1 w' →
  onlyReported missionId w w'.
Proof.
  intros Hau Htm Htu (Hu' & Ha' & Hsub & _). split; [congruence|]. split; [|split].
  - intros i r Hi Hr. eapply lookup_weaken; [|exact Hsub].
    destruct Htm as [->|(p & c & ->)]; [done|].
    unfold update_mission. by rewrite lookup_alter_ne.
  - intros r Hr. destruct Htm as [Htm|(p & c & Htm)].
    + exists (Mission.progress r), (Mission.completed r).
      eapply lookup_weaken; [|exact Hsub]. rewrite Htm, Hr. f_equal. apply set_progress_same.
    + exists p, c. eapply lookup_weaken; [|exact Hsub]. rewrite Htm.
      unfold update_mission. by rewrite lookup_alter_eq, Hr.
  - intros u Hne. rewrite Hu'. destruct Htu as [->|(u' & p & Hsu & ->)]; [done|].
    unfold update_user. rewrite lookup_alter_ne; [done|]. congruence.
Qed.

(** The reload that ends a report. *)
Ltac report_tail e fuel missionId :=
  match goal with
  | |- context [loadData e fuel ?w1] =>
      let w' := fresh "w'" in
      let Hout := fresh "Hout" in
      pose proof (loadData_outcome e fuel w1) as Hout;
      destruct (loadData e fuel w1) as [[] w'|w'|];
      [ eapply (onlyReported_tail e missionId _ w1); [reflexivity| | |exact Hout]
      | destruct Hout
      | simpl in *; lia ]
  end.

(** The three outcomes of a report. *)
Lemma updateMissionProgress_outcome e fuel missionId newProgress w :
  match updateMissionProgress e fuel missionId newProgress w with
  | Done _ w' => onlyReported missionId w w'
  | Thrown _ => False
  | Diverged => (fuel < length (faults (store w)) + 3)%nat
  end.
Proof.
  assert (Hrefl : ∀ w1, store w1 = store w → onlyReported missionId w w1).
  { intros w1 Hs. unfold onlyReported. rewrite Hs. split; [done|]. split; [done|]. split; [|done].
    intros r Hr. exists (Mission.progress r), (Mission.completed r).
    rewrite Hr. f_equal. apply set_progress_same. }
  destruct w as [[tm tu au fs rq] [su sm sp sa se]].
  unfold updateMissionProgress. run.
  destruct (findMission missionId sm) as [mission|] eqn:Hfind; [|by apply Hrefl].
  destruct fs as [|[] fs]; run.
  - (* every request is served *)
    destruct (bool_decide (Mission.target mission ≤ newProgress)),
             (Mission.completed mission), su as [u|]; simpl;
      try destruct (truthy u); run; report_tail e fuel missionId;
      first [by left | right; by eauto].
  - (* the write of the mission fails *)
    split; [done|]. split; [done|]. split; [|done].
    intros r Hr. exists (Mission.progress r), (Mission.completed r).
    simpl in *. rewrite Hr. f_equal. apply set_progress_same.
  - destruct (bool_decide (Mission.target mission ≤ newProgress)),
             (Mission.completed mission), su as [u|]; simpl;
      try destruct (truthy u); run;
      try (destruct fs as [|[] fs]; run);
      report_tail e fuel missionId; first [by left | right; by eauto].
Qed.

(** X10. A report never throws to its caller, and whenever it returns, of the
    missions it has changed none but the reported one, and of that one only
    the progress and the completion; of the users none but the user of the
    screen; the session is as before.  It does return when only finitely many
    requests fail: with a fault script after which the store serves every
    request, three nested reloads and one for each entry of the script are
    enough.  (The reload that ends a report need not return when the store
    keeps rejecting insertions: X20.) *)
Theorem report_returns_and_touches_one_mission
    (e : Env) (fuel : nat) (missionId : string) (newProgress : Z) (w : World) :
  (∀ w', updateMissionProgress e fuel missionId newProgress w ≠ Thrown w')
  ∧ (∀ w', updateMissionProgress e fuel missionId newProgress w = Done tt w' →
       auth_user (store w') = auth_user (store w)
       ∧ (∀ i r, i ≠ missionId →
                 tbl_missions (store w) !! i = Some r →
                 tbl_missions (store w') !! i = Some r)
       ∧ (∀ r, tbl_missions (store w) !! missionId = Some r →
               ∃ progress completed,
                 tbl_missions (store w') !! missionId
                 = Some (Mission.set_progress progress completed r))
       ∧ (∀ u, userId (screen w) ≠ Some u →
               tbl_users (store w') !! u = tbl_users (store w) !! u))
  ∧ ((length (faults (store w)) + 3 ≤ fuel)%nat →
     ∃ w', updateMissionProgress e fuel missionId newProgress w = Done tt w').
Proof.
  pose proof (updateMissionProgress_outcome e fuel missionId newProgress w) as Hout.
  split; [|split].
  - intros w' Hw'. by rewrite Hw' in Hout.
  - intros w' Hw'. by rewrite Hw' in Hout.
  - intros Hfuel.
    destruct (updateMissionProgress e fuel missionId newProgress w) as [[] w'| |];
      [by exists w'|done|lia].
Qed.

Lemma report_returns_and_touches_one_mission_witness :
  ∃ w', updateMissionProgress sample_env 5 "m1" 2 (with_faults [false; true] sample_world)
        = Done tt w'
        ∧ auth_user (store w') = auth_user (store (with_faults [false; true] sample_world))
        ∧ (∀ i r, i ≠ "m1" →
                  tbl_missions (store (with_faults [false; true] sample_world)) !! i = Some r →
                  tbl_missions (store w') !! i = Some r)
        ∧ (∀ r, tbl_missions (store (with_faults [false; true] sample_world)) !! "m1" = Some r →
                ∃ progress completed,
                  tbl_missions (store w') !! "m1"
                  = Some (Mission.set_progress progress completed r))
        ∧ (∀ u, userId (screen (with_faults [false; true] sample_world)) ≠ Some u →
                tbl_users (store w') !! u
                = tbl_users (store (with_faults [false; true] sample_world)) !! u).
Proof.
  destruct (report_returns_and_touches_one_mission sample_env 5 "m1" 2
              (with_faults [false; true] sample_world)) as (_ & Hframe & Hreturns).
  destruct Hreturns as [w' Hw']; [simpl; lia|].
  exists w'. split; [exact Hw'|]. by apply Hframe.
Defined.

End ReportFrame.

(** ** Weight records *)

Section WeightOrder.
Import WeightTrackingScreen.

Lemma compareByDateDesc_total a b : compareByDateDesc a b ≤ 0 ∨ compareByDateDesc b a ≤ 0.
Proof. unfold compareByDateDesc. lia. Qed.

Lemma js_sort_newestFirst l : newestFirst (js_sort compareByDateDesc l).
Proof.
  unfold newestFirst.
  eapply Sorted_weaken; [|apply (js_sort_Sorted compareByDateDesc compareByDateDesc_total)].
  intros x y. unfold compareByDateDesc. lia.
Qed.

Lemma newestFirst_head r l x :
  newestFirst (r :: l) → x ∈ l → WeightRecord.date x ≤ WeightRecord.date r.
Proof.
  intros Hs Hx. apply Sorted_StronglySorted in Hs; [|intros a b c; lia].
  apply StronglySorted_inv in Hs as [_ Hr]. rewrite Forall_forall in Hr. by apply Hr.
Qed.

Lemma newestFirst_tail r l : newestFirst (r :: l) → newestFirst l.
Proof. intros Hs. by apply Sorted_inv in Hs as [? _]. Qed.

(** X13. Whatever the order in which the store returns the records, both
    screens compare the weights of the two records with the latest dates:
    the fetched list is a rearrangement of [latest :: previous :: rest] in
    which no record is newer than [latest] and none of [rest] is newer than
    [previous]. *)
Theorem trend_of_records_in_any_order
    (weightData : list WeightRecord.t) (shown : option Trend) (home : Trend) :
  (2 ≤ length weightData)%nat →
  ∃ latest previous rest,
    weightData ≡ₚ latest :: previous :: rest
    ∧ (∀ r, r ∈ previous :: rest → WeightRecord.date r ≤ WeightRecord.date latest)
    ∧ (∀ r, r ∈ rest → WeightRecord.date r ≤ WeightRecord.date previous)
    ∧ WeightTrackingScreen.loadData weightData shown
      = Some (compareWeights (WeightRecord.weight latest) (WeightRecord.weight previous))
    ∧ HomeScreen.loadDashboardData_weightTrend weightData home
      = compareWeights (WeightRecord.weight latest) (WeightRecord.weight previous).
Proof.
  intros Hlen.
  pose proof (js_sort_Permutation compareByDateDesc weightData) as Hperm.
  pose proof (js_sort_newestFirst weightData) as Hsorted.
  pose proof (js_sort_length compareByDateDesc weightData) as Hl.
  unfold WeightTrackingScreen.loadData, HomeScreen.loadDashboardData_weightTrend.
  rewrite decide_True by done.
  destruct (js_sort compareByDateDesc weightData) as [|r0 [|r1 rest]];
    [simpl in Hl; lia..|].
  exists r0, r1, rest. split; [done|]. split; [|split; [|done]].
  - intros r. by apply newestFirst_head.
  - intros r. apply newestFirst_head. by eapply newestFirst_tail.
Qed.

Lemma trend_of_records_in_any_order_witness :
  ∃ latest previous rest,
    reverse sample_weights ≡ₚ latest :: previous :: rest
    ∧ (∀ r, r ∈ previous :: rest → WeightRecord.date r ≤ WeightRecord.date latest)
    ∧ (∀ r, r ∈ rest → WeightRecord.date r ≤ WeightRecord.date previous)
    ∧ WeightTrackingScreen.loadData (reverse sample_weights) None
      = Some (compareWeights (WeightRecord.weight latest) (WeightRecord.weight previous))
    ∧ HomeScreen.loadDashboardData_weightTrend (reverse sample_weights) stagnant
      = compareWeights (WeightRecord.weight latest) (WeightRecord.weight previous).
Proof.
  apply (trend_of_records_in_any_order (reverse sample_weights) None stagnant).
  vm_compute. lia.
Defined.

Lemma Math_ceil_div_ge (a b k : Z) : 0 < b → k ≤ Math_ceil_div a b ↔ (k - 1) * b < a.
Proof.
  intros Hb. unfold Math_ceil_div. split.
  - intros H. assert (- a / b ≤ - k) by lia.
    pose proof (Z.mul_div_le (- a) b Hb). pose proof (Z.mod_pos_bound (- a) b Hb).
    pose proof (Z.div_mod (- a) b). nia.
  - intros H. enough (- a / b < - k + 1) by lia.
    apply Z.div_lt_upper_bound; [done|]. nia.
Qed.

(** X14. The weekly prompt: a reload opens the modal to add a weight exactly
    when there is a record and more than six days lie between now and the
    latest one; it never closes a modal that is open, and without records it
    does not prompt. *)
Theorem weekly_prompt_after_six_days
    (now : Z) (weightData : list WeightRecord.t) (open : bool) :
  loadData_showAddWeightModal now weightData open = true
  ↔ open = true
    ∨ ∃ latest, latest ∈ weightData
        ∧ (∀ r, r ∈ weightData → WeightRecord.date r ≤ WeightRecord.date latest)
        ∧ 6 * msPerDay < Z.abs (now - WeightRecord.date latest).
Proof.
  pose proof (js_sort_elem_of compareByDateDesc) as Hin.
  pose proof (js_sort_newestFirst weightData) as Hsorted.
  unfold loadData_showAddWeightModal. cbn zeta.
  destruct (js_sort compareByDateDesc weightData) as [|r0 rest] eqn:Hs.
  - split; [by left|]. intros [?|(latest & Hl & _)]; [done|].
    apply (Hin latest weightData) in Hl. rewrite Hs in Hl. by apply elem_of_nil in Hl.
  - assert (Hmax : ∀ r, r ∈ weightData → WeightRecord.date r ≤ WeightRecord.date r0).
    { intros r Hr. apply (Hin r weightData) in Hr. rewrite Hs in Hr.
      apply elem_of_cons in Hr as [->|Hr]; [done|]. by eapply newestFirst_head. }
    assert (Hr0 : r0 ∈ weightData) by (apply (Hin r0 weightData); rewrite Hs; left).
    case_decide as Hd; rewrite Math_ceil_div_ge in Hd by done.
    + split; [|done]. intros _. right. exists r0. split; [done|]. split; [done|lia].
    + split; [by left|]. intros [?|(latest & Hl & Hlmax & Hgap)]; [done|].
      exfalso. apply Hd.
      assert (WeightRecord.date latest = WeightRecord.date r0)
        by (apply Z.le_antisymm; [by apply Hmax|by apply Hlmax]).
      lia.
Qed.

(** X15. What [addWeightRecord] leaves on the screen is what a reload of the
    records would show. *)
Theorem added_weight_agrees_with_reload
    (now : Z) (weight : Qc) (uid : string) (updateFails : bool) (st : State) :
  userId st = Some uid → truthy uid = true →
  newestFirst (weightRecords st) →
  (∀ r, r ∈ weightRecords st → WeightRecord.date r ≤ now) →
  let st' := (addWeightRecord now (Some weight) false updateFails st).1 in
  weightRecords st' = WeightRecord.mk weight now :: weightRecords st
  ∧ js_sort compareByDateDesc (weightRecords st') = weightRecords st'
  ∧ weightTrend st' = WeightTrackingScreen.loadData (weightRecords st') (weightTrend st)
  ∧ showAddWeightModal st' = false
  ∧ loadData_showAddWeightModal now (weightRecords st') false = false
  ∧ alerts st' = alerts st.
Proof.
  intros Hu Ht Hsorted Hpast. cbn zeta. unfold addWeightRecord. rewrite Hu, Ht.
  cbn [fst weightRecords weightTrend showAddWeightModal alerts].
  assert (Hnew : newestFirst (WeightRecord.mk weight now :: weightRecords st)).
  { constructor; [done|]. destruct (weightRecords st) as [|r l] eqn:Hr; constructor.
    simpl. apply Hpast. left. }
  pose proof (newestFirst_sorted _ Hnew) as Hsort.
  split; [done|]. split; [done|]. split; [|split; [done|split; [|done]]].
  - unfold WeightTrackingScreen.loadData. rewrite Hsort.
    by destruct (weightRecords st).
  - unfold loadData_showAddWeightModal. rewrite Hsort. cbn zeta. simpl.
    rewrite decide_False; [done|]. rewrite Math_ceil_div_ge by done.
    rewrite Z.sub_diag. simpl. unfold msPerDay. lia.
Qed.

Lemma added_weight_agrees_with_reload_witness :
  weightRecords (addWeightRecord 1704700000000 (Some (Qc_of_Z 69)) false false
                   (mkState (Some "u1") (Some (Qc_of_Z 70)) sample_weights true
                            (Some decreasing) [])).1
  = WeightRecord.mk (Qc_of_Z 69) 1704700000000 :: sample_weights
  ∧ js_sort compareByDateDesc
      (weightRecords (addWeightRecord 1704700000000 (Some (Qc_of_Z 69)) false false
                        (mkState (Some "u1") (Some (Qc_of_Z 70)) sample_weights true
                                 (Some decreasing) [])).1)
    = weightRecords (addWeightRecord 1704700000000 (Some (Qc_of_Z 69)) false false
                       (mkState (Some "u1") (Some (Qc_of_Z 70)) sample_weights true
                                (Some decreasing) [])).1
  ∧ weightTrend (addWeightRecord 1704700000000 (Some (Qc_of_Z 69)) false false
                   (mkState (Some "u1") (Some (Qc_of_Z 70)) sample_weights true
                            (Some decreasing) [])).1
    = WeightTrackingScreen.loadData
        (weightRecords (addWeightRecord 1704700000000 (Some (Qc_of_Z 69)) false false
                          (mkState (Some "u1") (Some (Qc_of_Z 70)) sample_weights true
                                   (Some decreasing) [])).1)
        (Some decreasing)
  ∧ showAddWeightModal (addWeightRecord 1704700000000 (Some (Qc_of_Z 69)) false false
                          (mkState (Some "u1") (Some (Qc_of_Z 70)) sample_weights true
                                   (Some decreasing) [])).1 = false
  ∧ loadData_showAddWeightModal 1704700000000
      (weightRecords (addWeightRecord 1704700000000 (Some (Qc_of_Z 69)) false false
                        (mkState (Some "u1") (Some (Qc_of_Z 70)) sample_weights true
                                 (Some decreasing) [])).1) false = false
  ∧ alerts (addWeightRecord 1704700000000 (Some (Qc_of_Z 69)) false false
              (mkState (Some "u1") (Some (Qc_of_Z 70)) sample_weights true
                       (Some decreasing) [])).1 = [].
Proof.
  apply (added_weight_agrees_with_reload 1704700000000 (Qc_of_Z 69) "u1" false
           (mkState (Some "u1") (Some (Qc_of_Z 70)) sample_weights true (Some decreasing) []));
    [reflexivity|reflexivity|repeat constructor; simpl; lia|].
  intros r Hr. cbn [weightRecords] in Hr. unfold sample_weights in Hr.
  rewrite !elem_of_cons, elem_of_nil in Hr.
  destruct Hr as [->|[->|[]]]; simpl; lia.
Defined.

End WeightOrder.

(** ** The weight chart *)

Section WeightDisplay.
Import WeightTrackingScreen.

(** X17. The chart shows the twelve newest records (all of them when there are
    fewer), oldest first, so that its last point is the newest record; the
    labels and the target line have as many points, and the target line is
    flat at the target weight, or at 0 when none is set. *)
Theorem chart_of_newest_twelve
    (formatLabel : Z → string) (targetWeight : option Qc)
    (weightRecords : list WeightRecord.t) :
  let '(labels, weightData, targetData) :=
    prepareChartData formatLabel targetWeight weightRecords in
  let n := (length weightRecords `min` 12)%nat in
  length labels = n ∧ length weightData = n ∧ length targetData = n
  ∧ (∀ i, (i < n)%nat →
       weightData !! i = WeightRecord.weight <$> weightRecords !! (n - 1 - i)%nat
       ∧ labels !! i
         = (λ r, formatLabel (WeightRecord.date r)) <$> weightRecords !! (n - 1 - i)%nat)
  ∧ last weightData = WeightRecord.weight <$> head weightRecords
  ∧ (∀ x, x ∈ targetData → x = default 0%Qc targetWeight).
Proof.
  unfold prepareChartData. cbn zeta.
  set (n := (length weightRecords `min` 12)%nat).
  assert (Hn : length (take 12 weightRecords) = n) by (rewrite length_take; lia).
  rewrite length_replicate, !length_fmap, length_reverse, Hn.
  split; [done|]. split; [done|]. split; [done|]. split; [|split].
  - intros i Hi. rewrite !list_lookup_fmap.
    rewrite reverse_lookup by lia. rewrite Hn.
    rewrite lookup_take_lt by lia.
    replace (n - S i)%nat with (n - 1 - i)%nat by lia. done.
  - rewrite fmap_last, last_reverse.
    by destruct weightRecords.
  - intros x [-> _]%elem_of_replicate. done.
Qed.

End WeightDisplay.

(** ** The dashboard *)

Section Dashboard.
Import HomeScreen.

(** X18. The window of the macro averages, in dates: the entries dated on one of
    the seven dates of the weekly chart or later count, and the entries dated
    seven days before today count as well when the clock reads midnight UTC. *)
Theorem macro_window_in_dates (now : Z) (foodData : list Food.t) (food : Food.t) :
  food ∈ last7DaysFoods now foodData
  ↔ food ∈ foodData
    ∧ (isoDate now - 6 ≤ Food.date food
       ∨ (Food.date food = isoDate now - 7 ∧ now `mod` msPerDay = 0)).
Proof.
  rewrite elem_of_last7DaysFoods. unfold isoDate, msPerDay.
  split; intros [Hin H]; (split; [done|]); revert H; Z.div_mod_to_equations; lia.
Qed.


End Dashboard.

(** ** The mascot and the start button of a mission *)

Section Mascot.
Import MissionsScreen.

Lemma Qc_of_nat_pos (n : nat) : n ≠ 0%nat → (0 < Qc_of_Z (Z.of_nat n))%Qc.
Proof. intros Hn. rewrite <- Z2Qc_inj_0. apply (proj1 (Z2Qc_inj_lt 0 (Z.of_nat n))). lia. Qed.

Lemma share_is_one (c n : nat) :
  n ≠ 0%nat → (Qc_of_Z (Z.of_nat c) / Qc_of_Z (Z.of_nat n))%Qc = 1%Qc ↔ c = n.
Proof.
  intros Hn. pose proof (Qc_of_nat_pos n Hn) as Hpos.
  assert (Hne : Qc_of_Z (Z.of_nat n) ≠ 0%Qc) by by apply not_eq_sym, Qclt_not_eq.
  split.
  - intros H. apply (f_equal (λ x, x * Qc_of_Z (Z.of_nat n))%Qc) in H.
    rewrite test_field, Qcmult_1_l in H by done. apply Z2Qc_inj in H. lia.
  - intros ->. rewrite <- (Qcmult_1_l (Qc_of_Z (Z.of_nat n))) at 1.
    by apply Qcdiv_mult_l.
Qed.

Lemma share_at_least_half (c n : nat) :
  n ≠ 0%nat →
  (Q2Qc (1 # 2) ≤ Qc_of_Z (Z.of_nat c) / Qc_of_Z (Z.of_nat n))%Qc ↔ (n ≤ 2 * c)%nat.
Proof.
  intros Hn. pose proof (Qc_of_nat_pos n Hn) as Hpos.
  assert (Hne : Qc_of_Z (Z.of_nat n) ≠ 0%Qc) by by apply not_eq_sym, Qclt_not_eq.
  rewrite (Qcmult_le_mono_pos_r _ _ _ Hpos), test_field by done.
  rewrite (Qcmult_le_mono_pos_l _ _ 2%Qc) by done.
  rewrite Qcmult_assoc.
  replace (2 * Q2Qc (1 # 2))%Qc with 1%Qc by (by apply Qc_is_canon).
  rewrite Qcmult_1_l, <- Z2Qc_inj_2, <- Z2Qc_inj_mul, <- Z2Qc_inj_le. lia.
Qed.

Lemma share_is_positive (c n : nat) :
  n ≠ 0%nat →
  (0 < Qc_of_Z (Z.of_nat c) / Qc_of_Z (Z.of_nat n))%Qc ↔ (0 < c)%nat.
Proof.
  intros Hn. pose proof (Qc_of_nat_pos n Hn) as Hpos.
  assert (Hne : Qc_of_Z (Z.of_nat n) ≠ 0%Qc) by by apply not_eq_sym, Qclt_not_eq.
  rewrite (Qcmult_lt_mono_pos_r _ _ _ Hpos), test_field by done.
  rewrite Qcmult_0_l, <- Z2Qc_inj_0, <- Z2Qc_inj_lt. lia.
Qed.

(** X11. The mascot follows the number [c] of completed missions among the [n]
    of the list: neutral for an empty list, excited when all are completed,
    happy when at least half of them are, motivated when some are, and
    thinking when none is. *)
Theorem mascot_follows_completed_missions (e : Env) (missionsData : list Mission.t) :
  let n := length missionsData in
  let c := length (filter (λ mission : Mission.t, Mission.completed mission = true)
                          missionsData) in
  (c ≤ n)%nat
  ∧ updateKoalaState e missionsData
    = if decide (n = 0%nat) then ("neutral", i18n_t e "noMissionsYet")
      else if decide (c = n) then ("excited", i18n_t e "allMissionsCompleted")
      else if decide (n ≤ 2 * c)%nat then ("happy", i18n_t e "halfwayThere")
      else if decide (0 < c)%nat then ("motivated", i18n_t e "keepGoing")
      else ("thinking", i18n_t e "startMissions").
Proof.
  cbn zeta. split; [apply length_filter|].
  unfold updateKoalaState. case_decide as Hn; [done|]. cbn zeta.
  set (c := length (filter _ missionsData)).
  destruct (decide (c = length missionsData)) as [Hc|Hc].
  { by rewrite decide_True by by apply share_is_one. }
  rewrite decide_False by by rewrite share_is_one.
  destruct (decide (length missionsData ≤ 2 * c)%nat) as [Hh|Hh].
  { by rewrite decide_True by by apply share_at_least_half. }
  rewrite decide_False by by rewrite share_at_least_half.
  destruct (decide (0 < c)%nat) as [Hp|Hp].
  { by rewrite decide_True by by apply share_is_positive. }
  by rewrite decide_False by by rewrite share_is_positive.
Qed.

(** X12. The start button of the generated missions.  When the six template
    titles have different translations, the missions built from the templates
    lead to the screen to add food (logFoodTwice, consumeFiber), to the
    screen to add an exercise (logExerciseOnce, burnCalories), or show their
    description (noFriedFood, proteinIntake).  The titles are stored
    translated: under translations [e'] that share none of these titles with
    the ones the missions were created with, every one of them only shows its
    description. *)
Theorem generated_missions_route_by_title (e : Env) (uid : string) :
  NoDup (i18n_t e <$> ["logFoodTwice"; "consumeFiber"; "logExerciseOnce";
                       "burnCalories"; "noFriedFood"; "proteinIntake"]) →
  (∀ id, handleMissionAction e <$> (Mission.mk id <$> dailyRows e uid)
         = [Navigate "AddFood"; Navigate "AddExercise"; Navigate "AddFood"])
  ∧ (∀ id, handleMissionAction e <$> (Mission.mk id <$> weeklyRows e uid)
           = [Navigate "AddExercise";
              ShowAlert (i18n_t e "noFriedFood") (i18n_t e "noFriedFoodDesc");
              ShowAlert (i18n_t e "proteinIntake") (i18n_t e "proteinIntakeDesc")])
  ∧ ∀ e' id r,
      (∀ k k', k ∈ ["logFoodTwice"; "consumeFiber"; "logExerciseOnce"; "burnCalories"] →
               k' ∈ ["logFoodTwice"; "consumeFiber"; "logExerciseOnce";
                     "burnCalories"; "noFriedFood"; "proteinIntake"] →
               i18n_t e' k ≠ i18n_t e k') →
      r ∈ (dailyRows e uid ++ weeklyRows e uid)%list →
      handleMissionAction e' (Mission.mk id r)
      = ShowAlert (Mission.title r) (Mission.description r).
Proof.
  intros Hnd. cbn in Hnd.
  repeat (apply NoDup_cons in Hnd as [?%not_elem_of_cons Hnd]).
  repeat match goal with
         | H : _ ∧ _ |- _ => destruct H
         | H : _ ∉ _ :: _ |- _ => apply not_elem_of_cons in H
         end.
  split; [|split].
  - intros id. unfold dailyRows, dailyMissionTemplates, handleMissionAction. cbn.
    repeat (first [rewrite decide_True by done | rewrite decide_False by done]).
    done.
  - intros id. unfold weeklyRows, weeklyMissionTemplates, handleMissionAction. cbn.
    repeat (first [rewrite decide_True by done | rewrite decide_False by done]).
    done.
  - intros e' id r Hdiff Hr.
    assert (Ht : ∃ k', k' ∈ ["logFoodTwice"; "consumeFiber"; "logExerciseOnce";
                              "burnCalories"; "noFriedFood"; "proteinIntake"]
                       ∧ Mission.title r = i18n_t e k').
    { unfold dailyRows, weeklyRows, dailyMissionTemplates, weeklyMissionTemplates in Hr.
      cbn in Hr. rewrite !elem_of_cons, elem_of_nil in Hr.
      destruct Hr as [->|[->|[->|[->|[->|[->|[]]]]]]]; cbn;
        eexists; (split; [|reflexivity]); repeat first [by left | right]. }
    destruct Ht as (k' & Hk' & Ht).
    unfold handleMissionAction. cbn [Mission.title Mission.description Mission.cols].
    rewrite Ht.
    rewrite !decide_False; [done|intros Heq; symmetry in Heq; revert Heq; apply Hdiff; [repeat first [by left | right]|done]..].
Qed.

Lemma generated_missions_route_by_title_witness :
  (∀ id, handleMissionAction sample_env <$> (Mission.mk id <$> dailyRows sample_env "u1")
         = [Navigate "AddFood"; Navigate "AddExercise"; Navigate "AddFood"])
  ∧ (∀ id, handleMissionAction sample_env <$> (Mission.mk id <$> weeklyRows sample_env "u1")
           = [Navigate "AddExercise";
              ShowAlert "noFriedFood" "noFriedFoodDesc";
              ShowAlert "proteinIntake" "proteinIntakeDesc"])
  ∧ ∀ e' id r,
      (∀ k k', k ∈ ["logFoodTwice"; "consumeFiber"; "logExerciseOnce"; "burnCalories"] →
               k' ∈ ["logFoodTwice"; "consumeFiber"; "logExerciseOnce";
                     "burnCalories"; "noFriedFood"; "proteinIntake"] →
               i18n_t e' k ≠ i18n_t sample_env k') →
      r ∈ (dailyRows sample_env "u1" ++ weeklyRows sample_env "u1")%list →
      handleMissionAction e' (Mission.mk id r)
      = ShowAlert (Mission.title r) (Mission.description r).
Proof.
  apply (generated_missions_route_by_title sample_env "u1").
  apply (bool_decide_unpack _). by vm_compute.
Defined.

End Mascot.
